(** * Ingestion pipeline and hybrid query of the document index

    A shallow embedding of [index_documents.py] (token accounting, summary
    generation, chunking, embedding, bulk assembly) and of
    [mcp_opensearch_server.py] (the hybrid parent/child query), followed by
    the properties established about them.

    Layout: Part I holds the embedding (Python values, the effect monad, the
    two source files, the models of the external splitter and search engine,
    and the concrete environments used as test fixtures); Part II holds the
    lemmas and theorems. *)

From Stdlib Require Import String Ascii.
From Stdlib Require Import List ZArith NArith QArith Lia Bool.
From Equations Require Import Equations.
Import ListNotations.

Set Implicit Arguments.
Close Scope Q_scope.
Set Warnings "-register-all".

(* ===================================================================== *)
(** * Part I. The embedding                                               *)
(* ===================================================================== *)

(** ** Python strings

    A Python [str] is a sequence of Unicode code points; it is modelled as a
    list of code points so that [split], [strip] and slicing read as they do
    in CPython. *)
Module Py.

Definition str : Type := list N.

(** Code points of an ASCII literal of the source. *)
Fixpoint py (s : string) : str :=
  match s with
  | EmptyString => []
  | String c s' => N_of_ascii c :: py s'
  end.

Definition LF : N := 10%N.

Fixpoint str_eqb (a b : str) : bool :=
  match a, b with
  | [], [] => true
  | x :: a', y :: b' => N.eqb x y && str_eqb a' b'
  | _, _ => false
  end.

(** [str.isspace] on one code point (CPython's [_PyUnicode_IsWhitespace]). *)
Definition isspace (c : N) : bool :=
  ((9 <=? c) && (c <=? 13) || (28 <=? c) && (c <=? 32)
   || (c =? 133) || (c =? 160) || (c =? 5760)
   || (8192 <=? c) && (c <=? 8202)
   || (c =? 8232) || (c =? 8233) || (c =? 8239) || (c =? 8287)
   || (c =? 12288))%N.

Fixpoint lstrip (s : str) : str :=
  match s with
  | c :: s' => if isspace c then lstrip s' else s
  | [] => []
  end.

Definition rstrip (s : str) : str := rev (lstrip (rev s)).

(** [s.strip()] with no argument. *)
Definition strip (s : str) : str := rstrip (lstrip s).

(** [s.startswith(p)]. *)
Fixpoint startswith (p s : str) : bool :=
  match p, s with
  | [], _ => true
  | x :: p', y :: s' => N.eqb x y && startswith p' s'
  | _ :: _, [] => false
  end.

(** Puts [c] in front of the piece being scanned. *)
Definition cons_head (c : N) (ps : list str) : list str :=
  match ps with
  | p :: ps' => (c :: p) :: ps'
  | [] => [[c]]
  end.

(** [s.split(sep)] for a separator [d :: sep'] (CPython refuses the empty
    one): a left-to-right scan that cuts at every occurrence of the separator
    and resumes after it, so occurrences never overlap. *)
Equations? split_on (d : N) (sep' : str) (s : str) : list str
  by wf (length s) lt :=
  split_on d sep' [] := [[]];
  split_on d sep' (c :: s') with startswith (d :: sep') (c :: s') := {
    | true := [] :: split_on d sep' (skipn (length sep') s');
    | false := cons_head c (split_on d sep' s') }.
Proof.
  all: simpl; try rewrite length_skipn; lia.
Qed.

(** A raised exception, with the text [str(e)] gives. *)
Inductive exn : Type :=
| Exception (msg : str).

Definition exn_str (e : exn) : str :=
  match e with Exception m => m end.

(** The outcome of a call that may raise. *)
Inductive result (A : Type) : Type :=
| Ok (a : A)
| Raise (e : exn).
Arguments Ok {A} a.
Arguments Raise {A} e.

(** [sep.join(pieces)]. *)
Fixpoint join (sep : str) (pieces : list str) : str :=
  match pieces with
  | [] => []
  | [p] => p
  | p :: ps => p ++ sep ++ join sep ps
  end.

(** [c.lower()] on the ASCII letters; other code points are left as they
    are (no code point outside ASCII lowers to a letter of the two mode
    names the source compares with). *)
Definition lower_char (c : N) : N :=
  if ((65 <=? c) && (c <=? 90))%N then (c + 32)%N else c.

Definition lower (s : str) : str := map lower_char s.

(** [l[:n]] for a Python integer [n]: a negative bound counts from the end. *)
Definition slice_to (A : Type) (l : list A) (n : Z) : list A :=
  if (0 <=? n)%Z then firstn (Z.to_nat n) l
  else firstn (length l - Z.to_nat (- n)) l.

End Py.
Import Py.

(** ** Records written to the index *)

(** An embedding: the list of floats the embedding service returns.  The
    pipeline only stores and forwards the numbers, so they are kept as
    rationals. *)
Definition vector : Type := list Q.

(** The value of [my_join_field] of a chunk: [{"name": ..., "parent": ...}]. *)
Record join_field : Type := mk_join_field {
  name : str;
  parent : option str
}.

(** The dict [child_doc] of [process_pdf_file]. *)
Record child_doc : Type := mk_child_doc {
  chunk_id : str;
  chunk_text : str;
  embedding : vector;
  my_join_field : join_field
}.

(** The dict [parent_doc] of [process_pdf_file]; its join field is the plain
    string ["document"]. *)
Record parent_doc : Type := mk_parent_doc {
  doc_id : str;
  file_name : str;
  file_path : str;
  summary : str;
  timestamp : str;
  parent_join_field : str
}.

Inductive source : Type :=
| ParentSource (p : parent_doc)
| ChildSource (c : child_doc).

(** One entry of the list handed to [helpers.bulk]; [routing] is absent from
    the parent's entry. *)
Record action : Type := mk_action {
  _op_type : str;
  _index : str;
  _id : str;
  _source : source;
  routing : option str
}.

(** ** The search request and response *)

Record script : Type := mk_script {
  script_source : str;
  params_query_vector : vector
}.

(** The fragment of the query DSL that [handle_query] builds. *)
Inductive query : Type :=
| q_match (field : str) (text : str)
| q_bool_should (should : list query)
| q_script_score (q : query) (s : script)
| q_has_child (type : str) (q : query) (score_mode : str).

(** [hit["_source"]] read with [.get]: a missing key gives [None]. *)
Record hit_source : Type := mk_hit_source {
  src_file_name : option str;
  src_file_path : option str;
  src_summary : option str;
  src_timestamp : option str
}.

Record hit : Type := mk_hit {
  hit_id : str;
  hit_score : Q;
  hit_source_of : hit_source
}.

(** The response body: both ["hits"] levels may be missing. *)
Record search_response : Type := mk_search_response {
  hits : option (option (list hit))
}.

Record parent_info : Type := mk_parent_info {
  info_doc_id : str;
  info_file_name : option str;
  info_file_path : option str;
  info_summary : option str;
  info_timestamp : option str
}.

(** [MCPResponse(error=...)] or [MCPResponse(results=...)]. *)
Inductive MCPResponse : Type :=
| MCPResponse_error (error : str)
| MCPResponse_results (results : list parent_info).

Record MCPRequest : Type := mk_request { request_query : str }.

(** The arguments of [openai.Completion.create]. *)
Record completion_request : Type := mk_completion_request {
  cr_model : str;
  cr_prompt : str;
  cr_max_tokens : Z;
  cr_temperature : Q;
  cr_n : Z;
  cr_stop : option (list str)
}.

(** ** Effects

    Every call that leaves the process is a [call]; [resp] gives the type of
    what comes back.  A program is a tree of calls; an environment answers
    them one at a time, threading its own state, and the run records every
    call with its answer. *)

Inductive level : Type := INFO | WARNING | ERROR.

(** The log lines of the two files, with the values they interpolate. *)
Inductive log_msg : Type :=
| msg_summary_generated
| msg_error_generating_summary (e : exn)
| msg_paragraph_chunks (n : nat)
| msg_semantic_chunks (n : nat)
| msg_unknown_chunk_mode
| msg_error_generating_embedding (e : exn)
| msg_indexed (doc : str) (n : nat)
| msg_error_bulk_indexing (e : exn)
| msg_processing_file (path : str)
| msg_error_loading_pdf (path : str) (e : exn)
| msg_received_query (q : str)
| msg_vectorization_complete
| msg_executing_query
| msg_error_executing_search (e : exn)
| msg_found_parents (n : nat).

Inductive call : Type :=
| c_uuid4
| c_utcnow_isoformat
| c_basename (path : str)
| c_abspath (path : str)
| c_pdf_load (path : str)
| c_completion_create (req : completion_request)
| c_embed_query (text : str)
| c_bulk (actions : list action)
| c_search (index : str) (body : query)
| c_log (lvl : level) (msg : log_msg).

Definition resp (c : call) : Type :=
  match c with
  | c_uuid4 => str
  | c_utcnow_isoformat => str
  | c_basename _ => str
  | c_abspath _ => str
  | c_pdf_load _ => result (list str)
  | c_completion_create _ => result str
  | c_embed_query _ => result vector
  | c_bulk _ => result unit
  | c_search _ _ => result search_response
  | c_log _ _ => unit
  end.

(** A call together with its answer, as a run records it. *)
Inductive obs : Type :=
| o_uuid4 (r : str)
| o_utcnow_isoformat (r : str)
| o_basename (path : str) (r : str)
| o_abspath (path : str) (r : str)
| o_pdf_load (path : str) (r : result (list str))
| o_completion_create (req : completion_request) (r : result str)
| o_embed_query (text : str) (r : result vector)
| o_bulk (actions : list action) (r : result unit)
| o_search (index : str) (body : query) (r : result search_response)
| o_log (lvl : level) (msg : log_msg).

Definition observe (c : call) : resp c -> obs :=
  match c with
  | c_uuid4 => o_uuid4
  | c_utcnow_isoformat => o_utcnow_isoformat
  | c_basename p => o_basename p
  | c_abspath p => o_abspath p
  | c_pdf_load p => o_pdf_load p
  | c_completion_create req => o_completion_create req
  | c_embed_query t => o_embed_query t
  | c_bulk a => o_bulk a
  | c_search i b => o_search i b
  | c_log l m => fun _ => o_log l m
  end.

Inductive prog (R : Type) : Type :=
| Ret (r : R)
| Vis (c : call) (k : resp c -> prog R).
Arguments Ret {R} r.
Arguments Vis {R} c k.

Fixpoint bind (A B : Type) (m : prog A) (f : A -> prog B) : prog B :=
  match m with
  | Ret a => f a
  | Vis c k => Vis c (fun x => bind (k x) f)
  end.

Definition perform (c : call) : prog (resp c) := Vis c (fun x => Ret x).

Declare Scope prog_scope.
Delimit Scope prog_scope with prog.
Notation "x <- m ;; k" := (bind m (fun x => k))
  (at level 61, m at next level, right associativity) : prog_scope.
Notation "m ;; k" := (bind m (fun _ => k))
  (at level 61, right associativity) : prog_scope.
Open Scope prog_scope.

(** [for x in l: acc = body(acc, x)] with effects in the body. *)
Fixpoint for_each (A S : Type) (l : list A) (acc : S)
    (body : S -> A -> prog S) : prog S :=
  match l with
  | [] => Ret acc
  | x :: l' => acc' <- body acc x ;; for_each l' acc' body
  end.

(** An environment: a state and the answer to each call in a state. *)
Record env : Type := mk_env {
  world : Type;
  answer : forall c : call, world -> resp c * world
}.

Definition trace : Type := list obs.

(** Runs a program in an environment from a state: the value returned, the
    calls made with their answers in order, and the state left. *)
Fixpoint run (R : Type) (E : env) (p : prog R) (w : world E)
    : R * trace * world E :=
  match p with
  | Ret r => (r, [], w)
  | Vis c k =>
      let (x, w1) := answer E c w in
      let '(r, tr, w2) := run E (k x) w1 in
      (r, observe c x :: tr, w2)
  end.

Definition value_of (R : Type) (E : env) (p : prog R) (w : world E) : R :=
  fst (fst (run E p w)).

Definition trace_of (R : Type) (E : env) (p : prog R) (w : world E) : trace :=
  snd (fst (run E p w)).

(** The batches handed to [helpers.bulk] during a run, in order. *)
Fixpoint submitted (tr : trace) : list (list action) :=
  match tr with
  | [] => []
  | o_bulk actions _ :: tr' => actions :: submitted tr'
  | _ :: tr' => submitted tr'
  end.

(** The answers of the embedding service during a run, in order. *)
Fixpoint embed_answers (tr : trace) : list (result vector) :=
  match tr with
  | [] => []
  | o_embed_query _ r :: tr' => r :: embed_answers tr'
  | _ :: tr' => embed_answers tr'
  end.

(** The search requests sent during a run, in order. *)
Fixpoint searches (tr : trace) : list (str * query) :=
  match tr with
  | [] => []
  | o_search i b _ :: tr' => (i, b) :: searches tr'
  | _ :: tr' => searches tr'
  end.

(** The requests sent to the generation service, with their answers. *)
Fixpoint completions (tr : trace) : list (completion_request * result str) :=
  match tr with
  | [] => []
  | o_completion_create req r :: tr' => (req, r) :: completions tr'
  | _ :: tr' => completions tr'
  end.

(** ** Configuration and the tokenizer library *)

(** The module-level settings read from the environment. *)
Record Config : Type := mk_config {
  OPENAI_SUMMARY_MODEL : str;
  OPENAI_EMBEDDINGS_MODEL : str;
  SUMMARY_MAX_TOKENS : Z;
  CONTEXT_MAX_TOKENS : Z;
  OPENSEARCH_INDEX : str;
  CHUNK_MODE : str
}.

(** What [tiktoken.encoding_for_model] returns: the tokenizer of a model.
    [encode] raises [ValueError] on a text that spells one of the tokenizer's
    special tokens; [decode] is only ever handed a prefix of what [encode]
    returned, which the library decodes without raising (bytes that form no
    character are replaced). *)
Record Encoding : Type := mk_encoding {
  encode : str -> result (list N);
  decode : list N -> str
}.

(** ** [index_documents.py] *)
Section IndexDocuments.

Variable cfg : Config.

(** The tokenizer library, taken as given.  The lookup raises [KeyError] on
    a model name the library does not map to a tokenizer. *)
Variable encoding_for_model : str -> result Encoding.

(** [RecursiveCharacterTextSplitter(chunk_size, chunk_overlap).split_text],
    a class of the text-splitting library. *)
Variable RecursiveCharacterTextSplitter : nat -> nat -> str -> list str.


Definition truncate_text (text : str) (max_tokens : Z) (model : str)
    : result str :=
  match encoding_for_model model with
  | Raise e => Raise e
  | Ok encoding =>
      match encode encoding text with
      | Raise e => Raise e
      | Ok tokens =>
          if (Z.of_nat (length tokens) <=? max_tokens)%Z then Ok text
          else
            let truncated_tokens := slice_to tokens max_tokens in
            Ok (decode encoding truncated_tokens)
      end
  end.

(** The f-string of [generate_summary]. *)
Definition summary_prompt (text : str) : str :=
  py "Summarize the following document:" ++ [LF; LF] ++ text
  ++ [LF; LF] ++ py "Summary:".

(** The truncation stands before the [try]: what the tokenizer raises
    leaves the function; only the generation call is guarded. *)
Definition generate_summary (text : str) : prog (result str) :=
  let prompt := summary_prompt text in
  match
    truncate_text prompt (CONTEXT_MAX_TOKENS cfg) (OPENAI_SUMMARY_MODEL cfg)
  with
  | Raise e => Ret (Raise e)
  | Ok prompt =>
      response <- perform (c_completion_create
                    {| cr_model := OPENAI_SUMMARY_MODEL cfg;
                       cr_prompt := prompt;
                       cr_max_tokens := SUMMARY_MAX_TOKENS cfg;
                       cr_temperature := (1 # 2)%Q;
                       cr_n := 1;
                       cr_stop := None |}) ;;
      match response with
      | Ok text0 =>
          let summary := strip text0 in
          perform (c_log INFO msg_summary_generated) ;;
          Ret (Ok summary)
      | Raise e =>
          perform (c_log ERROR (msg_error_generating_summary e)) ;;
          Ret (Ok [])
      end
  end.

(** Truthiness of a string: [if p:]. *)
Definition truthy (p : str) : bool :=
  match p with [] => false | _ :: _ => true end.

(** The loop [for paragraph in text.split("\n\n"): ...] appending to
    [chunks]. *)
Definition paragraph_loop (text : str) (chunks : list str) : list str :=
  fold_left
    (fun chunks paragraph =>
       let p := strip paragraph in
       if truthy p then chunks ++ [p] else chunks)
    (split_on LF [LF] text) chunks.

Definition chunk_document (text : str) : prog (list str) :=
  let chunks := [] in
  if str_eqb (lower (CHUNK_MODE cfg)) (py "paragraph") then
    let chunks := paragraph_loop text chunks in
    perform (c_log INFO (msg_paragraph_chunks (length chunks))) ;;
    Ret chunks
  else if str_eqb (lower (CHUNK_MODE cfg)) (py "semantic") then
    let chunks := RecursiveCharacterTextSplitter 1000 200 text in
    perform (c_log INFO (msg_semantic_chunks (length chunks))) ;;
    Ret chunks
  else
    perform (c_log WARNING msg_unknown_chunk_mode) ;;
    Ret (paragraph_loop text chunks).

(** The [embedder] argument is the client of the embedding service; its
    call is [c_embed_query]. *)
Definition get_embedding (text : str) : prog vector :=
  r <- perform (c_embed_query text) ;;
  match r with
  | Ok embedding0 => Ret embedding0
  | Raise e =>
      perform (c_log ERROR (msg_error_generating_embedding e)) ;;
      Ret []
  end.

(** The first half of [index_documents_to_opensearch]: the list [actions]
    as it stands when it is handed to [helpers.bulk]. *)
Definition build_actions (parent_doc : parent_doc) (child_docs : list child_doc)
    : list action :=
  let actions := [] in
  let parent_action :=
    {| _op_type := py "index";
       _index := OPENSEARCH_INDEX cfg;
       _id := doc_id parent_doc;
       _source := ParentSource parent_doc;
       routing := None |} in
  let actions := actions ++ [parent_action] in
  fold_left
    (fun actions child =>
       let action :=
         {| _op_type := py "index";
            _index := OPENSEARCH_INDEX cfg;
            _id := chunk_id child;
            _source := ChildSource child;
            routing := Some (doc_id parent_doc) |} in
       actions ++ [action])
    child_docs actions.

(** A function of the source either returns or raises; [Ok tt] is a return
    of [None].  Both arms of the [try] fall through to the end of the
    function. *)
Definition index_documents_to_opensearch
    (parent_doc : parent_doc) (child_docs : list child_doc)
    : prog (result unit) :=
  let actions := build_actions parent_doc child_docs in
  r <- perform (c_bulk actions) ;;
  match r with
  | Ok _ =>
      perform (c_log INFO (msg_indexed (doc_id parent_doc) (length child_docs))) ;;
      Ret (Ok tt)
  | Raise e =>
      perform (c_log ERROR (msg_error_bulk_indexing e)) ;;
      Ret (Ok tt)
  end.

(** [child["my_join_field"]["parent"] = parent_doc_id].  Every child dict and
    its join dict are built afresh in the loop that creates them and are
    held by [child_docs] alone, so the update in place is an update of the
    list's elements. *)
Definition set_parent (parent_doc_id : str) (child : child_doc) : child_doc :=
  {| chunk_id := chunk_id child;
     chunk_text := chunk_text child;
     embedding := embedding child;
     my_join_field :=
       {| name := name (my_join_field child);
          parent := Some parent_doc_id |} |}.

(** The body of the loop [for chunk in chunks] of [process_pdf_file]. *)
Definition embed_chunk (summary0 : str) (child_docs : list child_doc)
    (chunk : str) : prog (list child_doc) :=
  let context_text := py "Summary: " ++ summary0 ++ [LF; LF] ++ chunk in
  embedding0 <- get_embedding context_text ;;
  id <- perform c_uuid4 ;;
  let child_doc :=
    {| chunk_id := id;
       chunk_text := chunk;
       embedding := embedding0;
       my_join_field := {| name := py "chunk"; parent := None |} |} in
  Ret (child_docs ++ [child_doc]).

(** Only the loading stands inside the [try]; [generate_summary] is called
    after it, so what the tokenizer raises there leaves the function. *)
Definition process_pdf_file (file_path0 : str) : prog (result unit) :=
  perform (c_log INFO (msg_processing_file file_path0)) ;;
  loaded <- perform (c_pdf_load file_path0) ;;
  match loaded with
  | Raise e =>
      perform (c_log ERROR (msg_error_loading_pdf file_path0 e)) ;;
      Ret (Ok tt)
  | Ok documents =>
      let full_text := join [LF; LF] documents in
      generated <- generate_summary full_text ;;
      match generated with
      | Raise e => Ret (Raise e)
      | Ok summary0 =>
          chunks <- chunk_document full_text ;;
          child_docs <- for_each chunks [] (embed_chunk summary0) ;;
          parent_doc_id <- perform c_uuid4 ;;
          base <- perform (c_basename file_path0) ;;
          abs <- perform (c_abspath file_path0) ;;
          now <- perform c_utcnow_isoformat ;;
          let parent_doc :=
            {| doc_id := parent_doc_id;
               file_name := base;
               file_path := abs;
               summary := summary0;
               timestamp := now;
               parent_join_field := py "document" |} in
          let child_docs := map (set_parent parent_doc_id) child_docs in
          index_documents_to_opensearch parent_doc child_docs
      end
  end.

End IndexDocuments.

(** ** [mcp_opensearch_server.py] *)
Section QueryServer.

Variable cfg : Config.

(** The request body [opensearch_query] of [handle_query]. *)
Definition opensearch_query (query_text : str) (query_vector : vector) : query :=
  q_has_child (py "chunk")
    (q_script_score
       (q_bool_should [q_match (py "chunk_text") query_text])
       {| script_source :=
            py "cosineSimilarity(params.query_vector, 'embedding') + 1.0";
          params_query_vector := query_vector |})
    (py "max").

(** [search_response.get("hits", {}).get("hits", [])]. *)
Definition response_hits (r : search_response) : list hit :=
  match hits r with
  | Some (Some l) => l
  | _ => []
  end.

Definition parent_info_of (h : hit) : parent_info :=
  let source0 := hit_source_of h in
  {| info_doc_id := hit_id h;
     info_file_name := src_file_name source0;
     info_file_path := src_file_path source0;
     info_summary := src_summary source0;
     info_timestamp := src_timestamp source0 |}.

(** The vectorisation is outside the [try]: when it raises, the exception
    leaves [handle_query]. *)
Definition handle_query (request : MCPRequest) : prog (result MCPResponse) :=
  let query_text := request_query request in
  perform (c_log INFO (msg_received_query query_text)) ;;
  embedded <- perform (c_embed_query query_text) ;;
  match embedded with
  | Raise e => Ret (Raise e)
  | Ok query_vector =>
      perform (c_log INFO msg_vectorization_complete) ;;
      let body := opensearch_query query_text query_vector in
      perform (c_log INFO msg_executing_query) ;;
      searched <- perform (c_search (OPENSEARCH_INDEX cfg) body) ;;
      match searched with
      | Raise e =>
          perform (c_log ERROR (msg_error_executing_search e)) ;;
          Ret (Ok (MCPResponse_error (exn_str e)))
      | Ok search_response0 =>
          let hits0 := response_hits search_response0 in
          perform (c_log INFO (msg_found_parents (length hits0))) ;;
          let results :=
            fold_left (fun results h => results ++ [parent_info_of h])
              hits0 [] in
          Ret (Ok (MCPResponse_results results))
      end
  end.

End QueryServer.

(** ** The windowed splitter *)

(** Modelled from the spec: the splitter behind the "semantic" mode.  The
    source hands the text to [RecursiveCharacterTextSplitter(chunk_size=1000,
    chunk_overlap=200)], a class of a library whose code is not part of the
    repository.  Section 4.2 of the specification describes it as a split
    "using a fixed window size with fixed overlap between consecutive
    windows": a window of [w] characters is taken at the start of what is
    left, and the next window starts [stride] characters further on; the
    last window is the one that reaches the end of the text.  The empty text
    has no window. *)
Fixpoint windows (fuel w stride : nat) (text : str) : list str :=
  match fuel with
  | O => []
  | S fuel' =>
      match text with
      | [] => []
      | _ :: _ =>
          if length text <=? w then [text]
          else firstn w text :: windows fuel' w stride (skipn stride text)
      end
  end.

(** Modelled from the spec: [split_text] of the windowed splitter; the stride
    is the window size less the overlap, and one unit of fuel per character
    is enough when the stride is positive. *)
Definition window_split (chunk_size chunk_overlap : nat) (text : str)
    : list str :=
  windows (length text) chunk_size (chunk_size - chunk_overlap) text.

(** ** The search engine *)
Section SearchEngine.

(** The similarity function of the engine's scripting language and the
    engine's analysed text match, both taken as given. *)
Variable cosineSimilarity : vector -> vector -> Q.
Variable lexical_match : str -> str -> bool.
Variable lexical_score : str -> str -> Q.

(** Modelled from the spec: the one script the engine is asked to run,
    "similarity + 1.0" (section 4.6, step 2). *)
Definition eval_script (s : script) (doc : child_doc) : option Q :=
  if str_eqb (script_source s)
       (py "cosineSimilarity(params.query_vector, 'embedding') + 1.0")
  then Some (cosineSimilarity (params_query_vector s) (embedding doc) + 1)%Q
  else None.

(** Modelled from the spec: whether a chunk record satisfies a query, and
    with which score (section 6, index/search service, item (c)): a lexical
    match on a text field; a disjunction that needs one of its clauses and
    adds their scores; a script score that keeps the matches of its inner
    query and replaces their score by the script's value. *)
Fixpoint chunk_score (q : query) (doc : child_doc) : option Q :=
  match q with
  | q_match field text =>
      if str_eqb field (py "chunk_text") && lexical_match text (chunk_text doc)
      then Some (lexical_score text (chunk_text doc))
      else None
  | q_bool_should should =>
      (fix any (qs : list query) : option Q :=
         match qs with
         | [] => None
         | q' :: qs' =>
             match chunk_score q' doc, any qs' with
             | Some a, Some b => Some (a + b)%Q
             | Some a, None => Some a
             | None, r => r
             end
         end) should
  | q_script_score q' s =>
      match chunk_score q' doc with
      | Some _ => eval_script s doc
      | None => None
      end
  | q_has_child _ _ _ => None
  end.

(** The greater of two scores. *)
Definition Qmax (a b : Q) : Q := if Qle_bool a b then b else a.

(** Modelled from the spec: "max-aggregation of child scores to parent
    rank"; the other modes of the engine are left out. *)
Definition aggregate (score_mode : str) (scores : list Q) : option Q :=
  match scores with
  | [] => None
  | s :: ss =>
      if str_eqb score_mode (py "max") then Some (fold_left Qmax ss s)
      else None
  end.

(** The records of an index that were written as parents, and those written
    as chunks. *)
Fixpoint parents_of (index : list source) : list parent_doc :=
  match index with
  | [] => []
  | ParentSource p :: index' => p :: parents_of index'
  | ChildSource _ :: index' => parents_of index'
  end.

Fixpoint children_of (index : list source) : list child_doc :=
  match index with
  | [] => []
  | ParentSource _ :: index' => children_of index'
  | ChildSource c :: index' => c :: children_of index'
  end.

(** Modelled from the spec: the parent/child relation of the index, read
    off the join field of the chunk ("an explicit parentID field", section
    9): [c] is a record of kind [type] whose parent reference is the id of
    [p]. *)
Definition is_child_of (type : str) (p : parent_doc) (c : child_doc) : bool :=
  str_eqb (name (my_join_field c)) type
  && match parent (my_join_field c) with
     | Some id => str_eqb id (doc_id p)
     | None => false
     end.

(** Modelled from the spec: the scores of the children of [p] of kind
    [type] that satisfy [q]. *)
Definition child_scores (index : list source) (type : str) (q : query)
    (p : parent_doc) : list Q :=
  flat_map
    (fun c =>
       if is_child_of type p c then
         match chunk_score q c with Some s => [s] | None => [] end
       else [])
    (children_of index).

(** Modelled from the spec: the parent/child join, "child satisfies X,
    return matching parent", over the records of the index: a parent is
    returned when one of its children of the kind asked for satisfies the
    inner query, ranked by the aggregate of those children's scores.  The
    order and the number of hits returned are not modelled. *)
Definition search (index : list source) (q : query)
    : list (parent_doc * Q) :=
  match q with
  | q_has_child type q' score_mode =>
      flat_map
        (fun p =>
           if str_eqb (parent_join_field p) (py "document") then
             match aggregate score_mode (child_scores index type q' p) with
             | Some s => [(p, s)]
             | None => []
             end
           else [])
        (parents_of index)
  | _ => []
  end.

End SearchEngine.

(** ** Concrete tokenizers and environments *)
Module Fixtures.

(** A stand-in tokenizer with one token per code point; it accepts every
    text. *)
Definition char_encoding : Encoding :=
  {| encode := fun s => Ok s; decode := fun t => t |}.

(** A model-name lookup in the manner of [tiktoken.encoding_for_model]: a
    name is resolved when it begins with [gpt-] or [text-]; any other name,
    the source's default ["gpt4o-mini"] among them, raises. *)
Definition known_models (model : str) : result Encoding :=
  if startswith (py "gpt-") model || startswith (py "text-") model
  then Ok char_encoding
  else Raise (Exception
                (py "Could not automatically map " ++ model
                 ++ py " to a tokeniser."))%list.

Definition uuid_of (n : nat) : str := py "uuid-" ++ [N.of_nat (48 + n)].

(** An environment whose answers are fixed in advance; its state counts the
    identifiers minted so far. *)
Definition scripted
    (pages : result (list str)) (completion : result str)
    (embed : str -> result vector) (bulk : result unit)
    (found : result search_response) : env :=
  {| world := nat;
     answer := fun c =>
       match c as c0 return nat -> resp c0 * nat with
       | c_uuid4 => fun n => (uuid_of n, S n)
       | c_utcnow_isoformat => fun n => (py "2024-01-01T00:00:00", n)
       | c_basename p => fun n => (p, n)
       | c_abspath p => fun n => (py "/" ++ p, n)
       | c_pdf_load _ => fun n => (pages, n)
       | c_completion_create _ => fun n => (completion, n)
       | c_embed_query t => fun n => (embed t, n)
       | c_bulk _ => fun n => (bulk, n)
       | c_search _ _ => fun n => (found, n)
       | c_log _ _ => fun n => (tt, n)
       end |}.

(** The settings the source falls back on when the environment sets none. *)
Definition default_config : Config :=
  {| OPENAI_SUMMARY_MODEL := py "gpt4o-mini";
     OPENAI_EMBEDDINGS_MODEL := py "text-embedding-ada-002";
     SUMMARY_MAX_TOKENS := 300;
     CONTEXT_MAX_TOKENS := 2048;
     OPENSEARCH_INDEX := py "documents";
     CHUNK_MODE := py "paragraph" |}.

Definition semantic_config : Config :=
  {| OPENAI_SUMMARY_MODEL := py "gpt4o-mini";
     OPENAI_EMBEDDINGS_MODEL := py "text-embedding-ada-002";
     SUMMARY_MAX_TOKENS := 300;
     CONTEXT_MAX_TOKENS := 2048;
     OPENSEARCH_INDEX := py "documents";
     CHUNK_MODE := py "Semantic" |}.

(** The default settings with a summary model whose name the tokenizer
    library resolves. *)
Definition working_config : Config :=
  {| OPENAI_SUMMARY_MODEL := py "gpt-3.5-turbo-instruct";
     OPENAI_EMBEDDINGS_MODEL := py "text-embedding-ada-002";
     SUMMARY_MAX_TOKENS := 300;
     CONTEXT_MAX_TOKENS := 2048;
     OPENSEARCH_INDEX := py "documents";
     CHUNK_MODE := py "paragraph" |}.

Definition boom : exn := Exception (py "service unavailable").

(** A PDF of one page with two paragraphs. *)
Definition two_paragraphs : list str :=
  [py "Para one." ++ [LF; LF] ++ py "Para two."].

Definition no_hits : result search_response :=
  Ok {| hits := Some (Some []) |}.

(** Every service answers. *)
Definition all_up : env :=
  scripted (Ok two_paragraphs) (Ok (py " A summary. "))
    (fun _ => Ok [(1 # 2)%Q; (1 # 4)%Q]) (Ok tt) no_hits.

(** The embedding service raises on every call. *)
Definition embedding_down : env :=
  scripted (Ok two_paragraphs) (Ok (py " A summary. "))
    (fun _ => Raise boom) (Ok tt) no_hits.

(** The bulk call raises. *)
Definition bulk_down : env :=
  scripted (Ok two_paragraphs) (Ok (py " A summary. "))
    (fun _ => Ok [(1 # 2)%Q; (1 # 4)%Q]) (Raise boom) no_hits.

(** The loader returns a PDF without pages. *)
Definition empty_pdf : env :=
  scripted (Ok []) (Ok (py " A summary. "))
    (fun _ => Ok [(1 # 2)%Q; (1 # 4)%Q]) (Ok tt) no_hits.

Definition sample_parent : parent_doc :=
  {| doc_id := py "p-1"; file_name := py "a.pdf"; file_path := py "/a.pdf";
     summary := py "S"; timestamp := py "2024-01-01T00:00:00";
     parent_join_field := py "document" |}.

Definition sample_child : child_doc :=
  {| chunk_id := py "c-1"; chunk_text := py "Para one.";
     embedding := [(1 # 2)%Q];
     my_join_field := {| name := py "chunk"; parent := Some (py "p-1") |} |}.

End Fixtures.

(** ** Views of a run used in the statements *)

Definition state_of (R : Type) (E : env) (p : prog R) (w : world E) : world E :=
  snd (run E p w).

(** The answers of the PDF loader during a run. *)
Fixpoint loads (tr : trace) : list (str * result (list str)) :=
  match tr with
  | [] => []
  | o_pdf_load p r :: tr' => (p, r) :: loads tr'
  | _ :: tr' => loads tr'
  end.

(** The identifiers minted during a run, in order. *)
Fixpoint minted (tr : trace) : list str :=
  match tr with
  | [] => []
  | o_uuid4 r :: tr' => r :: minted tr'
  | _ :: tr' => minted tr'
  end.

(** The log lines written during a run. *)
Fixpoint logged (tr : trace) : list (level * log_msg) :=
  match tr with
  | [] => []
  | o_log l m :: tr' => (l, m) :: logged tr'
  | _ :: tr' => logged tr'
  end.

(** The embedding a child record gets from an answer of the service. *)
Definition stored_embedding (r : result vector) : vector :=
  match r with Ok v => v | Raise _ => [] end.

(** The child records of a batch. *)
Fixpoint children_in (batch : list action) : list child_doc :=
  match batch with
  | [] => []
  | a :: batch' =>
      match _source a with
      | ChildSource c => c :: children_in batch'
      | ParentSource _ => children_in batch'
      end
  end.

(** A chunk record whose join field names the parent [parent_id]. *)
Definition linked_to (parent_id : str) (c : child_doc) : Prop :=
  my_join_field c = {| name := py "chunk"; parent := Some parent_id |}.

(** A batch entry of the parent kind for the parent [parent_id]. *)
Definition parent_entry (parent_id : str) (a : action) : Prop :=
  _id a = parent_id /\ routing a = None
  /\ exists p, _source a = ParentSource p /\ doc_id p = parent_id
              /\ parent_join_field p = py "document".

(** A batch entry of the chunk kind placed with, and referring to, the
    parent [parent_id]. *)
Definition child_entry (parent_id : str) (a : action) : Prop :=
  routing a = Some parent_id
  /\ exists c, _source a = ChildSource c /\ _id a = chunk_id c
              /\ linked_to parent_id c.

(** Whether [p] occurs in [s] as a substring. *)
Fixpoint occurs (p s : str) : bool :=
  startswith p s || match s with [] => false | _ :: s' => occurs p s' end.

(** The chunks [chunk_document] returns; the value does not depend on the
    environment, which only receives the log line. *)
Definition chunks_of (cfg : Config) (splitter : nat -> nat -> str -> list str)
    (text : str) : list str :=
  value_of
    (Fixtures.scripted (Raise Fixtures.boom) (Raise Fixtures.boom)
       (fun _ => Raise Fixtures.boom) (Raise Fixtures.boom)
       (Raise Fixtures.boom))
    (chunk_document cfg splitter text) 0.

(** Encoding again the text that the token sequence [ts] decodes to succeeds
    and yields no more tokens than [ts] has. *)
Definition reencodes_within (enc : Encoding) (ts : list N) : Prop :=
  exists ts', encode enc (decode enc ts) = Ok ts' /\ length ts' <= length ts.

(** ** A small index for the query engine *)
Module QueryFixtures.

(** The dot product; on vectors of length one it is the cosine
    similarity, and the vectors below have length one. *)
Fixpoint dot (a b : vector) : Q :=
  match a, b with
  | x :: a', y :: b' => (x * y + dot a' b')%Q
  | _, _ => 0%Q
  end.

(** A text matches a query when the query occurs in it. *)
Definition contains (query_text text : str) : bool := occurs query_text text.

Definition flat_score (query_text text : str) : Q := 1%Q.

Definition chunk_of (id parent_id text : str) (v : vector) : source :=
  ChildSource
    {| chunk_id := id; chunk_text := text; embedding := v;
       my_join_field := {| name := py "chunk"; parent := Some parent_id |} |}.

Definition document_of (id : str) : source :=
  ParentSource
    {| doc_id := id; file_name := id; file_path := id; summary := [];
       timestamp := py "2024-01-01T00:00:00";
       parent_join_field := py "document" |}.

(** One document whose three chunks all mention the term, at cosine
    -0.8, -0.1 and -0.5 from the query vector, and one document whose only
    chunk does not mention it. *)
Definition small_index : list source :=
  [ document_of (py "p-1");
    chunk_of (py "c-1") (py "p-1") (py "a term here")
      [(-4 # 5)%Q; (3 # 5)%Q; 0%Q; 0%Q];
    chunk_of (py "c-2") (py "p-1") (py "the term again")
      [(-1 # 10)%Q; (9 # 10)%Q; (3 # 10)%Q; (3 # 10)%Q];
    chunk_of (py "c-3") (py "p-1") (py "term")
      [(-1 # 2)%Q; (1 # 2)%Q; (1 # 2)%Q; (1 # 2)%Q];
    document_of (py "p-2");
    chunk_of (py "c-4") (py "p-2") (py "nothing relevant")
      [1%Q; 0%Q; 0%Q; 0%Q] ].

Definition query_vector0 : vector := [1%Q; 0%Q; 0%Q; 0%Q].

End QueryFixtures.

(** ** Further views of a run *)

(** The texts sent to the embedding service during a run, in order. *)
Fixpoint embed_texts (tr : trace) : list str :=
  match tr with
  | [] => []
  | o_embed_query t _ :: tr' => t :: embed_texts tr'
  | _ :: tr' => embed_texts tr'
  end.

(** The answers of the search service during a run, in order. *)
Fixpoint search_answers (tr : trace) : list (result search_response) :=
  match tr with
  | [] => []
  | o_search _ _ r :: tr' => r :: search_answers tr'
  | _ :: tr' => search_answers tr'
  end.

(** The text [process_pdf_file] embeds for a chunk: the f-string
    ["Summary: {summary}\n\n{chunk}"]. *)
Definition context_text (summary0 chunk : str) : str :=
  py "Summary: " ++ summary0 ++ [LF; LF] ++ chunk.

(** The traces the loop over the chunks can leave, with the records it
    appends: per chunk one call to the embedding service, an error line when
    the call raised, and one identifier. *)
Inductive loop_trace (summary0 : str)
    : list str -> list child_doc -> trace -> Prop :=
| loop_done : loop_trace summary0 [] [] []
| loop_embedded (chunk : str) (chunks : list str) (v : vector) (id : str)
    (new : list child_doc) (t : trace) :
    loop_trace summary0 chunks new t ->
    loop_trace summary0 (chunk :: chunks)
      ({| chunk_id := id; chunk_text := chunk; embedding := v;
          my_join_field := {| name := py "chunk"; parent := None |} |} :: new)
      (o_embed_query (context_text summary0 chunk) (Ok v) :: o_uuid4 id :: t)
| loop_unembedded (chunk : str) (chunks : list str) (e : exn) (id : str)
    (new : list child_doc) (t : trace) :
    loop_trace summary0 chunks new t ->
    loop_trace summary0 (chunk :: chunks)
      ({| chunk_id := id; chunk_text := chunk; embedding := [];
          my_join_field := {| name := py "chunk"; parent := None |} |} :: new)
      (o_embed_query (context_text summary0 chunk) (Raise e)
       :: o_log ERROR (msg_error_generating_embedding e) :: o_uuid4 id :: t).

(** Whether every code point of a text is white space. *)
Definition blank (s : str) : bool := forallb isspace s.

(** ** Index administration and the batch driver

    [create_index_if_not_exists] and [main] of [index_documents.py] talk to
    the index's administration interface and to the file system on top of
    what the pipeline does.  Their calls extend the pipeline's: a driver
    program is a tree over [driver_call], in which a pipeline call is one
    kind of call. *)

Inductive field_type : Type :=
| ft_keyword
| ft_text
| ft_date
| ft_dense_vector (dims : nat)
| ft_join (relations : list (str * str)).

Record index_settings : Type := mk_index_settings {
  number_of_shards : nat;
  number_of_replicas : nat
}.

(** The body of [client.indices.create]: settings and the properties of
    the mappings, in the order of the dict literal. *)
Record index_body : Type := mk_index_body {
  settings : index_settings;
  mappings_properties : list (str * field_type)
}.

Inductive driver_msg : Type :=
| msg_index_exists (index_name : str)
| msg_index_created (index_name : str)
| msg_no_pdf_files (dir : str).

Inductive driver_call : Type :=
| d_pipeline (c : call)
| d_indices_exists (index : str)
| d_indices_create (index : str) (body : index_body)
| d_glob (pattern : str)
| d_log (lvl : level) (msg : driver_msg).

Definition driver_resp (c : driver_call) : Type :=
  match c with
  | d_pipeline c' => resp c'
  | d_indices_exists _ => result bool
  | d_indices_create _ _ => result unit
  | d_glob _ => list str
  | d_log _ _ => unit
  end.

Inductive driver_obs : Type :=
| do_pipeline (o : obs)
| do_indices_exists (index : str) (r : result bool)
| do_indices_create (index : str) (body : index_body) (r : result unit)
| do_glob (pattern : str) (r : list str)
| do_log (lvl : level) (msg : driver_msg).

Definition driver_observe (c : driver_call) : driver_resp c -> driver_obs :=
  match c with
  | d_pipeline c' => fun x => do_pipeline (observe c' x)
  | d_indices_exists i => do_indices_exists i
  | d_indices_create i b => do_indices_create i b
  | d_glob p => do_glob p
  | d_log l m => fun _ => do_log l m
  end.

Inductive driver (R : Type) : Type :=
| DRet (r : R)
| DVis (c : driver_call) (k : driver_resp c -> driver R).
Arguments DRet {R} r.
Arguments DVis {R} c k.

Fixpoint dbind (A B : Type) (m : driver A) (f : A -> driver B) : driver B :=
  match m with
  | DRet a => f a
  | DVis c k => DVis c (fun x => dbind (k x) f)
  end.

Definition dperform (c : driver_call) : driver (driver_resp c) :=
  DVis c (fun x => DRet x).

(** A pipeline program run as part of a driver program. *)
Fixpoint lift (R : Type) (p : prog R) : driver R :=
  match p with
  | Ret r => DRet r
  | Vis c k => DVis (d_pipeline c) (fun x => lift (k x))
  end.

Declare Scope driver_scope.
Delimit Scope driver_scope with driver.
Notation "x <- m ;; k" := (dbind m (fun x => k))
  (at level 61, m at next level, right associativity) : driver_scope.
Notation "m ;; k" := (dbind m (fun _ => k))
  (at level 61, right associativity) : driver_scope.

Record driver_env : Type := mk_driver_env {
  d_world : Type;
  d_answer : forall c : driver_call, d_world -> driver_resp c * d_world
}.

Fixpoint drun (R : Type) (E : driver_env) (p : driver R) (w : d_world E)
    : R * list driver_obs * d_world E :=
  match p with
  | DRet r => (r, [], w)
  | DVis c k =>
      let (x, w1) := d_answer E c w in
      let '(r, tr, w2) := drun E (k x) w1 in
      (r, driver_observe c x :: tr, w2)
  end.

Definition dvalue_of (R : Type) (E : driver_env) (p : driver R)
    (w : d_world E) : R :=
  fst (fst (drun E p w)).

Definition dtrace_of (R : Type) (E : driver_env) (p : driver R)
    (w : d_world E) : list driver_obs :=
  snd (fst (drun E p w)).

Definition dstate_of (R : Type) (E : driver_env) (p : driver R)
    (w : d_world E) : d_world E :=
  snd (drun E p w).

(** The environment a pipeline program sees inside a driver's. *)
Definition pipeline_env (E : driver_env) : env :=
  {| world := d_world E;
     answer := fun c => d_answer E (d_pipeline c) |}.

(** The pipeline's calls within a driver's trace. *)
Fixpoint pipeline_trace (tr : list driver_obs) : trace :=
  match tr with
  | [] => []
  | do_pipeline o :: tr' => o :: pipeline_trace tr'
  | _ :: tr' => pipeline_trace tr'
  end.

(** The existence checks, the creations and the directory listings of a
    driver's trace. *)
Fixpoint exists_checks (tr : list driver_obs) : list (str * result bool) :=
  match tr with
  | [] => []
  | do_indices_exists i r :: tr' => (i, r) :: exists_checks tr'
  | _ :: tr' => exists_checks tr'
  end.

Fixpoint creations (tr : list driver_obs)
    : list (str * index_body * result unit) :=
  match tr with
  | [] => []
  | do_indices_create i b r :: tr' => (i, b, r) :: creations tr'
  | _ :: tr' => creations tr'
  end.

Fixpoint listings (tr : list driver_obs) : list (str * list str) :=
  match tr with
  | [] => []
  | do_glob p r :: tr' => (p, r) :: listings tr'
  | _ :: tr' => listings tr'
  end.

Fixpoint driver_logged (tr : list driver_obs) : list (level * driver_msg) :=
  match tr with
  | [] => []
  | do_log l m :: tr' => (l, m) :: driver_logged tr'
  | _ :: tr' => driver_logged tr'
  end.

(** Whether a call to the loader answered. *)
Definition load_answered (l : str * result (list str)) : bool :=
  match snd l with Ok _ => true | Raise _ => false end.

(** How the loop over the listed [files] can end, seen from its value and
    from the pipeline calls [ptr] it made.  Either it returns [None]: every
    file was handed to the loader, in order, and one batch was submitted per
    file that loaded.  Or it raises [e]: the tokenizer raised [e] on the
    prompt of the file [path], the last one handed to the loader; the files
    [done] before it were handled as in the first case, and the files
    [later] were never opened. *)
Definition loop_outcome (cfg : Config) (encoding_for_model : str -> result Encoding)
    (files : list str) (value : result unit) (ptr : trace) : Prop :=
  (value = Ok tt
   /\ map fst (loads ptr) = files
   /\ length (submitted ptr) = length (filter load_answered (loads ptr)))
  \/ (exists (e : exn) (done : list str) (path : str) (pages : list str)
             (later : list str) (earlier : list (str * result (list str))),
         value = Raise e
         /\ files = done ++ path :: later
         /\ loads ptr = earlier ++ [(path, Ok pages)]
         /\ map fst earlier = done
         /\ length (submitted ptr) = length (filter load_answered earlier)
         /\ truncate_text encoding_for_model
              (summary_prompt (join [LF; LF] pages))
              (CONTEXT_MAX_TOKENS cfg) (OPENAI_SUMMARY_MODEL cfg) = Raise e).

(** [s.endswith(p)]. *)
Definition endswith (p s : str) : bool := startswith (rev p) (rev s).

(** [os.path.join(a, b)] on a POSIX system: an absolute [b] replaces [a];
    otherwise the two are joined by one slash unless [a] is empty or ends
    with one. *)
Definition os_path_join (a b : str) : str :=
  if startswith (py "/") b then b
  else if negb (truthy a) || endswith (py "/") a then a ++ b
  else a ++ py "/" ++ b.

Section Driver.

Open Scope driver_scope.

Variable cfg : Config.
Variable encoding_for_model : str -> result Encoding.
Variable RecursiveCharacterTextSplitter : nat -> nat -> str -> list str.

(** The module-level setting [PDF_DIR]. *)
Variable PDF_DIR : str.

(** The dict [mapping] of [create_index_if_not_exists]. *)
Definition mapping : index_body :=
  {| settings := {| number_of_shards := 1; number_of_replicas := 0 |};
     mappings_properties :=
       [ (py "file_name", ft_keyword);
         (py "file_path", ft_keyword);
         (py "summary", ft_text);
         (py "timestamp", ft_date);
         (py "chunk_text", ft_text);
         (py "embedding", ft_dense_vector 1536);
         (py "my_join_field", ft_join [(py "document", py "chunk")]) ] |}.

(** Neither call is inside a [try]: what the administration interface
    raises leaves the function. *)
Definition create_index_if_not_exists (index_name : str)
    : driver (result unit) :=
  found <- dperform (d_indices_exists index_name) ;;
  match found with
  | Raise e => DRet (Raise e)
  | Ok true =>
      dperform (d_log INFO (msg_index_exists index_name)) ;;
      DRet (Ok tt)
  | Ok false =>
      created <- dperform (d_indices_create index_name mapping) ;;
      match created with
      | Raise e => DRet (Raise e)
      | Ok _ =>
          dperform (d_log INFO (msg_index_created index_name)) ;;
          DRet (Ok tt)
      end
  end.

(** The loop [for file_path in pdf_files: process_pdf_file(...)]: an
    exception of one turn would end the loop and leave [main]. *)
Fixpoint process_files (pdf_files : list str) : driver (result unit) :=
  match pdf_files with
  | [] => DRet (Ok tt)
  | file_path0 :: rest =>
      r <- lift (process_pdf_file cfg encoding_for_model
                   RecursiveCharacterTextSplitter file_path0) ;;
      match r with
      | Raise e => DRet (Raise e)
      | Ok _ => process_files rest
      end
  end.

(** The two clients ([create_opensearch_client], [OpenAIEmbeddings]) are
    built without a call to their services; their calls are the pipeline's. *)
Definition main : driver (result unit) :=
  ensured <- create_index_if_not_exists (OPENSEARCH_INDEX cfg) ;;
  match ensured with
  | Raise e => DRet (Raise e)
  | Ok _ =>
      pdf_files <- dperform (d_glob (os_path_join PDF_DIR (py "*.pdf"))) ;;
      match pdf_files with
      | [] =>
          dperform (d_log WARNING (msg_no_pdf_files PDF_DIR)) ;;
          DRet (Ok tt)
      | _ :: _ => process_files pdf_files
      end
  end.

End Driver.

(** Environments of the driver whose answers are fixed in advance, built on
    a scripted pipeline environment. *)
Module DriverFixtures.

Definition scripted_driver (E : env) (found : result bool)
    (created : result unit) (files : list str) : driver_env :=
  {| d_world := world E;
     d_answer := fun c =>
       match c as c0 return world E -> driver_resp c0 * world E with
       | d_pipeline c' => answer E c'
       | d_indices_exists _ => fun w => (found, w)
       | d_indices_create _ _ => fun w => (created, w)
       | d_glob _ => fun w => (files, w)
       | d_log _ _ => fun w => (tt, w)
       end |}.

(** A PDF whose loading raises. *)
Definition broken_pdf : env :=
  Fixtures.scripted (Raise Fixtures.boom) (Ok (py " A summary. "))
    (fun _ => Ok [(1 # 2)%Q]) (Ok tt) Fixtures.no_hits.

(** The generation service raises. *)
Definition summary_down : env :=
  Fixtures.scripted (Ok Fixtures.two_paragraphs) (Raise Fixtures.boom)
    (fun _ => Ok [(1 # 2)%Q]) (Ok tt) Fixtures.no_hits.

(** The search service raises. *)
Definition search_down : env :=
  Fixtures.scripted (Ok []) (Ok []) (fun _ => Ok [(1 # 2)%Q]) (Ok tt)
    (Raise Fixtures.boom).

Definition two_hits : list hit :=
  [ {| hit_id := py "p-1"; hit_score := (9 # 10)%Q;
       hit_source_of :=
         {| src_file_name := Some (py "a.pdf");
            src_file_path := Some (py "/a.pdf");
            src_summary := Some (py "S");
            src_timestamp := None |} |};
    {| hit_id := py "p-2"; hit_score := (1 # 2)%Q;
       hit_source_of :=
         {| src_file_name := None; src_file_path := None;
            src_summary := None; src_timestamp := None |} |} ].

(** The search service returns two hits. *)
Definition search_up : env :=
  Fixtures.scripted (Ok []) (Ok []) (fun _ => Ok [(1 # 2)%Q]) (Ok tt)
    (Ok {| hits := Some (Some two_hits) |}).

(** A tokenizer that, as the library's do, refuses a text that spells its
    end-of-text token. *)
Definition strict_encoding : Encoding :=
  {| encode := fun s =>
       if occurs (py "<|endoftext|>") s
       then Raise (Exception
                     (py "Encountered text corresponding to disallowed special token"))
       else Ok s;
     decode := fun t => t |}.

Definition strict_models (model : str) : result Encoding :=
  match Fixtures.known_models model with
  | Ok _ => Ok strict_encoding
  | Raise e => Raise e
  end.

(** A PDF whose one page spells the end-of-text token. *)
Definition special_token_pdf : env :=
  Fixtures.scripted (Ok [py "The end. <|endoftext|>"]) (Ok (py " A summary. "))
    (fun _ => Ok [(1 # 2)%Q]) (Ok tt) Fixtures.no_hits.

Definition unknown_mode_config : Config :=
  {| OPENAI_SUMMARY_MODEL := py "gpt4o-mini";
     OPENAI_EMBEDDINGS_MODEL := py "text-embedding-ada-002";
     SUMMARY_MAX_TOKENS := 300;
     CONTEXT_MAX_TOKENS := 2048;
     OPENSEARCH_INDEX := py "documents";
     CHUNK_MODE := py "sentence" |}.

End DriverFixtures.

(** ** Proof support *)

(** Case analysis on the answer the environment gives to the call [c] where
    the goal mentions it. *)
Ltac case_answer E c x e :=
  match goal with
  | |- context [fst (answer E c ?w)] =>
      destruct (fst (answer E c w)) as [x|e] eqn:?
  end.

(* ===================================================================== *)
(** * Part II. Properties                                                 *)
(* ===================================================================== *)

(** ** Strings *)
Module PyFacts.

Lemma startswith_app (p s : str) :
  startswith p s = true -> s = p ++ skipn (length p) s.
Proof.
  revert s. induction p as [|x p IH]; intros [|y s]; simpl; try easy.
  intros H. apply andb_prop in H as [Hxy Hps].
  apply N.eqb_eq in Hxy. subst y. f_equal. now apply IH.
Qed.

Lemma startswith_extend (p s r : str) :
  startswith p s = true -> startswith p (s ++ r) = true.
Proof.
  revert s. induction p as [|x p IH]; intros [|y s]; simpl; try easy.
  intros H. apply andb_prop in H as [Hxy Hps].
  rewrite Hxy. simpl. now apply IH.
Qed.

Lemma split_on_nonempty (d : N) (sep' s : str) : split_on d sep' s <> [].
Proof.
  funelim (split_on d sep' s); simp split_on; try discriminate.
  destruct (split_on d sep' s'); discriminate.
Qed.

Lemma join_cons (sep p : str) (ps : list str) :
  ps <> [] -> join sep (p :: ps) = p ++ sep ++ join sep ps.
Proof. destruct ps; simpl; congruence. Qed.

Lemma join_cons_head (sep : str) (c : N) (ps : list str) :
  ps <> [] -> join sep (cons_head c ps) = c :: join sep ps.
Proof.
  destruct ps as [|p [|q ps]]; simpl; congruence.
Qed.

(** Joining the pieces of a split with the separator gives the text back. *)
Lemma join_split_on (d : N) (sep' s : str) :
  join (d :: sep') (split_on d sep' s) = s.
Proof.
  funelim (split_on d sep' s); simp split_on.
  - reflexivity.
  - rewrite join_cons by apply split_on_nonempty.
    rewrite H. cbn [app].
    apply startswith_app in Heq. simpl in Heq. symmetry. exact Heq.
  - rewrite join_cons_head by apply split_on_nonempty.
    now rewrite H.
Qed.

Lemma split_on_head_prefix (d : N) (sep' s : str) :
  exists p ps r, split_on d sep' s = p :: ps /\ s = p ++ r.
Proof.
  pose proof (join_split_on d sep' s) as J.
  pose proof (@split_on_nonempty d sep' s) as NE.
  destruct (split_on d sep' s) as [|p [|q ps]]; [congruence| |].
  - exists p, [], []. simpl in J. now rewrite app_nil_r.
  - exists p, (q :: ps), ((d :: sep') ++ join (d :: sep') (q :: ps)).
    split; [reflexivity|]. rewrite join_cons in J by discriminate.
    now symmetry.
Qed.

(** No piece of a split contains the separator. *)
Lemma split_on_pieces_clean (d : N) (sep' s : str) :
  Forall (fun piece => occurs (d :: sep') piece = false) (split_on d sep' s).
Proof.
  funelim (split_on d sep' s); simp split_on.
  - constructor; [reflexivity|constructor].
  - constructor; [reflexivity|assumption].
  - destruct (split_on_head_prefix d sep' s') as (p & ps & r & E & Hs).
    rewrite E in *. cbn [cons_head].
    apply Forall_cons_iff in H as [Hp Hps].
    constructor; [|assumption].
    cbn [occurs]. rewrite Hp, orb_false_r.
    destruct (startswith (d :: sep') (c :: p)) eqn:S; [|reflexivity].
    apply startswith_extend with (r := r) in S.
    cbn [app] in S. rewrite <- Hs in S. congruence.
Qed.

Lemma lstrip_idem (s : str) : lstrip (lstrip s) = lstrip s.
Proof.
  induction s as [|c s IH]; [reflexivity|]. simpl.
  destruct (isspace c) eqn:W; [exact IH|]. simpl. now rewrite W.
Qed.

Lemma lstrip_snoc (c : N) (l : str) :
  isspace c = false -> exists l', lstrip (l ++ [c]) = l' ++ [c].
Proof.
  intros W. induction l as [|x l IH]; simpl.
  - rewrite W. now exists [].
  - destruct (isspace x); [exact IH|]. now exists (x :: l).
Qed.

Lemma lstrip_fixed (s : str) :
  lstrip s = s <-> match s with [] => True | c :: _ => isspace c = false end.
Proof.
  destruct s as [|c s]; simpl; [tauto|].
  destruct (isspace c) eqn:W; split; try easy.
  intros H. exfalso.
  assert (L : forall t : str, length (lstrip t) <= length t).
  { induction t as [|x t IHt]; simpl; [lia|].
    destruct (isspace x); simpl; lia. }
  specialize (L s). rewrite H in L. simpl in L. lia.
Qed.

Lemma lstrip_rstrip (t : str) : lstrip t = t -> lstrip (rstrip t) = rstrip t.
Proof.
  intros H. apply lstrip_fixed in H. apply lstrip_fixed.
  destruct t as [|c t]; [exact I|]. unfold rstrip. simpl.
  destruct (lstrip_snoc c (rev t) H) as [l' E]. rewrite E.
  rewrite rev_app_distr. simpl. exact H.
Qed.

Lemma rstrip_idem (t : str) : rstrip (rstrip t) = rstrip t.
Proof.
  unfold rstrip. now rewrite rev_involutive, lstrip_idem.
Qed.

(** Stripping leaves nothing more to strip. *)
Lemma strip_idem (s : str) : strip (strip s) = strip s.
Proof.
  unfold strip.
  rewrite (lstrip_rstrip (lstrip_idem s)). apply rstrip_idem.
Qed.

End PyFacts.

(** ** Runs *)
Module RunFacts.

Lemma run_bind (A B : Type) (E : env) (m : prog A) (f : A -> prog B)
    (w : world E) :
  run E (bind m f) w =
  let '(a, tr1, w1) := run E m w in
  let '(b, tr2, w2) := run E (f a) w1 in
  (b, tr1 ++ tr2, w2).
Proof.
  revert w. induction m as [a|c k IH]; intros w; simpl.
  - now destruct (run E (f a) w) as [[b tr2] w2].
  - destruct (answer E c w) as [x w1]. rewrite IH.
    destruct (run E (k x) w1) as [[a tr1] w1'].
    now destruct (run E (f a) w1') as [[b tr2] w2].
Qed.

Lemma value_of_bind (A B : Type) (E : env) (m : prog A) (f : A -> prog B) w :
  value_of E (bind m f) w = value_of E (f (value_of E m w)) (state_of E m w).
Proof.
  unfold value_of, state_of. rewrite run_bind.
  destruct (run E m w) as [[a tr1] w1]. simpl.
  now destruct (run E (f a) w1) as [[b tr2] w2].
Qed.

Lemma trace_of_bind (A B : Type) (E : env) (m : prog A) (f : A -> prog B) w :
  trace_of E (bind m f) w =
  trace_of E m w ++ trace_of E (f (value_of E m w)) (state_of E m w).
Proof.
  unfold trace_of, value_of, state_of. rewrite run_bind.
  destruct (run E m w) as [[a tr1] w1]. simpl.
  now destruct (run E (f a) w1) as [[b tr2] w2].
Qed.

Lemma state_of_bind (A B : Type) (E : env) (m : prog A) (f : A -> prog B) w :
  state_of E (bind m f) w = state_of E (f (value_of E m w)) (state_of E m w).
Proof.
  unfold value_of, state_of. rewrite run_bind.
  destruct (run E m w) as [[a tr1] w1]. simpl.
  now destruct (run E (f a) w1) as [[b tr2] w2].
Qed.

Lemma value_of_ret (R : Type) (E : env) (r : R) w : value_of E (Ret r) w = r.
Proof. reflexivity. Qed.

Lemma trace_of_ret (R : Type) (E : env) (r : R) w : trace_of E (Ret r) w = [].
Proof. reflexivity. Qed.

Lemma state_of_ret (R : Type) (E : env) (r : R) w : state_of E (Ret r) w = w.
Proof. reflexivity. Qed.

Lemma value_of_perform (E : env) (c : call) w :
  value_of E (perform c) w = fst (answer E c w).
Proof. unfold value_of, perform. simpl. now destruct (answer E c w). Qed.

Lemma trace_of_perform (E : env) (c : call) w :
  trace_of E (perform c) w = [observe c (fst (answer E c w))].
Proof. unfold trace_of, perform. simpl. now destruct (answer E c w). Qed.

Lemma state_of_perform (E : env) (c : call) w :
  state_of E (perform c) w = snd (answer E c w).
Proof. unfold state_of, perform. simpl. now destruct (answer E c w). Qed.

Create Rewrite HintDb run.
#[export] Hint Rewrite value_of_bind trace_of_bind state_of_bind
  value_of_ret trace_of_ret state_of_ret
  value_of_perform trace_of_perform state_of_perform : run.

(** The views of a trace distribute over concatenation. *)
Lemma submitted_app (t1 t2 : trace) :
  submitted (t1 ++ t2) = submitted t1 ++ submitted t2.
Proof.
  induction t1 as [|o t1 IH]; [reflexivity|].
  destruct o; simpl; now rewrite ?IH.
Qed.

Lemma embed_answers_app (t1 t2 : trace) :
  embed_answers (t1 ++ t2) = embed_answers t1 ++ embed_answers t2.
Proof.
  induction t1 as [|o t1 IH]; [reflexivity|].
  destruct o; simpl; now rewrite ?IH.
Qed.

Lemma searches_app (t1 t2 : trace) :
  searches (t1 ++ t2) = searches t1 ++ searches t2.
Proof.
  induction t1 as [|o t1 IH]; [reflexivity|].
  destruct o; simpl; now rewrite ?IH.
Qed.

Lemma completions_app (t1 t2 : trace) :
  completions (t1 ++ t2) = completions t1 ++ completions t2.
Proof.
  induction t1 as [|o t1 IH]; [reflexivity|].
  destruct o; simpl; now rewrite ?IH.
Qed.

Lemma loads_app (t1 t2 : trace) : loads (t1 ++ t2) = loads t1 ++ loads t2.
Proof.
  induction t1 as [|o t1 IH]; [reflexivity|].
  destruct o; simpl; now rewrite ?IH.
Qed.

Lemma minted_app (t1 t2 : trace) : minted (t1 ++ t2) = minted t1 ++ minted t2.
Proof.
  induction t1 as [|o t1 IH]; [reflexivity|].
  destruct o; simpl; now rewrite ?IH.
Qed.

Lemma logged_app (t1 t2 : trace) : logged (t1 ++ t2) = logged t1 ++ logged t2.
Proof.
  induction t1 as [|o t1 IH]; [reflexivity|].
  destruct o; simpl; now rewrite ?IH.
Qed.

Create Rewrite HintDb views.
#[export] Hint Rewrite submitted_app embed_answers_app searches_app
  completions_app loads_app minted_app logged_app : views.

End RunFacts.

(** ** Chunker *)
Module ChunkerFacts.
Import PyFacts RunFacts.

(** The appending loop keeps what was there and adds, in order, the
    stripped pieces that are not empty. *)
Lemma paragraph_loop_filter (text : str) (chunks : list str) :
  paragraph_loop text chunks =
  chunks ++ filter truthy (map strip (split_on LF [LF] text)).
Proof.
  unfold paragraph_loop.
  generalize (split_on LF [LF] text) as pieces.
  intros pieces. revert chunks.
  induction pieces as [|piece pieces IH]; intros chunks; simpl.
  - now rewrite app_nil_r.
  - rewrite IH. destruct (truthy (strip piece)); simpl.
    + now rewrite <- app_assoc.
    + reflexivity.
Qed.

Lemma chunk_document_paragraph (cfg : Config) splitter (E : env) (w : world E)
    (text : str) :
  lower (CHUNK_MODE cfg) = py "paragraph" ->
  value_of E (chunk_document cfg splitter text) w = paragraph_loop text [].
Proof.
  intros H. unfold chunk_document. rewrite H.
  change (str_eqb (py "paragraph") (py "paragraph")) with true. cbv iota.
  autorewrite with run. reflexivity.
Qed.

Lemma chunk_document_semantic (cfg : Config) splitter (E : env) (w : world E)
    (text : str) :
  lower (CHUNK_MODE cfg) = py "semantic" ->
  value_of E (chunk_document cfg splitter text) w = splitter 1000 200 text.
Proof.
  intros H. unfold chunk_document. rewrite H.
  change (str_eqb (py "semantic") (py "paragraph")) with false.
  change (str_eqb (py "semantic") (py "semantic")) with true. cbv iota.
  autorewrite with run. reflexivity.
Qed.

(** What [chunk_document] returns and what it leaves in a batch do not
    depend on the environment. *)
Lemma chunk_document_value (cfg : Config) splitter (E : env) (w : world E)
    (text : str) :
  value_of E (chunk_document cfg splitter text) w = chunks_of cfg splitter text.
Proof.
  unfold chunks_of, chunk_document.
  destruct (str_eqb (lower (CHUNK_MODE cfg)) (py "paragraph"));
    [|destruct (str_eqb (lower (CHUNK_MODE cfg)) (py "semantic"))];
    autorewrite with run; reflexivity.
Qed.

Lemma chunk_document_quiet (cfg : Config) splitter (E : env) (w : world E)
    (text : str) :
  let tr := trace_of E (chunk_document cfg splitter text) w in
  submitted tr = [] /\ embed_answers tr = [] /\ loads tr = []
  /\ minted tr = [] /\ completions tr = [].
Proof.
  unfold chunk_document.
  destruct (str_eqb (lower (CHUNK_MODE cfg)) (py "paragraph"));
    [|destruct (str_eqb (lower (CHUNK_MODE cfg)) (py "semantic"))];
    autorewrite with run; cbn; repeat split; reflexivity.
Qed.

(** C7.  In paragraph mode the text is cut at every blank-line separator
    (the pieces joined by the separator give the text back, and no piece
    contains the separator); each piece is stripped, the empty ones are
    dropped and the order is kept, so every chunk is non-empty and has
    nothing left to strip.  The text "A\n\nB\n\n\nC" gives the chunks "A",
    "B", "C", and the empty text gives no chunk. *)
Theorem paragraph_chunking (cfg : Config) splitter (E : env) (w : world E)
    (text : str) :
  lower (CHUNK_MODE cfg) = py "paragraph" ->
  let pieces := split_on LF [LF] text in
  let chunks := value_of E (chunk_document cfg splitter text) w in
  join [LF; LF] pieces = text
  /\ Forall (fun piece => occurs [LF; LF] piece = false) pieces
  /\ chunks = filter truthy (map strip pieces)
  /\ Forall (fun c => c <> [] /\ strip c = c) chunks
  /\ (text = py "A" ++ [LF; LF] ++ py "B" ++ [LF; LF; LF] ++ py "C" ->
      chunks = [py "A"; py "B"; py "C"])
  /\ (text = [] -> chunks = []).
Proof.
  intros H pieces chunks.
  assert (Hc : chunks = filter truthy (map strip pieces)).
  { subst chunks pieces. rewrite chunk_document_paragraph by exact H.
    now rewrite paragraph_loop_filter. }
  split; [apply join_split_on|].
  split; [apply split_on_pieces_clean|].
  split; [exact Hc|].
  split; [|split].
  - rewrite Hc. apply Forall_forall. intros c Hin.
    apply filter_In in Hin as [Hin Ht].
    apply in_map_iff in Hin as (piece & <- & _).
    split; [|apply strip_idem].
    intros E0. now rewrite E0 in Ht.
  - intros ->. rewrite Hc. subst pieces. now vm_compute.
  - intros ->. rewrite Hc. subst pieces. now vm_compute.
Qed.

Lemma paragraph_chunking_witness :
  lower (CHUNK_MODE Fixtures.default_config) = py "paragraph"
  /\ value_of
       (Fixtures.scripted (Ok []) (Ok []) (fun _ => Ok []) (Ok tt)
          (Raise Fixtures.boom))
       (chunk_document Fixtures.default_config window_split
          (py "A" ++ [LF; LF] ++ py "B" ++ [LF; LF; LF] ++ py "C")) 0
     = [py "A"; py "B"; py "C"].
Proof.
  split; [reflexivity|].
  apply (paragraph_chunking Fixtures.default_config window_split
           (Fixtures.scripted (Ok []) (Ok []) (fun _ => Ok []) (Ok tt)
              (Raise Fixtures.boom)) 0
           (py "A" ++ [LF; LF] ++ py "B" ++ [LF; LF; LF] ++ py "C")
           eq_refl).
  reflexivity.
Defined.

End ChunkerFacts.

(** ** Token accountant *)
Module TokenFacts.

Lemma slice_to_nonneg (A : Type) (l : list A) (n : Z) :
  (0 <= n)%Z -> slice_to l n = firstn (Z.to_nat n) l.
Proof.
  intros H. unfold slice_to.
  destruct (0 <=? n)%Z eqn:E; [reflexivity|].
  apply Z.leb_gt in E. lia.
Qed.

Lemma slice_to_negative (A : Type) (l : list A) (n : Z) :
  (n < 0)%Z -> slice_to l n = firstn (length l - Z.to_nat (- n)) l.
Proof.
  intros H. unfold slice_to.
  destruct (0 <=? n)%Z eqn:E; [|reflexivity].
  apply Z.leb_le in E. lia.
Qed.

Section Accountant.

Variable encoding_for_model : str -> result Encoding.


(** What [truncate_text] returns once the tokenizer has answered. *)
Lemma truncate_text_ok (text model : str) (budget : Z) (enc : Encoding)
    (tokens : list N) :
  encoding_for_model model = Ok enc ->
  encode enc text = Ok tokens ->
  truncate_text encoding_for_model text budget model
  = Ok (if (Z.of_nat (length tokens) <=? budget)%Z then text
        else decode enc (slice_to tokens budget)).
Proof.
  intros He Ht. unfold truncate_text. rewrite He, Ht.
  now destruct (Z.of_nat (length tokens) <=? budget)%Z.
Qed.



End Accountant.

(** The stand-in tokenizer re-encodes every decoded sequence to itself. *)
Lemma char_encoding_reencodes (ts : list N) :
  reencodes_within Fixtures.char_encoding ts.
Proof. exists ts. split; [reflexivity|apply Nat.le_refl]. Qed.



(** A budget below zero is a Python slice bound that counts from the end:
    [tokens[:-1]] drops the last token only. *)
Example truncate_text_negative_budget :
  truncate_text Fixtures.known_models (py "abc") (-1) (py "gpt-4")
  = Ok (py "ab").
Proof. vm_compute. reflexivity. Qed.

End TokenFacts.

(** ** Summarizer *)
Module SummarizerFacts.
Import RunFacts.

(** The two runs of [generate_summary]: the tokenizer raises and nothing is
    called, or the request goes out and one log line follows. *)
Lemma generate_summary_run (cfg : Config) enc (E : env) (w : world E)
    (text : str) :
  (exists e,
      truncate_text enc (summary_prompt text) (CONTEXT_MAX_TOKENS cfg)
        (OPENAI_SUMMARY_MODEL cfg) = Raise e
      /\ trace_of E (generate_summary cfg enc text) w = []
      /\ value_of E (generate_summary cfg enc text) w = Raise e)
  \/ (exists (prompt : str) (rc : result str) (l : level) (m : log_msg),
         truncate_text enc (summary_prompt text) (CONTEXT_MAX_TOKENS cfg)
           (OPENAI_SUMMARY_MODEL cfg) = Ok prompt
         /\ trace_of E (generate_summary cfg enc text) w =
            [o_completion_create
               {| cr_model := OPENAI_SUMMARY_MODEL cfg;
                  cr_prompt := prompt;
                  cr_max_tokens := SUMMARY_MAX_TOKENS cfg;
                  cr_temperature := (1 # 2)%Q;
                  cr_n := 1;
                  cr_stop := None |} rc;
             o_log l m]
         /\ value_of E (generate_summary cfg enc text) w
            = Ok (match rc with Ok a => strip a | Raise _ => [] end)).
Proof.
  unfold generate_summary.
  destruct (truncate_text enc (summary_prompt text) (CONTEXT_MAX_TOKENS cfg)
              (OPENAI_SUMMARY_MODEL cfg)) as [prompt|e].
  - right. autorewrite with run.
    match goal with
    | |- context [fst (answer E ?c w)] => set (rc := fst (answer E c w))
    end.
    exists prompt, rc.
    destruct rc as [a|e]; autorewrite with run; cbn;
      eexists _, _; repeat split; reflexivity.
  - left. exists e. autorewrite with run. repeat split; reflexivity.
Qed.


(** The truncation applies to the prompt as a whole: with a budget of 40
    tokens of one character each, the instruction takes 35 of them, five
    characters of the document follow, and the closing cue is gone. *)
Example generate_summary_cuts_prompt :
  map (fun c => cr_prompt (fst c))
    (completions
       (trace_of
          (Fixtures.scripted (Ok []) (Ok (py " A summary. "))
             (fun _ => Ok []) (Ok tt) (Raise Fixtures.boom))
          (generate_summary
             {| OPENAI_SUMMARY_MODEL := py "gpt-3.5-turbo-instruct";
                OPENAI_EMBEDDINGS_MODEL := py "text-embedding-ada-002";
                SUMMARY_MAX_TOKENS := 300;
                CONTEXT_MAX_TOKENS := 40;
                OPENSEARCH_INDEX := py "documents";
                CHUNK_MODE := py "paragraph" |}
             Fixtures.known_models
             (py "0123456789")) 0))
  = [py "Summarize the following document:" ++ [LF; LF] ++ py "01234"].
Proof. vm_compute. reflexivity. Qed.

(** With the settings the source falls back on, the tokenizer lookup raises
    on the model name: no request is sent and the error leaves
    [generate_summary], whatever the generation service would answer. *)
Example generate_summary_unmapped_model :
  trace_of Fixtures.all_up
    (generate_summary Fixtures.default_config Fixtures.known_models
       (py "Para one.")) 0 = []
  /\ exists e,
       value_of Fixtures.all_up
         (generate_summary Fixtures.default_config Fixtures.known_models
            (py "Para one.")) 0 = Raise e.
Proof. split; [vm_compute; reflexivity|eexists; vm_compute; reflexivity]. Qed.

End SummarizerFacts.

(** ** Index writer and ingestion pipeline *)
Module IndexerFacts.
Import RunFacts ChunkerFacts.

Lemma fold_append_map (A B : Type) (f : A -> B) (l : list A) (acc : list B) :
  fold_left (fun acc x => acc ++ [f x]) l acc = acc ++ map f l.
Proof.
  revert acc. induction l as [|x l IH]; intros acc; simpl.
  - now rewrite app_nil_r.
  - rewrite IH. now rewrite <- app_assoc.
Qed.

(** The batch is the parent's entry followed by one entry per child, in
    order. *)
Lemma build_actions_shape (cfg : Config) (p : parent_doc) (cs : list child_doc) :
  build_actions cfg p cs =
  {| _op_type := py "index"; _index := OPENSEARCH_INDEX cfg;
     _id := doc_id p; _source := ParentSource p; routing := None |}
  :: map (fun c =>
            {| _op_type := py "index"; _index := OPENSEARCH_INDEX cfg;
               _id := chunk_id c; _source := ChildSource c;
               routing := Some (doc_id p) |}) cs.
Proof.
  unfold build_actions.
  rewrite (fold_append_map
             (fun c =>
                {| _op_type := py "index"; _index := OPENSEARCH_INDEX cfg;
                   _id := chunk_id c; _source := ChildSource c;
                   routing := Some (doc_id p) |})).
  reflexivity.
Qed.

Lemma children_in_build_actions (cfg : Config) (p : parent_doc)
    (cs : list child_doc) :
  children_in (build_actions cfg p cs) = cs.
Proof.
  rewrite build_actions_shape. simpl.
  induction cs as [|c cs IH]; simpl; [reflexivity|now f_equal].
Qed.

(** What [index_documents_to_opensearch] does in any environment: one bulk
    call with the assembled batch, one log line that depends on the answer,
    and a return of [None]. *)
Lemma index_documents_run (cfg : Config) (E : env) (w : world E)
    (p : parent_doc) (cs : list child_doc) :
  exists r : result unit,
    trace_of E (index_documents_to_opensearch cfg p cs) w =
    [o_bulk (build_actions cfg p cs) r;
     match r with
     | Ok _ => o_log INFO (msg_indexed (doc_id p) (length cs))
     | Raise e => o_log ERROR (msg_error_bulk_indexing e)
     end]
    /\ value_of E (index_documents_to_opensearch cfg p cs) w = Ok tt.
Proof.
  unfold index_documents_to_opensearch. autorewrite with run.
  match goal with
  | |- context [fst (answer E ?c w)] => set (r := fst (answer E c w))
  end.
  exists r. destruct r as [u|e]; autorewrite with run; cbn; split; reflexivity.
Qed.

(** One turn of the loop over the chunks: one call to the embedding
    service, one identifier, one more record at the end of the list. *)
Lemma embed_chunk_run (E : env) (w : world E) (summary0 : str)
    (acc : list child_doc) (chunk : str) :
  let p := embed_chunk summary0 acc chunk in
  exists (r : result vector) (id : str),
    value_of E p w =
      acc ++ [{| chunk_id := id; chunk_text := chunk;
                 embedding := stored_embedding r;
                 my_join_field := {| name := py "chunk"; parent := None |} |}]
    /\ embed_answers (trace_of E p w) = [r]
    /\ minted (trace_of E p w) = [id]
    /\ submitted (trace_of E p w) = []
    /\ loads (trace_of E p w) = [].
Proof.
  unfold embed_chunk, get_embedding. autorewrite with run.
  match goal with
  | |- context [fst (answer E ?c w)] => set (r := fst (answer E c w))
  end.
  exists r. destruct r as [v|e]; autorewrite with run views; cbn;
    eexists; repeat split; reflexivity.
Qed.

Lemma embed_loop_run (E : env) (summary0 : str) (chunks : list str) :
  forall (acc : list child_doc) (w : world E),
  let p := for_each chunks acc (embed_chunk summary0) in
  exists new : list child_doc,
    value_of E p w = acc ++ new
    /\ map chunk_text new = chunks
    /\ map embedding new = map stored_embedding (embed_answers (trace_of E p w))
    /\ map chunk_id new = minted (trace_of E p w)
    /\ Forall (fun c => my_join_field c
                        = {| name := py "chunk"; parent := None |}) new
    /\ submitted (trace_of E p w) = []
    /\ loads (trace_of E p w) = [].
Proof.
  induction chunks as [|chunk chunks IH]; intros acc w; cbn zeta.
  - exists []. cbn. rewrite app_nil_r. repeat split; constructor.
  - cbn [for_each]. autorewrite with run views.
    destruct (embed_chunk_run E w summary0 acc chunk)
      as (r & id & Hv & He & Hm & Hs & Hl).
    cbn zeta in *. rewrite Hv, He, Hm, Hs, Hl.
    match goal with
    | |- context [for_each chunks ?a _] =>
        match goal with
        | |- context [value_of E (for_each chunks a _) ?w'] =>
            destruct (IH a w') as (new & Gv & Gt & Ge & Gm & Gj & Gs & Gl)
        end
    end.
    cbn zeta in *. rewrite Gv, Gs, Gl.
    eexists (_ :: new). rewrite <- app_assoc. cbn.
    repeat split; try reflexivity; try (f_equal; assumption).
    constructor; [reflexivity|assumption].
Qed.

Lemma map_set_parent (pid : str) (cs : list child_doc) :
  Forall (fun c => my_join_field c
                   = {| name := py "chunk"; parent := None |}) cs ->
  map chunk_text (map (set_parent pid) cs) = map chunk_text cs
  /\ map embedding (map (set_parent pid) cs) = map embedding cs
  /\ map chunk_id (map (set_parent pid) cs) = map chunk_id cs
  /\ Forall (linked_to pid) (map (set_parent pid) cs).
Proof.
  induction 1 as [|c cs Hc _ (IH1 & IH2 & IH3 & IH4)]; cbn.
  - repeat split; constructor.
  - rewrite IH1, IH2, IH3. repeat split.
    constructor; [|exact IH4].
    unfold linked_to, set_parent. cbn. now rewrite Hc.
Qed.

(** The three runs of [process_pdf_file]: the loader raised and the file is
    skipped; the tokenizer raised on the prompt and the error leaves the
    function before any generation, embedding or bulk call; or the document
    goes through and one batch is submitted. *)
Lemma process_pdf_file_run (cfg : Config) enc splitter (E : env) (w : world E)
    (path : str) :
  let p := process_pdf_file cfg enc splitter path in
  (exists e, loads (trace_of E p w) = [(path, Raise e)]
             /\ submitted (trace_of E p w) = []
             /\ minted (trace_of E p w) = []
             /\ value_of E p w = Ok tt)
  \/ (exists pages e,
         loads (trace_of E p w) = [(path, Ok pages)]
         /\ truncate_text enc (summary_prompt (join [LF; LF] pages))
              (CONTEXT_MAX_TOKENS cfg) (OPENAI_SUMMARY_MODEL cfg) = Raise e
         /\ submitted (trace_of E p w) = []
         /\ minted (trace_of E p w) = []
         /\ embed_answers (trace_of E p w) = []
         /\ completions (trace_of E p w) = []
         /\ value_of E p w = Raise e)
  \/ (exists pages prompt parent_doc child_docs,
         loads (trace_of E p w) = [(path, Ok pages)]
         /\ truncate_text enc (summary_prompt (join [LF; LF] pages))
              (CONTEXT_MAX_TOKENS cfg) (OPENAI_SUMMARY_MODEL cfg) = Ok prompt
         /\ submitted (trace_of E p w)
            = [build_actions cfg parent_doc child_docs]
         /\ minted (trace_of E p w)
            = map chunk_id child_docs ++ [doc_id parent_doc]
         /\ parent_join_field parent_doc = py "document"
         /\ map chunk_text child_docs
            = chunks_of cfg splitter (join [LF; LF] pages)
         /\ map embedding child_docs
            = map stored_embedding (embed_answers (trace_of E p w))
         /\ Forall (linked_to (doc_id parent_doc)) child_docs
         /\ value_of E p w = Ok tt).
Proof.
  cbn zeta. unfold process_pdf_file. autorewrite with run views.
  match goal with
  | |- context [fst (answer E (c_pdf_load path) ?w')] =>
      set (w1 := w');
      destruct (fst (answer E (c_pdf_load path) w1)) as [pages|e] eqn:L
  end.
  2:{ autorewrite with run views. cbn. left. exists e.
      repeat split; reflexivity. }
  right. autorewrite with run views.
  set (w2 := snd (answer E (c_pdf_load path) w1)).
  set (full := join [LF; LF] pages).
  destruct (SummarizerFacts.generate_summary_run cfg enc E w2 full)
    as [(e & Tr & St & Sv)|(prompt & rc & l1 & m1 & Tr & St & Sv)];
    rewrite St, Sv; cbv beta iota; autorewrite with run views.
  { left. exists pages, e. cbn. repeat split; try reflexivity. exact Tr. }
  right.
  destruct (chunk_document_quiet cfg splitter E
              (state_of E (generate_summary cfg enc full) w2) full)
    as (C1 & C2 & C3 & C4 & _).
  cbn zeta in *.
  rewrite C1, C2, C3, C4.
  rewrite !chunk_document_value.
  set (s0 := match rc with Ok a => strip a | Raise _ => [] end).
  set (w4 := state_of E (chunk_document cfg splitter full) _).
  destruct (embed_loop_run E s0 (chunks_of cfg splitter full) [] w4)
    as (new & Lv & Lt & Le & Lm & Lj & Ls & Ll).
  cbn zeta in *. rewrite Lv, Ls, Ll. cbn [app].
  set (w5 := state_of E (for_each _ _ _) w4).
  set (pid := fst (answer E c_uuid4 w5)).
  destruct (map_set_parent pid Lj) as (M1 & M2 & M3 & M4).
  match goal with
  | |- context [index_documents_to_opensearch cfg ?pd ?cs] =>
      set (parent_doc := pd); set (child_docs := cs) in *
  end.
  match goal with
  | |- context [value_of E (index_documents_to_opensearch _ _ _) ?w'] =>
      destruct (index_documents_run cfg E w' parent_doc child_docs)
        as (r & Ht & Hv)
  end.
  rewrite Ht, Hv.
  exists pages, prompt, parent_doc, child_docs.
  destruct r as [u|e]; cbn; rewrite <- ?Lm, <- ?Le, ?M1, ?M2, ?M3, ?app_nil_r;
    repeat split; auto.
Qed.

Lemma build_actions_entries (cfg : Config) (p : parent_doc)
    (cs : list child_doc) :
  exists a rest,
    build_actions cfg p cs = a :: rest
    /\ _id a = doc_id p /\ routing a = None /\ _source a = ParentSource p
    /\ map _source rest = map ChildSource cs
    /\ map _id rest = map chunk_id cs
    /\ Forall (fun a' => routing a' = Some (doc_id p)) rest.
Proof.
  rewrite build_actions_shape. eexists _, _. split; [reflexivity|].
  cbn. repeat split; try reflexivity.
  - now rewrite map_map.
  - now rewrite map_map.
  - apply Forall_forall. intros a' Hin.
    apply in_map_iff in Hin as (c & <- & _). reflexivity.
Qed.

Lemma build_actions_linked (cfg : Config) (p : parent_doc)
    (cs : list child_doc) :
  parent_join_field p = py "document" ->
  Forall (linked_to (doc_id p)) cs ->
  exists a rest,
    build_actions cfg p cs = a :: rest
    /\ parent_entry (doc_id p) a
    /\ Forall (child_entry (doc_id p)) rest.
Proof.
  intros Hk Hl. rewrite build_actions_shape. eexists _, _.
  split; [reflexivity|]. split.
  - unfold parent_entry. cbn. repeat split. now exists p.
  - apply Forall_forall. intros a' Hin.
    apply in_map_iff in Hin as (c & <- & Hc).
    unfold child_entry. cbn. split; [reflexivity|].
    exists c. repeat split. eapply Forall_forall in Hl; eauto.
Qed.

(** C1.  The writer hands over one batch; for a parent and K children it
    has K+1 entries: first the parent's, with the parent's id and no routing
    key, then one per child in order, each routed by the parent's id.  In
    the pipeline the batch is made of a record of the document kind and of
    one chunk record per chunk of the text, and every chunk entry has both
    its routing key and the parent reference of its join field equal to the
    parent's id. *)
Theorem batch_links_children :
  (forall (cfg : Config) (E : env) (w : world E) (parent_doc0 : parent_doc)
          (child_docs : list child_doc),
      submitted
        (trace_of E (index_documents_to_opensearch cfg parent_doc0 child_docs) w)
      = [build_actions cfg parent_doc0 child_docs]
      /\ length (build_actions cfg parent_doc0 child_docs)
         = S (length child_docs)
      /\ exists a rest,
           build_actions cfg parent_doc0 child_docs = a :: rest
           /\ _id a = doc_id parent_doc0 /\ routing a = None
           /\ _source a = ParentSource parent_doc0
           /\ map _source rest = map ChildSource child_docs
           /\ Forall (fun a' => routing a' = Some (doc_id parent_doc0)) rest)
  /\ (forall (cfg : Config) enc splitter (E : env) (w : world E) (path : str),
         Forall
           (fun batch =>
              exists pages parent_id a rest,
                loads (trace_of E (process_pdf_file cfg enc splitter path) w)
                = [(path, Ok pages)]
                /\ batch = a :: rest
                /\ parent_entry parent_id a
                /\ Forall (child_entry parent_id) rest
                /\ map chunk_text (children_in rest)
                   = chunks_of cfg splitter (join [LF; LF] pages)
                /\ length batch
                   = S (length (chunks_of cfg splitter (join [LF; LF] pages))))
           (submitted (trace_of E (process_pdf_file cfg enc splitter path) w))).
Proof.
  split.
  - intros cfg E w p cs.
    destruct (index_documents_run cfg E w p cs) as (r & Ht & _).
    rewrite Ht. split; [now destruct r|].
    split.
    + rewrite build_actions_shape. cbn. now rewrite length_map.
    + destruct (build_actions_entries cfg p cs)
        as (a & rest & Hb & H1 & H2 & H3 & H4 & _ & H6).
      exists a, rest. repeat split; assumption.
  - intros cfg enc splitter E w path.
    pose proof (process_pdf_file_run cfg enc splitter E w path) as H.
    cbn zeta in H.
    destruct H as [(e & _ & Hs & _)
                  |[(pages & e & _ & _ & Hs & _)
                   |(pages & prompt & pd & cs & Hl & _ & Hs & _ & Hk & Ht & _
                     & Hj & _)]];
      rewrite Hs; constructor; [|constructor].
    destruct (@build_actions_linked cfg pd cs Hk Hj) as (a & rest & Hb & Hp & Hc).
    exists pages, (doc_id pd), a, rest.
    split; [exact Hl|]. split; [exact Hb|]. split; [exact Hp|].
    split; [exact Hc|]. split.
    + pose proof (children_in_build_actions cfg pd cs) as Hci.
      rewrite Hb in Hci. cbn [children_in] in Hci.
      destruct Hp as (_ & _ & p' & Hsrc & _). rewrite Hsrc in Hci.
      now rewrite Hci.
    + rewrite <- Ht, build_actions_shape. cbn. now rewrite !length_map.
Qed.

(** The document of two paragraphs: three entries, the parent's last-minted
    id routing both chunks. *)
Example two_paragraph_document_batch :
  map (fun batch => map (fun a => (_id a, routing a)) batch)
    (submitted
       (trace_of Fixtures.all_up
          (process_pdf_file Fixtures.working_config Fixtures.known_models
             window_split (py "a.pdf")) 0))
  = [[(Fixtures.uuid_of 2, None);
      (Fixtures.uuid_of 0, Some (Fixtures.uuid_of 2));
      (Fixtures.uuid_of 1, Some (Fixtures.uuid_of 2))]].
Proof. now vm_compute. Qed.

(** C4, as the code has it.  Whatever the bulk call answers, the writer
    returns [None] and raises nothing; a failure of the call is written to
    the log as one error line, a success as one information line, and
    nothing per entry reaches the caller.  A run of the pipeline that got as
    far as the writer returns [None] as well, whatever the bulk call
    answered. *)
Theorem bulk_failure_is_logged :
  (forall (cfg : Config) (E : env) (w : world E) (parent_doc0 : parent_doc)
          (child_docs : list child_doc),
      value_of E (index_documents_to_opensearch cfg parent_doc0 child_docs) w
      = Ok tt
      /\ exists r : result unit,
           trace_of E
             (index_documents_to_opensearch cfg parent_doc0 child_docs) w
           = [o_bulk (build_actions cfg parent_doc0 child_docs) r;
              match r with
              | Ok _ =>
                  o_log INFO
                    (msg_indexed (doc_id parent_doc0) (length child_docs))
              | Raise e => o_log ERROR (msg_error_bulk_indexing e)
              end])
  /\ (forall (cfg : Config) enc splitter (E : env) (w : world E) (path : str)
             (batch : list action),
         In batch
            (submitted (trace_of E (process_pdf_file cfg enc splitter path) w))
         ->
         value_of E (process_pdf_file cfg enc splitter path) w = Ok tt).
Proof.
  split.
  - intros cfg E w p cs.
    destruct (index_documents_run cfg E w p cs) as (r & Ht & Hv).
    split; [exact Hv|]. now exists r.
  - intros cfg enc splitter E w path batch Hin.
    pose proof (process_pdf_file_run cfg enc splitter E w path) as H.
    cbn zeta in H.
    destruct H as [(e & _ & Hs & _)
                  |[(pages & e & _ & _ & Hs & _)
                   |(pages & prompt & pd & cs & _ & _ & _ & _ & _ & _ & _ & _
                     & Hv)]];
      [rewrite Hs in Hin; destruct Hin
      |rewrite Hs in Hin; destruct Hin
      |exact Hv].
Qed.

(** A bulk call that raises and one that succeeds leave the caller with the
    same value, [None]; the failure shows in the log only.  The same holds
    of the pipeline around the writer. *)
Lemma bulk_failure_not_reported :
  value_of Fixtures.bulk_down
    (index_documents_to_opensearch Fixtures.working_config
       Fixtures.sample_parent [Fixtures.sample_child]) 0
  = value_of Fixtures.all_up
      (index_documents_to_opensearch Fixtures.working_config
         Fixtures.sample_parent [Fixtures.sample_child]) 0
  /\ value_of Fixtures.bulk_down
       (index_documents_to_opensearch Fixtures.working_config
          Fixtures.sample_parent [Fixtures.sample_child]) 0
     = Ok tt
  /\ trace_of Fixtures.bulk_down
       (index_documents_to_opensearch Fixtures.working_config
          Fixtures.sample_parent [Fixtures.sample_child]) 0
     = [o_bulk
          (build_actions Fixtures.working_config Fixtures.sample_parent
             [Fixtures.sample_child])
          (Raise Fixtures.boom);
        o_log ERROR (msg_error_bulk_indexing Fixtures.boom)]
  /\ length
       (submitted
          (trace_of Fixtures.bulk_down
             (process_pdf_file Fixtures.working_config Fixtures.known_models
                window_split (py "a.pdf")) 0)) = 1
  /\ value_of Fixtures.bulk_down
       (process_pdf_file Fixtures.working_config Fixtures.known_models
          window_split (py "a.pdf")) 0
     = Ok tt
  /\ value_of Fixtures.bulk_down
       (process_pdf_file Fixtures.working_config Fixtures.known_models
          window_split (py "a.pdf")) 0
     = value_of Fixtures.all_up
         (process_pdf_file Fixtures.working_config Fixtures.known_models
            window_split (py "a.pdf")) 0.
Proof. repeat split; vm_compute; reflexivity. Qed.

(** C10, as the code has it.  A document the loader read and whose text
    gives no chunk is not skipped when the tokenizer accepts its prompt: one
    identifier is minted, for the parent, one batch is submitted, made of
    the parent's entry alone, and the run returns [None].  When the
    tokenizer raises on the prompt, no identifier is minted and no batch is
    submitted: the error leaves [process_pdf_file]. *)
Theorem empty_document_still_indexed (cfg : Config) enc splitter (E : env)
    (w : world E) (path : str) (pages : list str) :
  In (path, Ok pages)
     (loads (trace_of E (process_pdf_file cfg enc splitter path) w)) ->
  chunks_of cfg splitter (join [LF; LF] pages) = [] ->
  match
    truncate_text enc
      (py "Summarize the following document:" ++ [LF; LF]
       ++ join [LF; LF] pages ++ [LF; LF] ++ py "Summary:")
      (CONTEXT_MAX_TOKENS cfg) (OPENAI_SUMMARY_MODEL cfg)
  with
  | Ok _ =>
      exists (parent_id : str) (a : action),
        minted (trace_of E (process_pdf_file cfg enc splitter path) w)
        = [parent_id]
        /\ submitted (trace_of E (process_pdf_file cfg enc splitter path) w)
           = [[a]]
        /\ parent_entry parent_id a
        /\ children_in [a] = []
        /\ value_of E (process_pdf_file cfg enc splitter path) w = Ok tt
  | Raise e =>
      minted (trace_of E (process_pdf_file cfg enc splitter path) w) = []
      /\ submitted (trace_of E (process_pdf_file cfg enc splitter path) w)
         = []
      /\ value_of E (process_pdf_file cfg enc splitter path) w = Raise e
  end.
Proof.
  intros Hin Hempty.
  change (py "Summarize the following document:" ++ [LF; LF]
          ++ join [LF; LF] pages ++ [LF; LF] ++ py "Summary:")
    with (summary_prompt (join [LF; LF] pages)).
  pose proof (process_pdf_file_run cfg enc splitter E w path) as H.
  cbn zeta in H.
  destruct H as [(e & Hl & _)
                |[(pages' & e & Hl & Hr & Hs & Hm & _ & _ & Hv)
                 |(pages' & prompt' & pd & cs & Hl & Hr & Hs & Hm & Hk & Ht & _
                   & Hj & Hv)]];
    rewrite Hl in Hin; destruct Hin as [Hin|[]]; [discriminate| |].
  { injection Hin as ->. rewrite Hr. repeat split; assumption. }
  injection Hin as ->. rewrite Hr. rewrite Hempty in Ht.
  apply map_eq_nil in Ht. subst cs.
  destruct (@build_actions_linked cfg pd [] Hk Hj) as (a & rest & Hb & Hp & _).
  rewrite build_actions_shape in Hb. cbn in Hb.
  injection Hb as <- <-.
  eexists (doc_id pd), _. rewrite Hs, Hm, build_actions_shape. cbn.
  split; [reflexivity|]. split; [reflexivity|].
  split; [|split; [reflexivity|exact Hv]].
  repeat split. now exists pd.
Qed.

Lemma empty_document_still_indexed_witness :
  In (py "a.pdf", Ok [])
     (loads
        (trace_of Fixtures.empty_pdf
           (process_pdf_file Fixtures.working_config Fixtures.known_models
              window_split (py "a.pdf")) 0))
  /\ chunks_of Fixtures.working_config window_split (join [LF; LF] []) = []
  /\ exists (parent_id : str) (a : action),
       minted
         (trace_of Fixtures.empty_pdf
            (process_pdf_file Fixtures.working_config Fixtures.known_models
               window_split (py "a.pdf")) 0)
       = [parent_id]
       /\ submitted
            (trace_of Fixtures.empty_pdf
               (process_pdf_file Fixtures.working_config Fixtures.known_models
                  window_split (py "a.pdf")) 0)
          = [[a]]
       /\ parent_entry parent_id a
       /\ children_in [a] = []
       /\ value_of Fixtures.empty_pdf
            (process_pdf_file Fixtures.working_config Fixtures.known_models
               window_split (py "a.pdf")) 0 = Ok tt.
Proof.
  assert (H1 : In (py "a.pdf", Ok [])
                 (loads
                    (trace_of Fixtures.empty_pdf
                       (process_pdf_file Fixtures.working_config
                          Fixtures.known_models window_split (py "a.pdf")) 0)))
    by (vm_compute; left; reflexivity).
  assert (H3 : chunks_of Fixtures.working_config window_split
                 (join [LF; LF] []) = []) by (vm_compute; reflexivity).
  split; [exact H1|]. split; [exact H3|].
  pose proof (@empty_document_still_indexed Fixtures.working_config
                Fixtures.known_models window_split Fixtures.empty_pdf 0
                (py "a.pdf") [] H1 H3) as H.
  assert (H2 : truncate_text Fixtures.known_models
                 (py "Summarize the following document:" ++ [LF; LF]
                  ++ join [LF; LF] [] ++ [LF; LF] ++ py "Summary:")
                 (CONTEXT_MAX_TOKENS Fixtures.working_config)
                 (OPENAI_SUMMARY_MODEL Fixtures.working_config)
               = Ok (summary_prompt [])) by (vm_compute; reflexivity).
  rewrite H2 in H. exact H.
Defined.

(** With the settings the source falls back on, the tokenizer lookup raises
    on the summary model's name: the empty document is loaded, but no
    identifier is minted and no batch is submitted; the error leaves
    [process_pdf_file]. *)
Lemma empty_document_not_indexed_by_default :
  OPENAI_SUMMARY_MODEL Fixtures.default_config = py "gpt4o-mini"
  /\ loads
       (trace_of Fixtures.empty_pdf
          (process_pdf_file Fixtures.default_config Fixtures.known_models
             window_split (py "a.pdf")) 0)
     = [(py "a.pdf", Ok [])]
  /\ chunks_of Fixtures.default_config window_split (join [LF; LF] []) = []
  /\ minted
       (trace_of Fixtures.empty_pdf
          (process_pdf_file Fixtures.default_config Fixtures.known_models
             window_split (py "a.pdf")) 0)
     = []
  /\ submitted
       (trace_of Fixtures.empty_pdf
          (process_pdf_file Fixtures.default_config Fixtures.known_models
             window_split (py "a.pdf")) 0)
     = []
  /\ exists e,
       value_of Fixtures.empty_pdf
         (process_pdf_file Fixtures.default_config Fixtures.known_models
            window_split (py "a.pdf")) 0
       = Raise e.
Proof.
  repeat split; try (vm_compute; reflexivity).
  eexists. vm_compute. reflexivity.
Qed.

End IndexerFacts.

(** ** Query handler and hybrid query *)
Module QueryFacts.
Import RunFacts.

Lemma str_eqb_eq (a b : str) : str_eqb a b = true <-> a = b.
Proof.
  revert b. induction a as [|x a IH]; intros [|y b]; simpl;
    try (split; [discriminate|discriminate]); [tauto|].
  rewrite andb_true_iff, N.eqb_eq, IH. split.
  - now intros [-> ->].
  - intros H. injection H as -> ->. tauto.
Qed.

Lemma str_eqb_refl (a : str) : str_eqb a a = true.
Proof. now apply str_eqb_eq. Qed.

(** C5.  When the embedding of the query raises, [handle_query] raises the
    same exception to its caller and sends no search request. *)
Theorem embedding_failure_aborts_query (cfg : Config) (E : env) (w : world E)
    (request : MCPRequest) (e : exn) :
  In (Raise e) (embed_answers (trace_of E (handle_query cfg request) w)) ->
  value_of E (handle_query cfg request) w = Raise e
  /\ searches (trace_of E (handle_query cfg request) w) = [].
Proof.
  unfold handle_query. autorewrite with run views.
  case_answer E (c_embed_query (request_query request)) v e'.
  - autorewrite with run views.
    case_answer E
      (c_search (OPENSEARCH_INDEX cfg)
         (opensearch_query (request_query request) v)) found e';
      autorewrite with run views; cbn; intros [H|[]]; discriminate.
  - autorewrite with run views. cbn. intros [H|[]].
    injection H as ->. split; reflexivity.
Qed.

Lemma embedding_failure_aborts_query_witness :
  In (Raise Fixtures.boom)
     (embed_answers
        (trace_of Fixtures.embedding_down
           (handle_query Fixtures.default_config
              {| request_query := py "term" |}) 0))
  /\ value_of Fixtures.embedding_down
       (handle_query Fixtures.default_config {| request_query := py "term" |})
       0 = Raise Fixtures.boom
  /\ searches
       (trace_of Fixtures.embedding_down
          (handle_query Fixtures.default_config
             {| request_query := py "term" |}) 0) = [].
Proof.
  assert (H : In (Raise Fixtures.boom)
                (embed_answers
                   (trace_of Fixtures.embedding_down
                      (handle_query Fixtures.default_config
                         {| request_query := py "term" |}) 0)))
    by (vm_compute; left; reflexivity).
  split; [exact H|].
  exact (@embedding_failure_aborts_query Fixtures.default_config
           Fixtures.embedding_down 0 {| request_query := py "term" |}
           Fixtures.boom H).
Defined.

(** The search request of a run, when there is one, is the hybrid query for
    the text of the request and the vector the embedding call returned. *)
Lemma handle_query_request (cfg : Config) (E : env) (w : world E)
    (request : MCPRequest) :
  searches (trace_of E (handle_query cfg request) w) = []
  \/ exists v,
       embed_answers (trace_of E (handle_query cfg request) w) = [Ok v]
       /\ searches (trace_of E (handle_query cfg request) w)
          = [(OPENSEARCH_INDEX cfg,
              opensearch_query (request_query request) v)].
Proof.
  unfold handle_query. autorewrite with run views.
  case_answer E (c_embed_query (request_query request)) v e'.
  - right. exists v. autorewrite with run views.
    case_answer E
      (c_search (OPENSEARCH_INDEX cfg)
         (opensearch_query (request_query request) v)) found e';
      autorewrite with run views; cbn; split; reflexivity.
  - left. autorewrite with run views. reflexivity.
Qed.

Lemma Qmax_ub_l (a b : Q) : (a <= Qmax a b)%Q.
Proof.
  unfold Qmax. destruct (Qle_bool a b) eqn:L.
  - now apply Qle_bool_iff.
  - apply Qle_refl.
Qed.

Lemma Qmax_ub_r (a b : Q) : (b <= Qmax a b)%Q.
Proof.
  unfold Qmax. destruct (Qle_bool a b) eqn:L.
  - apply Qle_refl.
  - apply Qlt_le_weak, Qnot_le_lt. intros H.
    apply Qle_bool_iff in H. congruence.
Qed.

Lemma fold_Qmax_ge_init (ss : list Q) :
  forall s0 : Q, (s0 <= fold_left Qmax ss s0)%Q.
Proof.
  induction ss as [|x ss IH]; intros s0; simpl.
  - apply Qle_refl.
  - eapply Qle_trans; [apply (Qmax_ub_l s0 x)|apply IH].
Qed.

Lemma fold_Qmax_ge_all (ss : list Q) :
  forall (s0 x : Q), In x ss -> (x <= fold_left Qmax ss s0)%Q.
Proof.
  induction ss as [|y ss IH]; intros s0 x; simpl; [tauto|].
  intros [->|Hin].
  - eapply Qle_trans; [apply (Qmax_ub_r s0 x)|apply fold_Qmax_ge_init].
  - now apply IH.
Qed.

Lemma fold_Qmax_attained (ss : list Q) :
  forall s0 : Q, In (fold_left Qmax ss s0) (s0 :: ss).
Proof.
  induction ss as [|y ss IH]; intros s0; simpl; [now left|].
  destruct (IH (Qmax s0 y)) as [H|H].
  - unfold Qmax in H at 1. destruct (Qle_bool s0 y); rewrite <- H; auto.
  - right. now right.
Qed.

Section Engine.

Variable cosineSimilarity : vector -> vector -> Q.
Variable lexical_match : str -> str -> bool.
Variable lexical_score : str -> str -> Q.

(** The score the engine gives a chunk for the script-scored lexical query
    of the request: the similarity plus one when the text matches, nothing
    otherwise. *)
Lemma hybrid_chunk_score (text : str) (v : vector) (c : child_doc) :
  chunk_score cosineSimilarity lexical_match lexical_score
    (q_script_score (q_bool_should [q_match (py "chunk_text") text])
       {| script_source :=
            py "cosineSimilarity(params.query_vector, 'embedding') + 1.0";
          params_query_vector := v |}) c
  = if lexical_match text (chunk_text c)
    then Some (cosineSimilarity v (embedding c) + 1)%Q
    else None.
Proof.
  cbn [chunk_score]. rewrite str_eqb_refl. cbn [andb].
  destruct (lexical_match text (chunk_text c)); [|reflexivity].
  unfold eval_script. cbn [script_source params_query_vector].
  now rewrite str_eqb_refl.
Qed.

Lemma hybrid_child_scores (index : list source) (text : str) (v : vector)
    (p : parent_doc) :
  child_scores cosineSimilarity lexical_match lexical_score index (py "chunk")
    (q_script_score (q_bool_should [q_match (py "chunk_text") text])
       {| script_source :=
            py "cosineSimilarity(params.query_vector, 'embedding') + 1.0";
          params_query_vector := v |}) p
  = map (fun c => (cosineSimilarity v (embedding c) + 1)%Q)
      (filter
         (fun c => is_child_of (py "chunk") p c
                   && lexical_match text (chunk_text c))
         (children_of index)).
Proof.
  unfold child_scores.
  induction (children_of index) as [|c cs IH]; [reflexivity|].
  cbn [flat_map filter]. rewrite IH, hybrid_chunk_score.
  destruct (is_child_of (py "chunk") p c); [|reflexivity].
  now destruct (lexical_match text (chunk_text c)).
Qed.

(** A parent is in the result of the hybrid query only with a chunk of its
    own whose text matches; its score is the greatest similarity-plus-one
    among those chunks. *)
Lemma hybrid_search_max (index : list source) (text : str) (v : vector)
    (p : parent_doc) (s : Q) :
  In (p, s)
     (search cosineSimilarity lexical_match lexical_score index
        (opensearch_query text v)) ->
  (exists c,
      In c (children_of index)
      /\ name (my_join_field c) = py "chunk"
      /\ parent (my_join_field c) = Some (doc_id p)
      /\ lexical_match text (chunk_text c) = true
      /\ s = (cosineSimilarity v (embedding c) + 1)%Q)
  /\ (forall c,
         In c (children_of index) ->
         name (my_join_field c) = py "chunk" ->
         parent (my_join_field c) = Some (doc_id p) ->
         lexical_match text (chunk_text c) = true ->
         (cosineSimilarity v (embedding c) + 1 <= s)%Q).
Proof.
  unfold opensearch_query. cbn [search]. intros Hin.
  apply in_flat_map in Hin as (p' & _ & Hin).
  destruct (str_eqb (parent_join_field p') (py "document")); [|destruct Hin].
  rewrite hybrid_child_scores in Hin.
  set (matching := filter _ (children_of index)) in Hin.
  unfold aggregate in Hin.
  destruct (map _ matching) as [|s0 ss] eqn:Hm; [destruct Hin|].
  rewrite str_eqb_refl in Hin. destruct Hin as [Hin|[]].
  injection Hin as -> <-.
  assert (Hchar : forall c,
             In c matching <->
             In c (children_of index)
             /\ name (my_join_field c) = py "chunk"
             /\ parent (my_join_field c) = Some (doc_id p)
             /\ lexical_match text (chunk_text c) = true).
  { intros c. unfold matching. rewrite filter_In, andb_true_iff.
    unfold is_child_of. rewrite andb_true_iff, str_eqb_eq.
    destruct (parent (my_join_field c)) as [id|].
    - rewrite str_eqb_eq. split.
      + intros (H1 & (H2 & ->) & H3). auto.
      + intros (H1 & H2 & H3 & H4). injection H3 as ->. auto.
    - split.
      + intros (_ & (_ & H) & _). discriminate.
      + intros (_ & _ & H & _). discriminate. }
  split.
  - pose proof (fold_Qmax_attained ss s0) as Hat.
    rewrite <- Hm in Hat. apply in_map_iff in Hat as (c & Hc & Hcin).
    exists c. apply Hchar in Hcin as (H1 & H2 & H3 & H4).
    repeat split; auto.
  - intros c H1 H2 H3 H4.
    assert (Hcin : In c matching) by (apply Hchar; auto).
    apply (in_map (fun c => (cosineSimilarity v (embedding c) + 1)%Q)) in Hcin.
    rewrite Hm in Hcin. destruct Hcin as [<-|Hcin].
    + apply fold_Qmax_ge_init.
    + now apply fold_Qmax_ge_all.
Qed.

End Engine.

(** C3.  The request [handle_query] sends is a join on records of the chunk
    kind whose inner query is a script score, "cosine similarity + 1.0" on
    the query vector, over a lexical match on the chunk text, with the
    children's scores aggregated by their maximum.  Under the engine of
    the specification, a parent in the result has a matching chunk of its
    own and is ranked by the greatest score among its matching chunks: a
    parent whose chunks score 0.2, 0.9 and 0.5 is returned with 0.9, and a
    parent without a matching chunk is not returned. *)
Theorem hybrid_query_max_aggregation :
  (forall (cfg : Config) (E : env) (w : world E) (request : MCPRequest),
      Forall
        (fun sent =>
           fst sent = OPENSEARCH_INDEX cfg
           /\ exists v,
                In (Ok v)
                   (embed_answers (trace_of E (handle_query cfg request) w))
                /\ snd sent
                   = q_has_child (py "chunk")
                       (q_script_score
                          (q_bool_should
                             [q_match (py "chunk_text")
                                (request_query request)])
                          {| script_source :=
                               py "cosineSimilarity(params.query_vector, 'embedding') + 1.0";
                             params_query_vector := v |})
                       (py "max"))
        (searches (trace_of E (handle_query cfg request) w)))
  /\ (forall cosineSimilarity lexical_match lexical_score
             (index : list source) (text : str) (v : vector)
             (p : parent_doc) (s : Q),
         In (p, s)
            (search cosineSimilarity lexical_match lexical_score index
               (opensearch_query text v)) ->
         (exists c,
             In c (children_of index)
             /\ name (my_join_field c) = py "chunk"
             /\ parent (my_join_field c) = Some (doc_id p)
             /\ lexical_match text (chunk_text c) = true
             /\ s = (cosineSimilarity v (embedding c) + 1)%Q)
         /\ (forall c,
                In c (children_of index) ->
                name (my_join_field c) = py "chunk" ->
                parent (my_join_field c) = Some (doc_id p) ->
                lexical_match text (chunk_text c) = true ->
                (cosineSimilarity v (embedding c) + 1 <= s)%Q))
  /\ map (fun hit0 => (doc_id (fst hit0), Qred (snd hit0)))
       (search QueryFixtures.dot QueryFixtures.contains
          QueryFixtures.flat_score QueryFixtures.small_index
          (opensearch_query (py "term") QueryFixtures.query_vector0))
     = [(py "p-1", (9 # 10)%Q)].
Proof.
  split; [|split].
  - intros cfg E w request.
    destruct (handle_query_request cfg E w request) as [H|(v & He & Hs)];
      rewrite ?H, ?Hs; constructor; [|constructor].
    cbn [fst snd]. split; [reflexivity|].
    exists v. rewrite He. split; [now left|reflexivity].
  - intros cos lm ls index text v p s Hin.
    exact (hybrid_search_max cos lm ls index text v p s Hin).
  - now vm_compute.
Qed.

(** The scores of the three chunks of the first document of the small
    index are 0.2, 0.9 and 0.5. *)
Example small_index_chunk_scores :
  map Qred
    (child_scores QueryFixtures.dot QueryFixtures.contains
       QueryFixtures.flat_score QueryFixtures.small_index (py "chunk")
       (q_script_score
          (q_bool_should [q_match (py "chunk_text") (py "term")])
          {| script_source :=
               py "cosineSimilarity(params.query_vector, 'embedding') + 1.0";
             params_query_vector := QueryFixtures.query_vector0 |})
       {| doc_id := py "p-1"; file_name := []; file_path := []; summary := [];
          timestamp := []; parent_join_field := py "document" |})
  = [(1 # 5)%Q; (9 # 10)%Q; (1 # 2)%Q].
Proof. now vm_compute. Qed.

End QueryFacts.

(** ** Windowed chunking *)
Module WindowFacts.
Import RunFacts ChunkerFacts.

Section Windows.

Variables w stride : nat.
Hypothesis stride_pos : 1 <= stride.

(** One unit of fuel per character is enough: more fuel changes nothing. *)
Lemma windows_fuel (fuel : nat) :
  forall (text : str) (fuel' : nat),
    length text <= fuel ->
    length text <= fuel' ->
    windows fuel w stride text = windows fuel' w stride text.
Proof.
  induction fuel as [|fuel IH]; intros text fuel' Hf Hf'.
  - destruct text; [now destruct fuel'|cbn in Hf; lia].
  - destruct text as [|c text]; [now destruct fuel'|].
    destruct fuel' as [|fuel']; [cbn in Hf'; lia|].
    cbn [windows].
    destruct (length (c :: text) <=? w); [reflexivity|].
    f_equal.
    assert (Hs : length (skipn stride (c :: text)) <= length text).
    { rewrite length_skipn. cbn [length]. lia. }
    cbn [length] in Hf, Hf'. apply IH; lia.
Qed.

(** The i-th window is the slice of the text that starts at [i * stride]
    and is at most [w] long. *)
Lemma windows_nth (fuel : nat) :
  forall (text : str) (i : nat),
    length text <= fuel ->
    i < length (windows fuel w stride text) ->
    nth i (windows fuel w stride text) []
    = firstn w (skipn (i * stride) text).
Proof.
  induction fuel as [|fuel IH]; intros text i Hf Hi.
  - simpl in Hi. lia.
  - destruct text as [|c text]; [cbn in Hi; lia|].
    cbn [windows] in *.
    destruct (length (c :: text) <=? w) eqn:Hw.
    + apply Nat.leb_le in Hw. simpl in Hi.
      assert (i = 0) by lia. subst i.
      cbn [nth Nat.mul skipn]. now rewrite firstn_all2.
    + destruct i as [|i]; [reflexivity|].
      cbn [nth length] in *.
      rewrite IH.
      * rewrite skipn_skipn. f_equal. f_equal. simpl. lia.
      * rewrite length_skipn. cbn [length] in *. lia.
      * lia.
Qed.

(** Every window but the last is full. *)
Lemma windows_full (fuel : nat) :
  forall (text : str) (i : nat),
    length text <= fuel ->
    S i < length (windows fuel w stride text) ->
    length (nth i (windows fuel w stride text) []) = w.
Proof.
  induction fuel as [|fuel IH]; intros text i Hf Hi.
  - simpl in Hi. lia.
  - destruct text as [|c text]; [cbn in Hi; lia|].
    cbn [windows] in *.
    destruct (length (c :: text) <=? w) eqn:Hw.
    + simpl in Hi. lia.
    + apply Nat.leb_gt in Hw. destruct i as [|i].
      * cbn [nth]. rewrite length_firstn. lia.
      * cbn [nth length] in *. apply IH; [|lia].
        rewrite length_skipn. cbn [length] in *. lia.
Qed.

Hypothesis stride_le : stride <= w.

(** Every position of the text lies in a window. *)
Lemma windows_cover (fuel : nat) :
  forall (text : str) (j : nat),
    length text <= fuel ->
    j < length text ->
    exists i,
      i < length (windows fuel w stride text)
      /\ i * stride <= j
         < i * stride + length (nth i (windows fuel w stride text) []).
Proof.
  induction fuel as [|fuel IH]; intros text j Hf Hj.
  - lia.
  - destruct text as [|c text]; [cbn in Hj; lia|].
    cbn [windows].
    destruct (length (c :: text) <=? w) eqn:Hw.
    + exists 0. cbn [nth length] in *. lia.
    + apply Nat.leb_gt in Hw.
      destruct (Nat.lt_ge_cases j w) as [Hjw|Hjw].
      * exists 0. cbn [nth length Nat.mul Nat.add].
        rewrite length_firstn. lia.
      * destruct (IH (skipn stride (c :: text)) (j - stride))
          as (i & Hi & Hlo & Hhi).
        { rewrite length_skipn. cbn [length] in *. lia. }
        { rewrite length_skipn. cbn [length] in *. lia. }
        exists (S i). cbn [nth length]. simpl Nat.mul. lia.
Qed.

End Windows.

(** The chunks of the windowed splitter for a window of [chunk_size] and an
    overlap smaller than it. *)
Lemma window_split_spec (chunk_size chunk_overlap : nat) (text : str) :
  chunk_overlap < chunk_size ->
  let chunks := window_split chunk_size chunk_overlap text in
  (forall i, i < length chunks ->
             nth i chunks []
             = firstn chunk_size
                 (skipn (i * (chunk_size - chunk_overlap)) text))
  /\ (forall i, S i < length chunks -> length (nth i chunks []) = chunk_size)
  /\ (forall j, j < length text ->
                exists i,
                  i < length chunks
                  /\ i * (chunk_size - chunk_overlap) <= j
                     < i * (chunk_size - chunk_overlap)
                       + length (nth i chunks [])).
Proof.
  intros Ho chunks. subst chunks. unfold window_split.
  split; [|split].
  - intros i Hi. apply windows_nth; [lia|lia|exact Hi].
  - intros i Hi. apply windows_full; [lia|lia|exact Hi].
  - intros j Hj. apply windows_cover; [lia|lia|lia|exact Hj].
Qed.

(** C8.  In semantic mode, with the windowed splitter of the
    specification at the sizes the source fixes (window 1000, overlap 200),
    the i-th chunk is the window of the text that starts at character
    800 * i, so consecutive chunks start 800 characters apart; every chunk
    but the last is a full window, hence shares its last 200 characters
    with the next; and every character of the text lies in a chunk.  With
    window 10 and overlap 3 a text of 25 characters gives the windows that
    start at 0, 7, 14 and 21. *)
Theorem semantic_chunking_windows (cfg : Config) (E : env) (w : world E)
    (text : str) :
  lower (CHUNK_MODE cfg) = py "semantic" ->
  let chunks := value_of E (chunk_document cfg window_split text) w in
  (forall i, i < length chunks ->
             nth i chunks [] = firstn 1000 (skipn (i * 800) text))
  /\ (forall i, S i < length chunks -> length (nth i chunks []) = 1000)
  /\ (forall j, j < length text ->
                exists i,
                  i < length chunks
                  /\ i * 800 <= j < i * 800 + length (nth i chunks []))
  /\ window_split 10 3 (py "abcdefghijklmnopqrstuvwxy")
     = [py "abcdefghij"; py "hijklmnopq"; py "opqrstuvwx"; py "vwxy"].
Proof.
  intros Hmode chunks. subst chunks.
  rewrite (chunk_document_semantic cfg window_split E w text Hmode).
  assert (Ho : 200 < 1000) by lia.
  destruct (@window_split_spec 1000 200 text Ho) as (H1 & H2 & H3).
  change (1000 - 200) with 800 in *.
  split; [exact H1|]. split; [exact H2|]. split; [exact H3|].
  now vm_compute.
Qed.

Lemma semantic_chunking_windows_witness :
  lower (CHUNK_MODE Fixtures.semantic_config) = py "semantic"
  /\ forall i,
       i < length (value_of Fixtures.all_up
                     (chunk_document Fixtures.semantic_config window_split
                        (py "abcdefghijklmnopqrstuvwxy")) 0) ->
       nth i (value_of Fixtures.all_up
                (chunk_document Fixtures.semantic_config window_split
                   (py "abcdefghijklmnopqrstuvwxy")) 0) []
       = firstn 1000 (skipn (i * 800) (py "abcdefghijklmnopqrstuvwxy")).
Proof.
  assert (H : lower (CHUNK_MODE Fixtures.semantic_config) = py "semantic")
    by reflexivity.
  split; [exact H|].
  exact (proj1 (semantic_chunking_windows Fixtures.semantic_config
                  Fixtures.all_up 0 (py "abcdefghijklmnopqrstuvwxy") H)).
Defined.

End WindowFacts.

(** ** The pipeline, call by call *)
Module PipelineFacts.
Import PyFacts RunFacts ChunkerFacts IndexerFacts.

Lemma embed_texts_app (t1 t2 : trace) :
  embed_texts (t1 ++ t2) = embed_texts t1 ++ embed_texts t2.
Proof.
  induction t1 as [|o t1 IH]; [reflexivity|].
  destruct o; simpl; now rewrite ?IH.
Qed.

Lemma search_answers_app (t1 t2 : trace) :
  search_answers (t1 ++ t2) = search_answers t1 ++ search_answers t2.
Proof.
  induction t1 as [|o t1 IH]; [reflexivity|].
  destruct o; simpl; now rewrite ?IH.
Qed.

#[export] Hint Rewrite embed_texts_app search_answers_app : views.

Lemma chunk_document_trace (cfg : Config) splitter (E : env) (w : world E)
    (text : str) :
  exists (l : level) (m : log_msg),
    trace_of E (chunk_document cfg splitter text) w = [o_log l m].
Proof.
  unfold chunk_document.
  destruct (str_eqb (lower (CHUNK_MODE cfg)) (py "paragraph"));
    [|destruct (str_eqb (lower (CHUNK_MODE cfg)) (py "semantic"))];
    autorewrite with run; cbn; eexists _, _; reflexivity.
Qed.

Lemma embed_chunk_trace (E : env) (w : world E) (summary0 : str)
    (acc : list child_doc) (chunk : str) :
  exists (r : result vector) (id : str),
    value_of E (embed_chunk summary0 acc chunk) w =
      acc ++ [{| chunk_id := id; chunk_text := chunk;
                 embedding := stored_embedding r;
                 my_join_field := {| name := py "chunk"; parent := None |} |}]
    /\ trace_of E (embed_chunk summary0 acc chunk) w =
       o_embed_query (context_text summary0 chunk) r
       :: match r with
          | Ok _ => []
          | Raise e => [o_log ERROR (msg_error_generating_embedding e)]
          end ++ [o_uuid4 id].
Proof.
  unfold embed_chunk, get_embedding. autorewrite with run.
  fold (context_text summary0 chunk).
  set (r := fst (answer E (c_embed_query (context_text summary0 chunk)) w)).
  exists r. destruct r as [v|e]; autorewrite with run; cbn;
    eexists; split; reflexivity.
Qed.

(** The run of the loop over the chunks is one of the traces [loop_trace]
    describes. *)
Lemma embed_loop_trace (E : env) (summary0 : str) (chunks : list str) :
  forall (acc : list child_doc) (w : world E),
  exists new : list child_doc,
    value_of E (for_each chunks acc (embed_chunk summary0)) w = acc ++ new
    /\ loop_trace summary0 chunks new
         (trace_of E (for_each chunks acc (embed_chunk summary0)) w).
Proof.
  induction chunks as [|chunk chunks IH]; intros acc w.
  - exists []. cbn. rewrite app_nil_r. split; [reflexivity|constructor].
  - cbn [for_each]. autorewrite with run.
    destruct (embed_chunk_trace E w summary0 acc chunk) as (r & id & Hv & Ht).
    rewrite Hv, Ht.
    match goal with
    | |- context [value_of E (for_each chunks ?a _) ?w'] =>
        destruct (IH a w') as (new & Gv & Gt)
    end.
    rewrite Gv, <- app_assoc. eexists (_ :: new).
    split; [reflexivity|].
    destruct r as [v|e]; cbn [app stored_embedding].
    + apply loop_embedded. exact Gt.
    + apply loop_unembedded. exact Gt.
Qed.

(** What a trace of the loop holds, view by view. *)
Lemma loop_trace_views (summary0 : str) (chunks : list str)
    (new : list child_doc) (t : trace) :
  loop_trace summary0 chunks new t ->
  map chunk_text new = chunks
  /\ embed_texts t = map (context_text summary0) chunks
  /\ minted t = map chunk_id new
  /\ map embedding new = map stored_embedding (embed_answers t)
  /\ submitted t = [] /\ completions t = [] /\ loads t = []
  /\ Forall (fun c => my_join_field c
                      = {| name := py "chunk"; parent := None |}) new.
Proof.
  induction 1 as [|chunk chunks v id new t _ (I1 & I2 & I3 & I4 & I5 & I6 & I7 & I8)
                   |chunk chunks e id new t _ (I1 & I2 & I3 & I4 & I5 & I6 & I7 & I8)];
    cbn; rewrite ?I1, ?I2, ?I3, ?I4, ?I5, ?I6, ?I7;
    repeat split; try reflexivity; constructor; auto.
Qed.

(** Every embedding call of the loop that raised left its error line. *)
Lemma loop_trace_logs_failures (summary0 : str) (chunks : list str)
    (new : list child_doc) (t : trace) (e : exn) :
  loop_trace summary0 chunks new t ->
  In (Raise e) (embed_answers t) ->
  In (ERROR, msg_error_generating_embedding e) (logged t).
Proof.
  induction 1 as [|chunk chunks v id new t _ IH
                   |chunk chunks e' id new t _ IH]; cbn.
  - intros [].
  - intros [H|H]; [discriminate|auto].
  - intros [H|H]; [injection H as ->; now left|right; auto].
Qed.

(** The run of [process_pdf_file], call by call.  Either the loader raised
    and the run stops after the error line; or the tokenizer raised on the
    prompt and the run stops there, the error leaving the function; or the
    run goes through the generation call, the chunker's log line, the loop
    over the chunks, the parent's identifier and metadata, and ends with the
    bulk call and its log line. *)
Lemma process_pdf_file_trace (cfg : Config) enc splitter (E : env)
    (w : world E) (path : str) :
  (exists e,
      trace_of E (process_pdf_file cfg enc splitter path) w =
      [o_log INFO (msg_processing_file path); o_pdf_load path (Raise e);
       o_log ERROR (msg_error_loading_pdf path e)]
      /\ value_of E (process_pdf_file cfg enc splitter path) w = Ok tt)
  \/ (exists pages e,
         trace_of E (process_pdf_file cfg enc splitter path) w =
         [o_log INFO (msg_processing_file path); o_pdf_load path (Ok pages)]
         /\ truncate_text enc (summary_prompt (join [LF; LF] pages))
              (CONTEXT_MAX_TOKENS cfg) (OPENAI_SUMMARY_MODEL cfg) = Raise e
         /\ value_of E (process_pdf_file cfg enc splitter path) w = Raise e)
  \/ (exists pages prompt rc l1 m1 l2 m2 new t_loop pid base abs now r l3 m3,
         loop_trace (match rc with Ok a => strip a | Raise _ => [] end)
           (chunks_of cfg splitter (join [LF; LF] pages)) new t_loop
         /\ trace_of E (process_pdf_file cfg enc splitter path) w =
            [o_log INFO (msg_processing_file path);
             o_pdf_load path (Ok pages);
             o_completion_create
               {| cr_model := OPENAI_SUMMARY_MODEL cfg;
                  cr_prompt := prompt;
                  cr_max_tokens := SUMMARY_MAX_TOKENS cfg;
                  cr_temperature := (1 # 2)%Q;
                  cr_n := 1;
                  cr_stop := None |} rc;
             o_log l1 m1; o_log l2 m2]
            ++ t_loop
            ++ [o_uuid4 pid; o_basename path base; o_abspath path abs;
                o_utcnow_isoformat now;
                o_bulk
                  (build_actions cfg
                     {| doc_id := pid; file_name := base; file_path := abs;
                        summary :=
                          match rc with Ok a => strip a | Raise _ => [] end;
                        timestamp := now;
                        parent_join_field := py "document" |}
                     (map (set_parent pid) new)) r;
                o_log l3 m3]
         /\ truncate_text enc (summary_prompt (join [LF; LF] pages))
              (CONTEXT_MAX_TOKENS cfg) (OPENAI_SUMMARY_MODEL cfg) = Ok prompt
         /\ value_of E (process_pdf_file cfg enc splitter path) w = Ok tt).
Proof.
  unfold process_pdf_file. autorewrite with run.
  match goal with
  | |- context [fst (answer E (c_pdf_load path) ?w')] =>
      set (w1 := w');
      destruct (fst (answer E (c_pdf_load path) w1)) as [pages|e] eqn:L
  end.
  2:{ left. exists e. autorewrite with run. cbn. split; reflexivity. }
  right. autorewrite with run.
  set (w2 := snd (answer E (c_pdf_load path) w1)).
  set (full := join [LF; LF] pages).
  destruct (SummarizerFacts.generate_summary_run cfg enc E w2 full)
    as [(e & Tr & St & Sv)|(prompt & rc & l1 & m1 & Tr & St & Sv)];
    rewrite St, Sv; cbv beta iota; autorewrite with run.
  { left. exists pages, e. cbn. repeat split; try reflexivity. exact Tr. }
  right.
  destruct (chunk_document_trace cfg splitter E
              (state_of E (generate_summary cfg enc full) w2) full)
    as (l2 & m2 & Ct).
  rewrite Ct, !chunk_document_value.
  set (s0 := match rc with Ok a => strip a | Raise _ => [] end).
  set (w4 := state_of E (chunk_document cfg splitter full) _).
  destruct (embed_loop_trace E s0 (chunks_of cfg splitter full) [] w4)
    as (new & Lv & Lt).
  rewrite Lv. cbn [app].
  set (w5 := state_of E (for_each _ _ _) w4).
  set (pid := fst (answer E c_uuid4 w5)).
  match goal with
  | |- context [index_documents_to_opensearch cfg ?pd ?cs] =>
      set (parent_doc := pd); set (child_docs := cs)
  end.
  match goal with
  | |- context [trace_of E (index_documents_to_opensearch _ _ _) ?w'] =>
      destruct (index_documents_run cfg E w' parent_doc child_docs)
        as (r & Ht & Hv)
  end.
  rewrite Ht, Hv.
  eexists pages, prompt, rc, l1, m1, l2, m2, new, _, pid.
  destruct r as [u|e]; eexists _, _, _, _, _, _; (split; [exact Lt|]);
    (split; [cbn; rewrite <- ?app_assoc; reflexivity|]);
    (split; [exact Tr|reflexivity]).
Qed.

(** X1.  A PDF the loader cannot read is skipped: the run consists of the
    loader's call between two log lines, the second one the error, so no
    generation, embedding, identifier or bulk call is made, and
    [process_pdf_file] returns [None] without raising. *)
Theorem unreadable_pdf_is_skipped (cfg : Config) enc splitter (E : env)
    (w : world E) (path : str) (e : exn) :
  In (path, Raise e)
     (loads (trace_of E (process_pdf_file cfg enc splitter path) w)) ->
  trace_of E (process_pdf_file cfg enc splitter path) w =
  [o_log INFO (msg_processing_file path); o_pdf_load path (Raise e);
   o_log ERROR (msg_error_loading_pdf path e)]
  /\ value_of E (process_pdf_file cfg enc splitter path) w = Ok tt.
Proof.
  intros Hin.
  destruct (process_pdf_file_trace cfg enc splitter E w path)
    as [(e' & Ht & Hv)
       |[(pages & e' & Ht & _)
        |(pages & prompt & rc & l1 & m1 & l2 & m2 & new & t & pid & base & abs
          & now & r & l3 & m3 & Hl & Ht & _)]];
    rewrite Ht in Hin |- *.
  - cbn in Hin. destruct Hin as [Hin|[]]. injection Hin as ->.
    split; [reflexivity|exact Hv].
  - cbn in Hin. destruct Hin as [Hin|[]]. discriminate.
  - apply loop_trace_views in Hl as (_ & _ & _ & _ & _ & _ & Hld & _).
    autorewrite with views in Hin. rewrite Hld in Hin. cbn in Hin.
    destruct Hin as [Hin|[]]. discriminate.
Qed.

Lemma unreadable_pdf_is_skipped_witness :
  In (py "a.pdf", Raise Fixtures.boom)
     (loads
        (trace_of DriverFixtures.broken_pdf
           (process_pdf_file Fixtures.default_config Fixtures.known_models
              window_split (py "a.pdf")) 0))
  /\ trace_of DriverFixtures.broken_pdf
       (process_pdf_file Fixtures.default_config Fixtures.known_models
          window_split (py "a.pdf")) 0
     = [o_log INFO (msg_processing_file (py "a.pdf"));
        o_pdf_load (py "a.pdf") (Raise Fixtures.boom);
        o_log ERROR (msg_error_loading_pdf (py "a.pdf") Fixtures.boom)]
  /\ value_of DriverFixtures.broken_pdf
       (process_pdf_file Fixtures.default_config Fixtures.known_models
          window_split (py "a.pdf")) 0 = Ok tt.
Proof.
  assert (H : In (py "a.pdf", Raise Fixtures.boom)
                (loads
                   (trace_of DriverFixtures.broken_pdf
                      (process_pdf_file Fixtures.default_config
                         Fixtures.known_models window_split (py "a.pdf")) 0)))
    by (vm_compute; left; reflexivity).
  split; [exact H|].
  exact (@unreadable_pdf_is_skipped Fixtures.default_config
           Fixtures.known_models window_split DriverFixtures.broken_pdf 0
           (py "a.pdf") Fixtures.boom H).
Defined.

(** X2.  The text embedded for a chunk is the chunk prefixed by the
    document's summary: in every submitted batch, headed by the parent
    record, the texts sent to the embedding service are, in order,
    "Summary: <summary>\n\n<chunk>" for the summary stored in the parent and
    the chunk texts stored in the batch's chunk records, which hold the bare
    chunk. *)
Theorem chunks_embedded_with_summary (cfg : Config) enc splitter (E : env)
    (w : world E) (path : str) :
  Forall
    (fun batch =>
       exists (p : parent_doc) (a : action) (rest : list action),
         batch = a :: rest /\ _source a = ParentSource p
         /\ embed_texts (trace_of E (process_pdf_file cfg enc splitter path) w)
            = map (fun chunk => py "Summary: " ++ summary p ++ [LF; LF] ++ chunk)
                (map chunk_text (children_in rest)))
    (submitted (trace_of E (process_pdf_file cfg enc splitter path) w)).
Proof.
  destruct (process_pdf_file_trace cfg enc splitter E w path)
    as [(e' & Ht & _)
       |[(pages & e' & Ht & _)
        |(pages & prompt & rc & l1 & m1 & l2 & m2 & new & t & pid & base & abs
          & now & r & l3 & m3 & Hl & Ht & _)]];
    rewrite Ht; [constructor|constructor|].
  apply loop_trace_views in Hl as (H1 & H2 & _ & _ & H5 & _ & _ & H8).
  autorewrite with views. rewrite H2, H5. cbn [submitted embed_texts app].
  constructor; [|constructor].
  destruct (map_set_parent pid H8) as (M1 & _).
  match goal with
  | |- context [build_actions cfg ?pd ?cs] =>
      pose proof (children_in_build_actions cfg pd cs) as Hc;
      rewrite (build_actions_shape cfg pd cs) in Hc |- *;
      exists pd
  end.
  eexists _, _. split; [reflexivity|]. split; [reflexivity|].
  cbn [children_in _source] in Hc. rewrite Hc, M1, H1, app_nil_r.
  reflexivity.
Qed.

(** C2, as the code has it.  A chunk whose embedding call raised keeps its
    place in the batch.  [get_embedding] logs the error and returns the
    empty vector; the pipeline stores what it returns: when the i-th
    embedding call of a run raised, the error line is in the log, one batch
    is submitted, its chunk records are the chunks of the text in order with
    the vectors the calls returned (the empty vector for each call that
    raised), and the i-th record, the one of the chunk that call was made
    for, carries the empty vector.  Nothing filters or marks it. *)
Theorem failed_embedding_stored_empty (cfg : Config) enc splitter (E : env)
    (w : world E) (path : str) (i : nat) (e : exn) :
  nth_error
    (embed_answers (trace_of E (process_pdf_file cfg enc splitter path) w)) i
  = Some (Raise e) ->
  (forall (E' : env) (w' : world E') (text : str),
      fst (answer E' (c_embed_query text) w') = Raise e ->
      value_of E' (get_embedding text) w' = []
      /\ trace_of E' (get_embedding text) w'
         = [o_embed_query text (Raise e);
            o_log ERROR (msg_error_generating_embedding e)])
  /\ In (ERROR, msg_error_generating_embedding e)
       (logged (trace_of E (process_pdf_file cfg enc splitter path) w))
  /\ exists (pages : list str) (batch : list action) (c : child_doc)
            (summary0 : str),
       loads (trace_of E (process_pdf_file cfg enc splitter path) w)
       = [(path, Ok pages)]
       /\ submitted (trace_of E (process_pdf_file cfg enc splitter path) w)
          = [batch]
       /\ map chunk_text (children_in batch)
          = chunks_of cfg splitter (join [LF; LF] pages)
       /\ map embedding (children_in batch)
          = map stored_embedding
              (embed_answers
                 (trace_of E (process_pdf_file cfg enc splitter path) w))
       /\ nth_error (children_in batch) i = Some c
       /\ nth_error
            (embed_texts (trace_of E (process_pdf_file cfg enc splitter path) w))
            i
          = Some (py "Summary: " ++ summary0 ++ [LF; LF] ++ chunk_text c)
       /\ embedding c = [].
Proof.
  intros Hi. split.
  { intros E' w' text Ha. unfold get_embedding. autorewrite with run.
    rewrite Ha. autorewrite with run. cbn. rewrite ?Ha. split; reflexivity. }
  destruct (process_pdf_file_trace cfg enc splitter E w path)
    as [(e' & Ht & _)
       |[(pages & e' & Ht & _)
        |(pages & prompt & rc & l1 & m1 & l2 & m2 & new & t & pid & base & abs
          & now & r & l3 & m3 & Hl & Ht & _)]];
    rewrite Ht in Hi |- *.
  - destruct i; discriminate Hi.
  - destruct i; discriminate Hi.
  - pose proof (loop_trace_views Hl)
      as (H1 & H2 & _ & H4 & H5 & _ & H7 & H8).
    autorewrite with views in Hi |- *.
    cbn [embed_answers app] in Hi. rewrite app_nil_r in Hi.
    split.
    { apply in_or_app. right. apply in_or_app. left.
      apply (@loop_trace_logs_failures _ _ _ _ e Hl).
      exact (nth_error_In _ _ Hi). }
    rewrite H5, H7. cbn [submitted loads embed_answers embed_texts app].
    rewrite !app_nil_r.
    destruct (map_set_parent pid H8) as (M1 & M2 & _).
    assert (Hc : exists c, nth_error new i = Some c /\ embedding c = []).
    { pose proof (nth_error_map embedding i new) as Hm.
      rewrite H4, (map_nth_error stored_embedding _ _ Hi) in Hm.
      destruct (nth_error new i) as [c|]; [|discriminate].
      exists c. split; [reflexivity|]. now injection Hm as <-. }
    destruct Hc as (c & Hn & Hemp).
    eexists pages, _, (set_parent pid c),
      (match rc with Ok a => strip a | Raise _ => [] end).
    split; [reflexivity|]. split; [reflexivity|].
    rewrite children_in_build_actions.
    split; [now rewrite M1|]. split; [now rewrite M2|].
    split; [exact (map_nth_error (set_parent pid) _ _ Hn)|].
    split.
    + rewrite H2, <- H1.
      rewrite (map_nth_error _ _ _ (map_nth_error chunk_text _ _ Hn)).
      reflexivity.
    + exact Hemp.
Qed.

Lemma failed_embedding_stored_empty_witness :
  nth_error
    (embed_answers
       (trace_of Fixtures.embedding_down
          (process_pdf_file Fixtures.working_config Fixtures.known_models
             window_split (py "a.pdf")) 0)) 1
  = Some (Raise Fixtures.boom)
  /\ In (ERROR, msg_error_generating_embedding Fixtures.boom)
       (logged
          (trace_of Fixtures.embedding_down
             (process_pdf_file Fixtures.working_config Fixtures.known_models
                window_split (py "a.pdf")) 0))
  /\ exists (batch : list action) (c : child_doc),
       submitted
         (trace_of Fixtures.embedding_down
            (process_pdf_file Fixtures.working_config Fixtures.known_models
               window_split (py "a.pdf")) 0)
       = [batch]
       /\ nth_error (children_in batch) 1 = Some c
       /\ embedding c = [].
Proof.
  assert (H : nth_error
                (embed_answers
                   (trace_of Fixtures.embedding_down
                      (process_pdf_file Fixtures.working_config
                         Fixtures.known_models window_split (py "a.pdf")) 0))
                1
              = Some (Raise Fixtures.boom)) by (vm_compute; reflexivity).
  split; [exact H|].
  destruct (@failed_embedding_stored_empty Fixtures.working_config
              Fixtures.known_models window_split Fixtures.embedding_down 0
              (py "a.pdf") 1 Fixtures.boom H)
    as (_ & Hlog & pages & batch & c & s0 & _ & Hs & _ & _ & Hn & _ & He).
  split; [exact Hlog|].
  exists batch, c. split; [exact Hs|]. split; [exact Hn|exact He].
Defined.

(** With the embedding service down, the batch of the two-paragraph
    document carries two chunk records whose embedding is the empty
    vector. *)
Lemma empty_embedding_is_submitted :
  embed_answers
    (trace_of Fixtures.embedding_down
       (process_pdf_file Fixtures.working_config Fixtures.known_models
          window_split (py "a.pdf")) 0)
  = [Raise Fixtures.boom; Raise Fixtures.boom]
  /\ map (fun batch => map (fun c => (chunk_text c, embedding c))
                         (children_in batch))
       (submitted
          (trace_of Fixtures.embedding_down
             (process_pdf_file Fixtures.working_config Fixtures.known_models
                window_split (py "a.pdf")) 0))
     = [[(py "Para one.", []); (py "Para two.", [])]].
Proof. split; vm_compute; reflexivity. Qed.

(** X3.  A document the loader read and whose prompt the tokenizer accepted
    is submitted, once: whatever the generation, embedding and bulk calls
    answer, the run makes one generation call, with the prompt the
    truncation returned, and one bulk call; the summary stored in the parent
    record is the stripped answer of the generation call, or the empty
    string when that call raised; and the run returns [None]. *)
Theorem loaded_document_is_submitted_once (cfg : Config) enc splitter
    (E : env) (w : world E) (path : str) (pages : list str) (prompt : str) :
  In (path, Ok pages)
     (loads (trace_of E (process_pdf_file cfg enc splitter path) w)) ->
  truncate_text enc (summary_prompt (join [LF; LF] pages))
    (CONTEXT_MAX_TOKENS cfg) (OPENAI_SUMMARY_MODEL cfg) = Ok prompt ->
  exists (rc : result str) (p : parent_doc) (a : action)
         (rest : list action),
    completions (trace_of E (process_pdf_file cfg enc splitter path) w)
    = [({| cr_model := OPENAI_SUMMARY_MODEL cfg;
           cr_prompt := prompt;
           cr_max_tokens := SUMMARY_MAX_TOKENS cfg;
           cr_temperature := (1 # 2)%Q;
           cr_n := 1;
           cr_stop := None |}, rc)]
    /\ submitted (trace_of E (process_pdf_file cfg enc splitter path) w)
       = [a :: rest]
    /\ _source a = ParentSource p
    /\ summary p = match rc with Ok answer0 => strip answer0 | Raise _ => [] end
    /\ value_of E (process_pdf_file cfg enc splitter path) w = Ok tt.
Proof.
  intros Hin Htok.
  destruct (process_pdf_file_trace cfg enc splitter E w path)
    as [(e' & Ht & _)
       |[(pages' & e' & Ht & Hr & _)
        |(pages' & prompt' & rc & l1 & m1 & l2 & m2 & new & t & pid & base
          & abs & now & r & l3 & m3 & Hl & Ht & Hp & Hv)]];
    rewrite Ht in Hin |- *.
  - cbn in Hin. destruct Hin as [Hin|[]]. discriminate.
  - cbn in Hin. destruct Hin as [Hin|[]]. injection Hin as ->.
    rewrite Htok in Hr. discriminate.
  - pose proof (loop_trace_views Hl) as (_ & _ & _ & _ & H5 & H6 & H7 & _).
    autorewrite with views in Hin. rewrite H7 in Hin. cbn in Hin.
    destruct Hin as [Hin|[]]. injection Hin as ->.
    rewrite Htok in Hp. injection Hp as <-.
    autorewrite with views. rewrite H5, H6.
    cbn [submitted completions app].
    match goal with
    | |- context [build_actions cfg ?pd ?cs] =>
        rewrite (build_actions_shape cfg pd cs); eexists rc, pd
    end.
    eexists _, _. repeat split. exact Hv.
Qed.

Lemma loaded_document_is_submitted_once_witness :
  In (py "a.pdf", Ok Fixtures.two_paragraphs)
     (loads
        (trace_of DriverFixtures.summary_down
           (process_pdf_file Fixtures.working_config Fixtures.known_models
              window_split (py "a.pdf")) 0))
  /\ truncate_text Fixtures.known_models
       (summary_prompt (join [LF; LF] Fixtures.two_paragraphs))
       (CONTEXT_MAX_TOKENS Fixtures.working_config)
       (OPENAI_SUMMARY_MODEL Fixtures.working_config)
     = Ok (summary_prompt (join [LF; LF] Fixtures.two_paragraphs))
  /\ exists (p : parent_doc) (a : action) (rest : list action),
       submitted
         (trace_of DriverFixtures.summary_down
            (process_pdf_file Fixtures.working_config Fixtures.known_models
               window_split (py "a.pdf")) 0)
       = [a :: rest]
       /\ _source a = ParentSource p
       /\ summary p = [].
Proof.
  assert (H : In (py "a.pdf", Ok Fixtures.two_paragraphs)
                (loads
                   (trace_of DriverFixtures.summary_down
                      (process_pdf_file Fixtures.working_config
                         Fixtures.known_models window_split (py "a.pdf")) 0)))
    by (vm_compute; left; reflexivity).
  assert (H2 : truncate_text Fixtures.known_models
                 (summary_prompt (join [LF; LF] Fixtures.two_paragraphs))
                 (CONTEXT_MAX_TOKENS Fixtures.working_config)
                 (OPENAI_SUMMARY_MODEL Fixtures.working_config)
               = Ok (summary_prompt (join [LF; LF] Fixtures.two_paragraphs)))
    by (vm_compute; reflexivity).
  split; [exact H|]. split; [exact H2|].
  destruct (@loaded_document_is_submitted_once Fixtures.working_config
              Fixtures.known_models window_split DriverFixtures.summary_down 0
              (py "a.pdf") Fixtures.two_paragraphs _ H H2)
    as (rc & p & a & rest & Hc & Hs & Hsrc & Hsum & _).
  exists p, a, rest. split; [exact Hs|]. split; [exact Hsrc|].
  rewrite Hsum.
  assert (Hrc : completions
                  (trace_of DriverFixtures.summary_down
                     (process_pdf_file Fixtures.working_config
                        Fixtures.known_models window_split (py "a.pdf")) 0)
                = [({| cr_model := OPENAI_SUMMARY_MODEL Fixtures.working_config;
                       cr_prompt :=
                         summary_prompt
                           (join [LF; LF] Fixtures.two_paragraphs);
                       cr_max_tokens :=
                         SUMMARY_MAX_TOKENS Fixtures.working_config;
                       cr_temperature := (1 # 2)%Q;
                       cr_n := 1;
                       cr_stop := None |}, Raise Fixtures.boom)])
    by (vm_compute; reflexivity).
  rewrite Hrc in Hc. injection Hc as <-. reflexivity.
Defined.

(** X23.  What the tokenizer raises on the prompt ends the run of the
    document: after the loader's call nothing more is called, no generation
    request, no embedding, no identifier, no bulk call, not even a log
    line, and the error leaves [process_pdf_file]. *)
Theorem tokenizer_failure_aborts_document (cfg : Config) enc splitter
    (E : env) (w : world E) (path : str) (pages : list str) (e : exn) :
  In (path, Ok pages)
     (loads (trace_of E (process_pdf_file cfg enc splitter path) w)) ->
  truncate_text enc (summary_prompt (join [LF; LF] pages))
    (CONTEXT_MAX_TOKENS cfg) (OPENAI_SUMMARY_MODEL cfg) = Raise e ->
  trace_of E (process_pdf_file cfg enc splitter path) w =
  [o_log INFO (msg_processing_file path); o_pdf_load path (Ok pages)]
  /\ value_of E (process_pdf_file cfg enc splitter path) w = Raise e.
Proof.
  intros Hin Htok.
  destruct (process_pdf_file_trace cfg enc splitter E w path)
    as [(e' & Ht & _)
       |[(pages' & e' & Ht & Hr & Hv)
        |(pages' & prompt' & rc & l1 & m1 & l2 & m2 & new & t & pid & base
          & abs & now & r & l3 & m3 & Hl & Ht & Hp & _)]];
    rewrite Ht in Hin |- *.
  - cbn in Hin. destruct Hin as [Hin|[]]. discriminate.
  - cbn in Hin. destruct Hin as [Hin|[]]. injection Hin as ->.
    rewrite Htok in Hr. injection Hr as <-.
    split; [reflexivity|exact Hv].
  - pose proof (loop_trace_views Hl) as (_ & _ & _ & _ & _ & _ & H7 & _).
    autorewrite with views in Hin. rewrite H7 in Hin. cbn in Hin.
    destruct Hin as [Hin|[]]. injection Hin as ->.
    rewrite Htok in Hp. discriminate.
Qed.

Lemma tokenizer_failure_aborts_document_witness :
  In (py "a.pdf", Ok Fixtures.two_paragraphs)
     (loads
        (trace_of Fixtures.all_up
           (process_pdf_file Fixtures.default_config Fixtures.known_models
              window_split (py "a.pdf")) 0))
  /\ Fixtures.known_models (OPENAI_SUMMARY_MODEL Fixtures.default_config)
     = Raise (Exception
                (py "Could not automatically map gpt4o-mini to a tokeniser."))
  /\ trace_of Fixtures.all_up
       (process_pdf_file Fixtures.default_config Fixtures.known_models
          window_split (py "a.pdf")) 0
     = [o_log INFO (msg_processing_file (py "a.pdf"));
        o_pdf_load (py "a.pdf") (Ok Fixtures.two_paragraphs)]
  /\ value_of Fixtures.all_up
       (process_pdf_file Fixtures.default_config Fixtures.known_models
          window_split (py "a.pdf")) 0
     = Raise (Exception
                (py "Could not automatically map gpt4o-mini to a tokeniser.")).
Proof.
  assert (H : In (py "a.pdf", Ok Fixtures.two_paragraphs)
                (loads
                   (trace_of Fixtures.all_up
                      (process_pdf_file Fixtures.default_config
                         Fixtures.known_models window_split (py "a.pdf")) 0)))
    by (vm_compute; left; reflexivity).
  assert (H2 : truncate_text Fixtures.known_models
                 (summary_prompt (join [LF; LF] Fixtures.two_paragraphs))
                 (CONTEXT_MAX_TOKENS Fixtures.default_config)
                 (OPENAI_SUMMARY_MODEL Fixtures.default_config)
               = Raise (Exception
                          (py "Could not automatically map gpt4o-mini to a tokeniser.")))
    by (vm_compute; reflexivity).
  split; [exact H|]. split; [vm_compute; reflexivity|].
  exact (@tokenizer_failure_aborts_document Fixtures.default_config
           Fixtures.known_models window_split Fixtures.all_up 0
           (py "a.pdf") Fixtures.two_paragraphs _ H H2).
Defined.

(** A page that spells the tokenizer's end-of-text token has the same
    effect with a summary model the library knows: the encoder refuses the
    prompt, and the document is dropped with an error after it was loaded. *)
Example special_token_text_aborts_document :
  trace_of DriverFixtures.special_token_pdf
    (process_pdf_file Fixtures.working_config DriverFixtures.strict_models
       window_split (py "a.pdf")) 0
  = [o_log INFO (msg_processing_file (py "a.pdf"));
     o_pdf_load (py "a.pdf") (Ok [py "The end. <|endoftext|>"])]
  /\ value_of DriverFixtures.special_token_pdf
       (process_pdf_file Fixtures.working_config DriverFixtures.strict_models
          window_split (py "a.pdf")) 0
     = Raise (Exception
                (py "Encountered text corresponding to disallowed special token")).
Proof. split; vm_compute; reflexivity. Qed.

(** X4.  The bulk call is a barrier: when a run submits a batch, the bulk
    call and its log line are the last two entries of the run, and every
    call to the loader, the generation service, the embedding service and
    the identifier source comes before it. *)
Theorem bulk_call_comes_last (cfg : Config) enc splitter (E : env)
    (w : world E) (path : str) :
  submitted (trace_of E (process_pdf_file cfg enc splitter path) w) = []
  \/ exists (before : trace) (batch : list action) (r : result unit)
            (l : level) (m : log_msg),
       trace_of E (process_pdf_file cfg enc splitter path) w
       = before ++ [o_bulk batch r; o_log l m]
       /\ submitted before = []
       /\ embed_answers before
          = embed_answers (trace_of E (process_pdf_file cfg enc splitter path) w)
       /\ minted before
          = minted (trace_of E (process_pdf_file cfg enc splitter path) w)
       /\ completions before
          = completions (trace_of E (process_pdf_file cfg enc splitter path) w)
       /\ loads before
          = loads (trace_of E (process_pdf_file cfg enc splitter path) w).
Proof.
  destruct (process_pdf_file_trace cfg enc splitter E w path)
    as [(e' & Ht & _)
       |[(pages & e' & Ht & _)
        |(pages & prompt & rc & l1 & m1 & l2 & m2 & new & t & pid & base & abs
          & now & r & l3 & m3 & Hl & Ht & _)]];
    rewrite Ht; [now left|now left|right].
  apply loop_trace_views in Hl as (_ & _ & _ & _ & H5 & _).
  match goal with
  | |- context [?pre ++ t ++ [?u; ?b1; ?b2; ?n; o_bulk ?batch r; o_log l3 m3]] =>
      exists (pre ++ t ++ [u; b1; b2; n]), batch, r, l3, m3
  end.
  split; [now rewrite <- !app_assoc|].
  autorewrite with views. cbn. rewrite H5, ?app_nil_r. repeat split.
Qed.

(** X5.  The ids of a batch are the identifiers minted in the run: one per
    chunk, in chunk order, then the parent's, which is minted last and heads
    the batch.  When the identifiers minted are pairwise distinct, so are
    the ids of the batch's entries. *)
Theorem batch_ids_are_minted (cfg : Config) enc splitter (E : env)
    (w : world E) (path : str) :
  Forall
    (fun batch =>
       exists (parent_id : str) (chunk_ids : list str),
         minted (trace_of E (process_pdf_file cfg enc splitter path) w)
         = chunk_ids ++ [parent_id]
         /\ map _id batch = parent_id :: chunk_ids
         /\ (NoDup (minted (trace_of E (process_pdf_file cfg enc splitter path) w))
             -> NoDup (map _id batch)))
    (submitted (trace_of E (process_pdf_file cfg enc splitter path) w)).
Proof.
  pose proof (process_pdf_file_run cfg enc splitter E w path) as H.
  cbn zeta in H.
  destruct H as [(e & _ & Hs & _)
                |[(pages & e & _ & _ & Hs & _)
                 |(pages & prompt & pd & cs & _ & _ & Hs & Hm & _)]];
    rewrite Hs; constructor; [|constructor].
  exists (doc_id pd), (map chunk_id cs). rewrite Hm.
  assert (Hid : map _id (build_actions cfg pd cs)
                = doc_id pd :: map chunk_id cs).
  { rewrite build_actions_shape. cbn. now rewrite map_map. }
  rewrite Hid. repeat split.
  intros Hnd. apply NoDup_rev in Hnd.
  rewrite rev_app_distr in Hnd. cbn in Hnd.
  apply NoDup_cons_iff in Hnd as [Hnin Hnd].
  constructor.
  - intros Hin. apply Hnin. now apply -> in_rev.
  - apply NoDup_rev in Hnd. now rewrite rev_involutive in Hnd.
Qed.

(** X6.  Every entry the writer assembles is an "index" operation on the
    configured index whose [_id] is its record's own id and whose [_source]
    is the record it was given, unchanged: the parent first, then the
    children in the order given. *)
Theorem writer_entries_address_their_records (cfg : Config) (p : parent_doc)
    (cs : list child_doc) :
  map _source (build_actions cfg p cs) = ParentSource p :: map ChildSource cs
  /\ map _id (build_actions cfg p cs) = doc_id p :: map chunk_id cs
  /\ Forall (fun a => _op_type a = py "index"
                      /\ _index a = OPENSEARCH_INDEX cfg)
       (build_actions cfg p cs).
Proof.
  rewrite build_actions_shape. cbn [map _source _id].
  rewrite !map_map. cbn [_source _id].
  split; [reflexivity|]. split; [reflexivity|].
  constructor; [now split|].
  { apply Forall_forall. intros a Hin.
    apply in_map_iff in Hin as (c & <- & _). now split. }
Qed.

End PipelineFacts.

(** ** The query handler, call by call *)
Module HandlerFacts.
Import RunFacts PipelineFacts IndexerFacts.

(** The run of [handle_query]: the embedding call after one log line; when
    it answered, two log lines, the search call and a last log line. *)
Lemma handle_query_trace (cfg : Config) (E : env) (w : world E)
    (request : MCPRequest) :
  (exists e,
      trace_of E (handle_query cfg request) w =
      [o_log INFO (msg_received_query (request_query request));
       o_embed_query (request_query request) (Raise e)]
      /\ value_of E (handle_query cfg request) w = Raise e)
  \/ (exists v rs l m,
         trace_of E (handle_query cfg request) w =
         [o_log INFO (msg_received_query (request_query request));
          o_embed_query (request_query request) (Ok v);
          o_log INFO msg_vectorization_complete;
          o_log INFO msg_executing_query;
          o_search (OPENSEARCH_INDEX cfg)
            (opensearch_query (request_query request) v) rs;
          o_log l m]
         /\ value_of E (handle_query cfg request) w =
            match rs with
            | Raise e => Ok (MCPResponse_error (exn_str e))
            | Ok found =>
                Ok (MCPResponse_results
                      (map parent_info_of (response_hits found)))
            end).
Proof.
  unfold handle_query. autorewrite with run.
  case_answer E (c_embed_query (request_query request)) v e'.
  - right. exists v. autorewrite with run.
    match goal with
    | |- context [fst (answer E (c_search ?i ?b) ?w')] =>
        set (rs := fst (answer E (c_search i b) w'))
    end.
    exists rs. destruct rs as [found|e']; autorewrite with run; cbn;
      eexists _, _; (split; [reflexivity|]); try reflexivity.
    rewrite (fold_append_map parent_info_of). reflexivity.
  - left. exists e'. autorewrite with run. cbn. split; reflexivity.
Qed.

(** X7.  A search that raises is answered, not raised: [handle_query]
    returns an error response that carries the text of the exception. *)
Theorem search_failure_is_an_error_response (cfg : Config) (E : env)
    (w : world E) (request : MCPRequest) (e : exn) :
  In (Raise e) (search_answers (trace_of E (handle_query cfg request) w)) ->
  value_of E (handle_query cfg request) w
  = Ok (MCPResponse_error (exn_str e)).
Proof.
  destruct (handle_query_trace cfg E w request)
    as [(e' & Ht & Hv)|(v & rs & l & m & Ht & Hv)];
    rewrite Ht, Hv; cbn; [intros []|intros [H|[]]].
  now subst rs.
Qed.

Lemma search_failure_is_an_error_response_witness :
  In (Raise Fixtures.boom)
     (search_answers
        (trace_of DriverFixtures.search_down
           (handle_query Fixtures.default_config
              {| request_query := py "term" |}) 0))
  /\ value_of DriverFixtures.search_down
       (handle_query Fixtures.default_config {| request_query := py "term" |})
       0
     = Ok (MCPResponse_error (py "service unavailable")).
Proof.
  assert (H : In (Raise Fixtures.boom)
                (search_answers
                   (trace_of DriverFixtures.search_down
                      (handle_query Fixtures.default_config
                         {| request_query := py "term" |}) 0)))
    by (vm_compute; left; reflexivity).
  split; [exact H|].
  exact (@search_failure_is_an_error_response Fixtures.default_config
           DriverFixtures.search_down 0 {| request_query := py "term" |}
           Fixtures.boom H).
Defined.

(** X8.  When the search answers, the response holds one row per hit, in
    the order of the hits, each with the hit's id as [doc_id] and the four
    metadata fields read from the hit's source, a field that is missing
    there being [None]; a response body without its "hits" gives the empty
    list of rows, not an error. *)
Theorem results_follow_hits (cfg : Config) (E : env) (w : world E)
    (request : MCPRequest) (found : search_response) :
  In (Ok found) (search_answers (trace_of E (handle_query cfg request) w)) ->
  exists rows : list parent_info,
    value_of E (handle_query cfg request) w = Ok (MCPResponse_results rows)
    /\ map info_doc_id rows = map hit_id (response_hits found)
    /\ map info_file_name rows
       = map (fun h => src_file_name (hit_source_of h)) (response_hits found)
    /\ map info_file_path rows
       = map (fun h => src_file_path (hit_source_of h)) (response_hits found)
    /\ map info_summary rows
       = map (fun h => src_summary (hit_source_of h)) (response_hits found)
    /\ map info_timestamp rows
       = map (fun h => src_timestamp (hit_source_of h)) (response_hits found)
    /\ (hits found = None \/ hits found = Some None -> rows = []).
Proof.
  destruct (handle_query_trace cfg E w request)
    as [(e' & Ht & Hv)|(v & rs & l & m & Ht & Hv)];
    rewrite Ht, Hv; cbn; [intros []|intros [H|[]]].
  subst rs. exists (map parent_info_of (response_hits found)).
  rewrite !map_map. cbn. repeat split.
  intros [Hn|Hn]; unfold response_hits; now rewrite Hn.
Qed.

Lemma results_follow_hits_witness :
  In (Ok {| hits := Some (Some DriverFixtures.two_hits) |})
     (search_answers
        (trace_of DriverFixtures.search_up
           (handle_query Fixtures.default_config
              {| request_query := py "term" |}) 0))
  /\ exists rows : list parent_info,
       value_of DriverFixtures.search_up
         (handle_query Fixtures.default_config
            {| request_query := py "term" |}) 0
       = Ok (MCPResponse_results rows)
       /\ map info_doc_id rows = [py "p-1"; py "p-2"].
Proof.
  assert (H : In (Ok {| hits := Some (Some DriverFixtures.two_hits) |})
                (search_answers
                   (trace_of DriverFixtures.search_up
                      (handle_query Fixtures.default_config
                         {| request_query := py "term" |}) 0)))
    by (vm_compute; left; reflexivity).
  split; [exact H|].
  destruct (@results_follow_hits Fixtures.default_config
              DriverFixtures.search_up 0 {| request_query := py "term" |}
              _ H) as (rows & Hv & Hid & _).
  exists rows. split; [exact Hv|exact Hid].
Defined.

(** X9.  [handle_query] raises only what the embedding of the query raised:
    when it raises, the embedding call is the one call it made besides a log
    line, and that call raised the same exception. *)
Theorem handler_raises_only_embedding_errors (cfg : Config) (E : env)
    (w : world E) (request : MCPRequest) (e : exn) :
  value_of E (handle_query cfg request) w = Raise e ->
  trace_of E (handle_query cfg request) w =
  [o_log INFO (msg_received_query (request_query request));
   o_embed_query (request_query request) (Raise e)].
Proof.
  destruct (handle_query_trace cfg E w request)
    as [(e' & Ht & Hv)|(v & rs & l & m & Ht & Hv)];
    rewrite Ht, Hv.
  - now intros [= ->].
  - destruct rs; discriminate.
Qed.

Lemma handler_raises_only_embedding_errors_witness :
  value_of Fixtures.embedding_down
    (handle_query Fixtures.default_config {| request_query := py "term" |}) 0
  = Raise Fixtures.boom
  /\ trace_of Fixtures.embedding_down
       (handle_query Fixtures.default_config {| request_query := py "term" |})
       0
     = [o_log INFO (msg_received_query (py "term"));
        o_embed_query (py "term") (Raise Fixtures.boom)].
Proof.
  assert (H : value_of Fixtures.embedding_down
                (handle_query Fixtures.default_config
                   {| request_query := py "term" |}) 0
              = Raise Fixtures.boom) by (vm_compute; reflexivity).
  split; [exact H|].
  exact (@handler_raises_only_embedding_errors Fixtures.default_config
           Fixtures.embedding_down 0 {| request_query := py "term" |}
           Fixtures.boom H).
Defined.

(** X10.  The query text is used as it comes: one embedding call is made,
    on the text of the request unchanged, and at most one search request is
    sent, on the configured index. *)
Theorem query_text_is_embedded_verbatim (cfg : Config) (E : env)
    (w : world E) (request : MCPRequest) :
  embed_texts (trace_of E (handle_query cfg request) w)
  = [request_query request]
  /\ length (searches (trace_of E (handle_query cfg request) w)) <= 1
  /\ Forall (fun sent => fst sent = OPENSEARCH_INDEX cfg)
       (searches (trace_of E (handle_query cfg request) w)).
Proof.
  destruct (handle_query_trace cfg E w request)
    as [(e' & Ht & _)|(v & rs & l & m & Ht & _)];
    rewrite Ht; cbn; repeat split; auto.
Qed.

End HandlerFacts.

(** ** More on paragraph chunks *)
Module ParagraphFacts.
Import PyFacts RunFacts ChunkerFacts.

Lemma startswith_prefix (p b : str) : startswith p (p ++ b) = true.
Proof.
  induction p as [|x p IH]; simpl; [reflexivity|].
  now rewrite N.eqb_refl, IH.
Qed.

(** [occurs p s] holds exactly when [s] is some text, then [p], then some
    text. *)
Lemma occurs_iff (p s : str) :
  occurs p s = true <-> exists a b, s = a ++ p ++ b.
Proof.
  split.
  - induction s as [|c s IH]; cbn [occurs]; intros H.
    + rewrite orb_false_r in H. apply startswith_app in H.
      now exists [], (skipn (length p) []).
    + apply orb_true_iff in H as [H|H].
      * apply startswith_app in H. now exists [], (skipn (length p) (c :: s)).
      * destruct (IH H) as (a & b & ->). now exists (c :: a), b.
  - intros (a & b & ->). induction a as [|c a IH].
    + cbn [app]. destruct (p ++ b) eqn:E; cbn [occurs];
        rewrite <- E, startswith_prefix; reflexivity.
    + cbn [app occurs]. rewrite IH. apply orb_true_r.
Qed.

Lemma occurs_trans (p c s : str) :
  occurs p c = true -> occurs c s = true -> occurs p s = true.
Proof.
  rewrite !occurs_iff. intros (a & b & ->) (a' & b' & ->).
  exists (a' ++ a), (b ++ b'). now rewrite <- !app_assoc.
Qed.

Lemma in_join_occurs (sep p : str) (ps : list str) :
  In p ps -> occurs p (join sep ps) = true.
Proof.
  intros Hin. apply occurs_iff.
  induction ps as [|q ps IH]; [destruct Hin|].
  destruct ps as [|q' ps].
  - destruct Hin as [->|[]]. exists [], []. cbn. now rewrite app_nil_r.
  - rewrite join_cons by discriminate. destruct Hin as [->|Hin].
    + now exists [], (sep ++ join sep (q' :: ps)).
    + destruct (IH Hin) as (a & b & ->).
      exists (q ++ sep ++ a), b. now rewrite <- !app_assoc.
Qed.

Lemma lstrip_suffix (s : str) : exists a, s = a ++ lstrip s.
Proof.
  induction s as [|c s (a & IH)]; [now exists []|]. cbn.
  destruct (isspace c).
  - exists (c :: a). cbn. now f_equal.
  - now exists [].
Qed.

Lemma strip_occurs (s : str) : occurs (strip s) s = true.
Proof.
  apply occurs_iff. unfold strip, rstrip.
  destruct (lstrip_suffix s) as (a & Ha).
  destruct (lstrip_suffix (rev (lstrip s))) as (b & Hb).
  exists a, (rev b). rewrite <- rev_app_distr, <- Hb, rev_involutive.
  exact Ha.
Qed.

Lemma lstrip_length (s : str) : length (lstrip s) <= length s.
Proof.
  induction s as [|c s IH]; cbn; [lia|]. destruct (isspace c); cbn; lia.
Qed.

Lemma strip_length (s : str) : length (strip s) <= length s.
Proof.
  unfold strip, rstrip. rewrite length_rev.
  eapply Nat.le_trans; [apply lstrip_length|].
  rewrite length_rev. apply lstrip_length.
Qed.

Lemma lstrip_blank (s : str) : blank s = true -> lstrip s = [].
Proof.
  unfold blank. induction s as [|c s IH]; cbn; [reflexivity|].
  intros H. apply andb_prop in H as [Hc Hs]. rewrite Hc. now apply IH.
Qed.

Lemma occurs_blank (p s : str) :
  occurs p s = true -> blank s = true -> blank p = true.
Proof.
  rewrite occurs_iff. intros (a & b & ->). unfold blank.
  rewrite !forallb_app. intros H.
  apply andb_prop in H as [_ H]. now apply andb_prop in H as [H _].
Qed.

Lemma join_length (sep : str) (ps : list str) :
  list_sum (map (@length N) ps) <= length (join sep ps).
Proof.
  unfold list_sum.
  induction ps as [|p ps IH]; [cbn; lia|].
  destruct ps as [|q ps]; [cbn; lia|].
  rewrite join_cons by discriminate. cbn [map fold_right] in *.
  rewrite !length_app. lia.
Qed.

Lemma stripped_pieces_length (ps : list str) :
  list_sum (map (@length N) (filter truthy (map strip ps)))
  <= list_sum (map (@length N) ps).
Proof.
  unfold list_sum.
  induction ps as [|p ps IH]; [cbn; lia|]. cbn [map filter].
  pose proof (strip_length p).
  destruct (truthy (strip p)); cbn [map fold_right]; lia.
Qed.

(** Outside the semantic mode, [chunk_document] returns the paragraphs. *)
Lemma chunk_document_paragraphs (cfg : Config) splitter (E : env)
    (w : world E) (text : str) :
  lower (CHUNK_MODE cfg) <> py "semantic" ->
  value_of E (chunk_document cfg splitter text) w
  = filter truthy (map strip (split_on LF [LF] text)).
Proof.
  intros Hs. unfold chunk_document.
  destruct (str_eqb (lower (CHUNK_MODE cfg)) (py "semantic")) eqn:S.
  - apply QueryFacts.str_eqb_eq in S. contradiction.
  - destruct (str_eqb (lower (CHUNK_MODE cfg)) (py "paragraph"));
      autorewrite with run; now rewrite paragraph_loop_filter.
Qed.

(** X11.  A chunking mode that is neither "paragraph" nor "semantic"
    (letter case apart) is not an error: the text is chunked as in paragraph
    mode, and the one line logged is a warning about the unknown mode. *)
Theorem unknown_mode_falls_back_to_paragraphs (cfg : Config) splitter
    (E : env) (w : world E) (text : str) :
  lower (CHUNK_MODE cfg) <> py "paragraph" ->
  lower (CHUNK_MODE cfg) <> py "semantic" ->
  value_of E (chunk_document cfg splitter text) w
  = filter truthy (map strip (split_on LF [LF] text))
  /\ trace_of E (chunk_document cfg splitter text) w
     = [o_log WARNING msg_unknown_chunk_mode].
Proof.
  intros Hp Hs. split; [now apply chunk_document_paragraphs|].
  unfold chunk_document.
  destruct (str_eqb (lower (CHUNK_MODE cfg)) (py "paragraph")) eqn:P;
    [apply QueryFacts.str_eqb_eq in P; contradiction|].
  destruct (str_eqb (lower (CHUNK_MODE cfg)) (py "semantic")) eqn:S;
    [apply QueryFacts.str_eqb_eq in S; contradiction|].
  autorewrite with run. reflexivity.
Qed.

Lemma unknown_mode_falls_back_to_paragraphs_witness :
  lower (CHUNK_MODE DriverFixtures.unknown_mode_config) <> py "paragraph"
  /\ lower (CHUNK_MODE DriverFixtures.unknown_mode_config) <> py "semantic"
  /\ value_of Fixtures.all_up
       (chunk_document DriverFixtures.unknown_mode_config window_split
          (py "A" ++ [LF; LF] ++ py "B")) 0
     = [py "A"; py "B"]
  /\ trace_of Fixtures.all_up
       (chunk_document DriverFixtures.unknown_mode_config window_split
          (py "A" ++ [LF; LF] ++ py "B")) 0
     = [o_log WARNING msg_unknown_chunk_mode].
Proof.
  assert (Hp : lower (CHUNK_MODE DriverFixtures.unknown_mode_config)
               <> py "paragraph") by (vm_compute; discriminate).
  assert (Hs : lower (CHUNK_MODE DriverFixtures.unknown_mode_config)
               <> py "semantic") by (vm_compute; discriminate).
  split; [exact Hp|]. split; [exact Hs|].
  destruct (@unknown_mode_falls_back_to_paragraphs
              DriverFixtures.unknown_mode_config window_split Fixtures.all_up
              0 (py "A" ++ [LF; LF] ++ py "B") Hp Hs) as [Hv Ht].
  split; [|exact Ht]. rewrite Hv. now vm_compute.
Defined.

(** X12.  Outside the semantic mode every chunk is a piece of the text as
    it stands: it occurs in the text as a substring, and it contains no
    blank-line separator. *)
Theorem paragraph_chunks_are_substrings (cfg : Config) splitter (E : env)
    (w : world E) (text : str) :
  lower (CHUNK_MODE cfg) <> py "semantic" ->
  Forall (fun chunk => occurs chunk text = true
                       /\ occurs [LF; LF] chunk = false)
    (value_of E (chunk_document cfg splitter text) w).
Proof.
  intros Hs. rewrite chunk_document_paragraphs by exact Hs.
  apply Forall_forall. intros chunk Hin.
  apply filter_In in Hin as [Hin _].
  apply in_map_iff in Hin as (piece & <- & Hin).
  split.
  - apply occurs_trans with (c := piece); [apply strip_occurs|].
    rewrite <- (join_split_on LF [LF] text) at 1.
    now apply in_join_occurs.
  - pose proof (split_on_pieces_clean LF [LF] text) as Hc.
    eapply Forall_forall in Hc; [|exact Hin].
    destruct (occurs [LF; LF] (strip piece)) eqn:O; [|reflexivity].
    rewrite (occurs_trans _ _ _ O (strip_occurs piece)) in Hc. discriminate.
Qed.

Lemma paragraph_chunks_are_substrings_witness :
  lower (CHUNK_MODE Fixtures.default_config) <> py "semantic"
  /\ Forall (fun chunk =>
               occurs chunk (py " A " ++ [LF; LF; LF] ++ py "B") = true
               /\ occurs [LF; LF] chunk = false)
       (value_of Fixtures.all_up
          (chunk_document Fixtures.default_config window_split
             (py " A " ++ [LF; LF; LF] ++ py "B")) 0).
Proof.
  assert (Hs : lower (CHUNK_MODE Fixtures.default_config) <> py "semantic")
    by (vm_compute; discriminate).
  split; [exact Hs|].
  exact (@paragraph_chunks_are_substrings Fixtures.default_config window_split
           Fixtures.all_up 0 (py " A " ++ [LF; LF; LF] ++ py "B") Hs).
Defined.

(** X13.  Outside the semantic mode a text made of white space only, the
    empty text included, gives no chunk. *)
Theorem blank_text_has_no_chunks (cfg : Config) splitter (E : env)
    (w : world E) (text : str) :
  lower (CHUNK_MODE cfg) <> py "semantic" ->
  blank text = true ->
  value_of E (chunk_document cfg splitter text) w = [].
Proof.
  intros Hs Hb. rewrite chunk_document_paragraphs by exact Hs.
  assert (H : forall pieces : list str,
             Forall (fun piece => blank piece = true) pieces ->
             filter truthy (map strip pieces) = []).
  { induction 1 as [|piece pieces Hp _ IH]; [reflexivity|].
    cbn [map filter]. unfold strip at 1.
    rewrite (lstrip_blank piece Hp). cbn. exact IH. }
  apply H. apply Forall_forall. intros piece Hin.
  apply occurs_blank with (s := text); [|exact Hb].
  rewrite <- (join_split_on LF [LF] text) at 1.
  now apply in_join_occurs.
Qed.

Lemma blank_text_has_no_chunks_witness :
  lower (CHUNK_MODE Fixtures.default_config) <> py "semantic"
  /\ blank (py "  " ++ [LF; LF; 9%N; LF; LF; LF] ++ py " ") = true
  /\ value_of Fixtures.all_up
       (chunk_document Fixtures.default_config window_split
          (py "  " ++ [LF; LF; 9%N; LF; LF; LF] ++ py " ")) 0 = [].
Proof.
  assert (Hs : lower (CHUNK_MODE Fixtures.default_config) <> py "semantic")
    by (vm_compute; discriminate).
  assert (Hb : blank (py "  " ++ [LF; LF; 9%N; LF; LF; LF] ++ py " ") = true)
    by (vm_compute; reflexivity).
  split; [exact Hs|]. split; [exact Hb|].
  exact (@blank_text_has_no_chunks Fixtures.default_config window_split
           Fixtures.all_up 0 _ Hs Hb).
Defined.

(** X14.  Outside the semantic mode chunking adds nothing: the lengths of
    the chunks add up to at most the length of the text. *)
Theorem paragraph_chunks_fit_in_text (cfg : Config) splitter (E : env)
    (w : world E) (text : str) :
  lower (CHUNK_MODE cfg) <> py "semantic" ->
  list_sum (map (@length N) (value_of E (chunk_document cfg splitter text) w))
  <= length text.
Proof.
  intros Hs. rewrite chunk_document_paragraphs by exact Hs.
  eapply Nat.le_trans; [apply stripped_pieces_length|].
  rewrite <- (join_split_on LF [LF] text) at 2.
  apply join_length.
Qed.

Lemma paragraph_chunks_fit_in_text_witness :
  lower (CHUNK_MODE Fixtures.default_config) <> py "semantic"
  /\ list_sum
       (map (@length N)
          (value_of Fixtures.all_up
             (chunk_document Fixtures.default_config window_split
                (py " A " ++ [LF; LF; LF] ++ py "B")) 0))
     <= length (py " A " ++ [LF; LF; LF] ++ py "B").
Proof.
  assert (Hs : lower (CHUNK_MODE Fixtures.default_config) <> py "semantic")
    by (vm_compute; discriminate).
  split; [exact Hs|].
  exact (@paragraph_chunks_fit_in_text Fixtures.default_config window_split
           Fixtures.all_up 0 (py " A " ++ [LF; LF; LF] ++ py "B") Hs).
Defined.

End ParagraphFacts.

(** ** More on truncation and the summary *)
Module TruncationFacts.
Import PyFacts RunFacts PipelineFacts TokenFacts.

Section Accountant.

Variable encoding_for_model : str -> result Encoding.

(** X15.  Truncating twice is truncating once: for a text the tokenizer
    accepts and a budget that is not negative, when the decoded prefix of a
    cut re-encodes to no more tokens than it has, the truncated text is
    left as it is by a second truncation to the same budget. *)
Theorem truncate_text_idempotent (text : str) (budget : Z) (model : str)
    (enc : Encoding) (tokens : list N) :
  encoding_for_model model = Ok enc ->
  encode enc text = Ok tokens ->
  (0 <= budget)%Z ->
  ((budget < Z.of_nat (length tokens))%Z ->
   reencodes_within enc (firstn (Z.to_nat budget) tokens)) ->
  exists out,
    truncate_text encoding_for_model text budget model = Ok out
    /\ truncate_text encoding_for_model out budget model = Ok out.
Proof.
  intros He Ht Hb Hre.
  rewrite (@truncate_text_ok encoding_for_model text model budget enc tokens
             He Ht).
  eexists. split; [reflexivity|].
  destruct (Z.of_nat (length tokens) <=? budget)%Z eqn:Hfit.
  - rewrite (@truncate_text_ok encoding_for_model text model budget enc tokens
               He Ht).
    now rewrite Hfit.
  - apply Z.leb_gt in Hfit. destruct (Hre Hfit) as (ts' & Hts' & Hlen).
    rewrite slice_to_nonneg by exact Hb.
    rewrite (@truncate_text_ok encoding_for_model _ model budget enc ts'
               He Hts').
    rewrite length_firstn in Hlen.
    assert (Hfit' : (Z.of_nat (length ts') <=? budget)%Z = true)
      by (apply Z.leb_le; lia).
    now rewrite Hfit'.
Qed.

End Accountant.

Lemma truncate_text_idempotent_witness :
  Fixtures.known_models (py "gpt-4") = Ok Fixtures.char_encoding
  /\ (0 <= 2)%Z
  /\ exists out,
       truncate_text Fixtures.known_models (py "abc") 2 (py "gpt-4") = Ok out
       /\ truncate_text Fixtures.known_models out 2 (py "gpt-4") = Ok out.
Proof.
  assert (Hb : (0 <= 2)%Z) by lia.
  split; [reflexivity|]. split; [exact Hb|].
  exact (@truncate_text_idempotent Fixtures.known_models (py "abc") 2
           (py "gpt-4") Fixtures.char_encoding (py "abc") eq_refl eq_refl Hb
           (fun _ => char_encoding_reencodes _)).
Defined.

(** X17.  The summary [generate_summary] returns has no white space at
    either end, whether the generation call answered or raised: stripping
    it again changes nothing. *)
Theorem summary_is_trimmed (cfg : Config) enc (E : env) (w : world E)
    (text summary0 : str) :
  value_of E (generate_summary cfg enc text) w = Ok summary0 ->
  strip summary0 = summary0.
Proof.
  intros Hv.
  destruct (SummarizerFacts.generate_summary_run cfg enc E w text)
    as [(e & _ & _ & Hr)|(prompt & rc & l & m & _ & _ & Hr)];
    rewrite Hr in Hv; [discriminate|].
  injection Hv as <-. destruct rc as [a|e]; [apply strip_idem|reflexivity].
Qed.

Lemma summary_is_trimmed_witness :
  value_of Fixtures.all_up
    (generate_summary Fixtures.working_config Fixtures.known_models
       (py "Para one.")) 0 = Ok (py "A summary.")
  /\ strip (py "A summary.") = py "A summary.".
Proof.
  assert (H : value_of Fixtures.all_up
                (generate_summary Fixtures.working_config
                   Fixtures.known_models (py "Para one.")) 0
              = Ok (py "A summary.")) by (vm_compute; reflexivity).
  split; [exact H|].
  exact (@summary_is_trimmed Fixtures.working_config Fixtures.known_models
           Fixtures.all_up 0 (py "Para one.") (py "A summary.") H).
Defined.

End TruncationFacts.

(** ** Index administration and the batch driver *)
Module DriverFacts.
Import RunFacts IndexerFacts PipelineFacts HandlerFacts.

Lemma drun_bind (A B : Type) (E : driver_env) (m : driver A)
    (f : A -> driver B) (w : d_world E) :
  drun E (dbind m f) w =
  let '(a, tr1, w1) := drun E m w in
  let '(b, tr2, w2) := drun E (f a) w1 in
  (b, tr1 ++ tr2, w2).
Proof.
  revert w. induction m as [a|c k IH]; intros w; simpl.
  - now destruct (drun E (f a) w) as [[b tr2] w2].
  - destruct (d_answer E c w) as [x w1]. rewrite IH.
    destruct (drun E (k x) w1) as [[a tr1] w1'].
    now destruct (drun E (f a) w1') as [[b tr2] w2].
Qed.

Lemma dvalue_of_bind (A B : Type) (E : driver_env) (m : driver A)
    (f : A -> driver B) w :
  dvalue_of E (dbind m f) w
  = dvalue_of E (f (dvalue_of E m w)) (dstate_of E m w).
Proof.
  unfold dvalue_of, dstate_of. rewrite drun_bind.
  destruct (drun E m w) as [[a tr1] w1]. simpl.
  now destruct (drun E (f a) w1) as [[b tr2] w2].
Qed.

Lemma dtrace_of_bind (A B : Type) (E : driver_env) (m : driver A)
    (f : A -> driver B) w :
  dtrace_of E (dbind m f) w
  = dtrace_of E m w ++ dtrace_of E (f (dvalue_of E m w)) (dstate_of E m w).
Proof.
  unfold dtrace_of, dvalue_of, dstate_of. rewrite drun_bind.
  destruct (drun E m w) as [[a tr1] w1]. simpl.
  now destruct (drun E (f a) w1) as [[b tr2] w2].
Qed.

Lemma dstate_of_bind (A B : Type) (E : driver_env) (m : driver A)
    (f : A -> driver B) w :
  dstate_of E (dbind m f) w
  = dstate_of E (f (dvalue_of E m w)) (dstate_of E m w).
Proof.
  unfold dvalue_of, dstate_of. rewrite drun_bind.
  destruct (drun E m w) as [[a tr1] w1]. simpl.
  now destruct (drun E (f a) w1) as [[b tr2] w2].
Qed.

Lemma dvalue_of_perform (E : driver_env) (c : driver_call) w :
  dvalue_of E (dperform c) w = fst (d_answer E c w).
Proof. unfold dvalue_of, dperform. simpl. now destruct (d_answer E c w). Qed.

Lemma dtrace_of_perform (E : driver_env) (c : driver_call) w :
  dtrace_of E (dperform c) w = [driver_observe c (fst (d_answer E c w))].
Proof. unfold dtrace_of, dperform. simpl. now destruct (d_answer E c w). Qed.

Lemma dstate_of_perform (E : driver_env) (c : driver_call) w :
  dstate_of E (dperform c) w = snd (d_answer E c w).
Proof. unfold dstate_of, dperform. simpl. now destruct (d_answer E c w). Qed.

Lemma dvalue_of_ret (R : Type) (E : driver_env) (r : R) w :
  dvalue_of E (DRet r) w = r.
Proof. reflexivity. Qed.

Lemma dtrace_of_ret (R : Type) (E : driver_env) (r : R) w :
  dtrace_of E (DRet r) w = [].
Proof. reflexivity. Qed.

(** A pipeline program inside a driver runs as it does on its own, in the
    environment the driver's gives it. *)
Lemma drun_lift (R : Type) (E : driver_env) (p : prog R) (w : d_world E) :
  drun E (lift p) w =
  let '(r, tr, w') := run (pipeline_env E) p w in
  (r, map do_pipeline tr, w').
Proof.
  revert w. induction p as [r|c k IH]; intros w; [reflexivity|].
  cbn [lift drun run pipeline_env answer].
  destruct (d_answer E (d_pipeline c) w) as [x w1].
  rewrite IH. now destruct (run (pipeline_env E) (k x) w1) as [[r tr] w2].
Qed.

Lemma dvalue_of_lift (R : Type) (E : driver_env) (p : prog R) w :
  dvalue_of E (lift p) w = value_of (pipeline_env E) p w.
Proof.
  unfold dvalue_of, value_of. rewrite drun_lift.
  now destruct (run (pipeline_env E) p w) as [[r tr] w'].
Qed.

Lemma dtrace_of_lift (R : Type) (E : driver_env) (p : prog R) w :
  dtrace_of E (lift p) w = map do_pipeline (trace_of (pipeline_env E) p w).
Proof.
  unfold dtrace_of, trace_of. rewrite drun_lift.
  now destruct (run (pipeline_env E) p w) as [[r tr] w'].
Qed.

Create Rewrite HintDb drun.
#[export] Hint Rewrite dvalue_of_bind dtrace_of_bind dstate_of_bind
  dvalue_of_perform dtrace_of_perform dstate_of_perform
  dvalue_of_ret dtrace_of_ret dvalue_of_lift dtrace_of_lift : drun.

Lemma pipeline_trace_app (t1 t2 : list driver_obs) :
  pipeline_trace (t1 ++ t2) = pipeline_trace t1 ++ pipeline_trace t2.
Proof.
  induction t1 as [|o t1 IH]; [reflexivity|].
  destruct o; simpl; now rewrite ?IH.
Qed.

Lemma exists_checks_app (t1 t2 : list driver_obs) :
  exists_checks (t1 ++ t2) = exists_checks t1 ++ exists_checks t2.
Proof.
  induction t1 as [|o t1 IH]; [reflexivity|].
  destruct o; simpl; now rewrite ?IH.
Qed.

Lemma creations_app (t1 t2 : list driver_obs) :
  creations (t1 ++ t2) = creations t1 ++ creations t2.
Proof.
  induction t1 as [|o t1 IH]; [reflexivity|].
  destruct o; simpl; now rewrite ?IH.
Qed.

Lemma listings_app (t1 t2 : list driver_obs) :
  listings (t1 ++ t2) = listings t1 ++ listings t2.
Proof.
  induction t1 as [|o t1 IH]; [reflexivity|].
  destruct o; simpl; now rewrite ?IH.
Qed.

Lemma driver_logged_app (t1 t2 : list driver_obs) :
  driver_logged (t1 ++ t2) = driver_logged t1 ++ driver_logged t2.
Proof.
  induction t1 as [|o t1 IH]; [reflexivity|].
  destruct o; simpl; now rewrite ?IH.
Qed.

Lemma views_of_pipeline_part (tr : trace) :
  pipeline_trace (map do_pipeline tr) = tr
  /\ exists_checks (map do_pipeline tr) = []
  /\ creations (map do_pipeline tr) = []
  /\ listings (map do_pipeline tr) = []
  /\ driver_logged (map do_pipeline tr) = [].
Proof.
  induction tr as [|o tr (I1 & I2 & I3 & I4 & I5)]; cbn;
    rewrite ?I1; repeat split; auto.
Qed.

#[export] Hint Rewrite pipeline_trace_app exists_checks_app creations_app
  listings_app driver_logged_app : views.

(** The four runs of [create_index_if_not_exists]. *)
Lemma create_index_trace (E : driver_env) (w : d_world E) (index_name : str) :
  (exists e,
      dtrace_of E (create_index_if_not_exists index_name) w
      = [do_indices_exists index_name (Raise e)]
      /\ dvalue_of E (create_index_if_not_exists index_name) w = Raise e)
  \/ (dtrace_of E (create_index_if_not_exists index_name) w
      = [do_indices_exists index_name (Ok true);
         do_log INFO (msg_index_exists index_name)]
      /\ dvalue_of E (create_index_if_not_exists index_name) w = Ok tt)
  \/ (exists e,
         dtrace_of E (create_index_if_not_exists index_name) w
         = [do_indices_exists index_name (Ok false);
            do_indices_create index_name mapping (Raise e)]
         /\ dvalue_of E (create_index_if_not_exists index_name) w = Raise e)
  \/ (exists u,
         dtrace_of E (create_index_if_not_exists index_name) w
         = [do_indices_exists index_name (Ok false);
            do_indices_create index_name mapping (Ok u);
            do_log INFO (msg_index_created index_name)]
         /\ dvalue_of E (create_index_if_not_exists index_name) w = Ok tt).
Proof.
  unfold create_index_if_not_exists. autorewrite with drun.
  destruct (fst (d_answer E (d_indices_exists index_name) w))
    as [[|]|e] eqn:F; autorewrite with drun.
  - right; left. cbn. split; reflexivity.
  - match goal with
    | |- context [fst (d_answer E (d_indices_create ?i ?b) ?w')] =>
        destruct (fst (d_answer E (d_indices_create i b) w')) as [u|e] eqn:C
    end; autorewrite with drun.
    + right; right; right. exists u. cbn. split; reflexivity.
    + right; right; left. exists e. cbn. split; reflexivity.
  - left. exists e. cbn. split; reflexivity.
Qed.

(** X18.  Ensuring the index never overwrites it: the existence of the
    index is checked once; when it exists nothing is created; when it is
    missing it is created once, with the mapping of the source; and an
    exception of either call leaves the function, no creation being tried
    after a failed check. *)
Theorem index_is_created_only_when_missing (E : driver_env) (w : d_world E)
    (index_name : str) :
  exists found : result bool,
    exists_checks (dtrace_of E (create_index_if_not_exists index_name) w)
    = [(index_name, found)]
    /\ match found with
       | Ok true =>
           creations (dtrace_of E (create_index_if_not_exists index_name) w)
           = []
           /\ dvalue_of E (create_index_if_not_exists index_name) w = Ok tt
       | Ok false =>
           exists created : result unit,
             creations (dtrace_of E (create_index_if_not_exists index_name) w)
             = [(index_name, mapping, created)]
             /\ dvalue_of E (create_index_if_not_exists index_name) w
                = match created with Ok _ => Ok tt | Raise e => Raise e end
       | Raise e =>
           creations (dtrace_of E (create_index_if_not_exists index_name) w)
           = []
           /\ dvalue_of E (create_index_if_not_exists index_name) w = Raise e
       end.
Proof.
  destruct (create_index_trace E w index_name)
    as [(e & Ht & Hv)|[(Ht & Hv)|[(e & Ht & Hv)|(u & Ht & Hv)]]];
    rewrite Ht, Hv; cbn.
  - exists (Raise e). repeat split.
  - exists (Ok true). repeat split.
  - exists (Ok false). split; [reflexivity|]. now exists (Raise e).
  - exists (Ok false). split; [reflexivity|]. now exists (Ok u).
Qed.

(** X19.  The kinds used on both sides are the ones the mapping declares:
    the mapping's join field relates one parent kind to one child kind;
    every record [process_pdf_file] submits is of one of the two, the parent
    record of the parent kind and the chunk records of the child kind; the
    join [handle_query] asks for is on the child kind; and its lexical
    clause is on a field the mapping declares as text. *)
Theorem kinds_agree_with_mapping :
  exists parent_kind child_kind text_field : str,
    In (py "my_join_field", ft_join [(parent_kind, child_kind)])
       (mappings_properties mapping)
    /\ In (text_field, ft_text) (mappings_properties mapping)
    /\ (forall (cfg : Config) enc splitter (E : env) (w : world E)
               (path : str),
           Forall
             (Forall
                (fun a =>
                   match _source a with
                   | ParentSource p => parent_join_field p = parent_kind
                   | ChildSource c => name (my_join_field c) = child_kind
                   end))
             (submitted (trace_of E (process_pdf_file cfg enc splitter path) w)))
    /\ (forall (cfg : Config) (E : env) (w : world E) (request : MCPRequest),
           Forall
             (fun sent =>
                exists (s0 : script) (mode : str),
                  snd sent
                  = q_has_child child_kind
                      (q_script_score
                         (q_bool_should
                            [q_match text_field (request_query request)]) s0)
                      mode)
             (searches (trace_of E (handle_query cfg request) w))).
Proof.
  exists (py "document"), (py "chunk"), (py "chunk_text").
  split; [cbn; tauto|]. split; [cbn; tauto|]. split.
  - intros cfg enc splitter E w path.
    pose proof (process_pdf_file_run cfg enc splitter E w path) as H.
    cbn zeta in H.
    destruct H as [(e & _ & Hs & _)
                  |[(pages & e & _ & _ & Hs & _)
                   |(pages & prompt & pd & cs & _ & _ & Hs & _ & Hk & _ & _
                     & Hj & _)]];
      rewrite Hs; constructor; [|constructor].
    rewrite build_actions_shape. constructor; [exact Hk|].
    apply Forall_forall. intros a Hin.
    apply in_map_iff in Hin as (c & <- & Hc). cbn.
    eapply Forall_forall in Hj; [|exact Hc]. unfold linked_to in Hj.
    now rewrite Hj.
  - intros cfg E w request.
    destruct (handle_query_trace cfg E w request)
      as [(e' & Ht & _)|(v & rs & l & m & Ht & _)];
      rewrite Ht; cbn; constructor; [|constructor].
    cbn. unfold opensearch_query. eexists _, _. reflexivity.
Qed.

(** A file that was dealt with, whether it loaded or not, extends an
    outcome of the remaining files at the front. *)
Lemma loop_outcome_cons (cfg : Config) enc (path : str) (rest : list str)
    (value : result unit) (t_head t_rest : trace)
    (r : result (list str)) :
  loads t_head = [(path, r)] ->
  length (submitted t_head) = (if load_answered (path, r) then 1 else 0) ->
  loop_outcome cfg enc rest value t_rest ->
  loop_outcome cfg enc (path :: rest) value (t_head ++ t_rest).
Proof.
  intros Hl Hs [(Hv & Hf & Hn)
               |(e & done & path' & pages & later & earlier & Hv & Hf & Hld
                 & Hd & Hn & Htok)].
  - left. autorewrite with views. rewrite Hl, length_app, Hs, Hn.
    cbn [app map fst filter]. rewrite Hf.
    split; [exact Hv|]. split; [reflexivity|].
    destruct (load_answered (path, r)); reflexivity.
  - right. exists e, (path :: done), path', pages, later, ((path, r) :: earlier).
    autorewrite with views. rewrite Hl, length_app, Hs, Hn, Hld.
    cbn [app map fst filter]. rewrite Hf, Hd.
    repeat split; try assumption; try reflexivity.
    destruct (load_answered (path, r)); reflexivity.
Qed.

(** The loop over the files makes no call of the driver's own and ends in
    one of the two ways [loop_outcome] describes. *)
Lemma process_files_run (cfg : Config) enc splitter (E : driver_env)
    (pdf_files : list str) :
  forall w : d_world E,
    loop_outcome cfg enc pdf_files
      (dvalue_of E (process_files cfg enc splitter pdf_files) w)
      (pipeline_trace
         (dtrace_of E (process_files cfg enc splitter pdf_files) w))
    /\ exists_checks (dtrace_of E (process_files cfg enc splitter pdf_files) w)
       = []
    /\ creations (dtrace_of E (process_files cfg enc splitter pdf_files) w)
       = []
    /\ listings (dtrace_of E (process_files cfg enc splitter pdf_files) w)
       = []
    /\ driver_logged (dtrace_of E (process_files cfg enc splitter pdf_files) w)
       = [].
Proof.
  induction pdf_files as [|path rest IH]; intros w.
  - cbn. repeat split. left. repeat split.
  - cbn [process_files]. autorewrite with drun views.
    pose proof (process_pdf_file_run cfg enc splitter (pipeline_env E) w path)
      as H.
    cbn zeta in H.
    destruct (views_of_pipeline_part
                (trace_of (pipeline_env E)
                   (process_pdf_file cfg enc splitter path) w))
      as (V1 & V2 & V3 & V4 & V5).
    rewrite V1, V2, V3, V4, V5.
    destruct H as [(e & Hl & Hs & _ & Hv)
                  |[(pages & e & Hl & Htok & Hs & _ & _ & _ & Hv)
                   |(pages & prompt & pd & cs & Hl & _ & Hs & _ & _ & _ & _ & _
                     & Hv)]];
      rewrite Hv; cbv beta iota; autorewrite with drun views.
    + match goal with
      | |- context [dvalue_of E (process_files _ _ _ rest) ?w'] =>
          destruct (IH w') as (I1 & I4 & I5 & I6 & I7)
      end.
      rewrite I4, I5, I6, I7. repeat split.
      apply (@loop_outcome_cons cfg enc path rest _ _ _ (Raise e) Hl);
        [now rewrite Hs|exact I1].
    + cbn [pipeline_trace exists_checks creations listings driver_logged app].
      rewrite app_nil_r. split; [|repeat split].
      right. exists e, [], path, pages, rest, [].
      rewrite Hl, Hs. repeat split. exact Htok.
    + match goal with
      | |- context [dvalue_of E (process_files _ _ _ rest) ?w'] =>
          destruct (IH w') as (I1 & I4 & I5 & I6 & I7)
      end.
      rewrite I4, I5, I6, I7. repeat split.
      apply (@loop_outcome_cons cfg enc path rest _ _ _ (Ok pages) Hl);
        [now rewrite Hs|exact I1].
Qed.

(** X20.  A failure of the index check or of the index creation is fatal
    to the batch: [main] raises it, and no directory is listed and no
    pipeline call (load, generation, embedding, bulk) is made. *)
Theorem index_failure_stops_the_batch (cfg : Config) enc splitter
    (PDF_DIR : str) (E : driver_env) (w : d_world E) (e : exn) :
  (exists i, In (i, Raise e)
               (exists_checks (dtrace_of E (main cfg enc splitter PDF_DIR) w)))
  \/ (exists i b, In (i, b, Raise e)
                    (creations (dtrace_of E (main cfg enc splitter PDF_DIR) w))) ->
  dvalue_of E (main cfg enc splitter PDF_DIR) w = Raise e
  /\ listings (dtrace_of E (main cfg enc splitter PDF_DIR) w) = []
  /\ pipeline_trace (dtrace_of E (main cfg enc splitter PDF_DIR) w) = [].
Proof.
  unfold main. autorewrite with drun views.
  destruct (create_index_trace E w (OPENSEARCH_INDEX cfg))
    as [(e' & Ht & Hv)|[(Ht & Hv)|[(e' & Ht & Hv)|(u & Ht & Hv)]]];
    rewrite Ht, Hv; autorewrite with drun views.
  - cbn. intros [(i & [H|[]])|(i & b & [])].
    injection H as _ ->. repeat split.
  - set (files := fst (d_answer E (d_glob _) _)).
    destruct files as [|f fs] eqn:F; autorewrite with drun views.
    + cbn. intros [(i & [H|[]])|(i & b & [])]. discriminate.
    + destruct (process_files_run cfg enc splitter E (f :: fs)
                  (snd (d_answer E
                          (d_glob (os_path_join PDF_DIR (py "*.pdf")))
                          (dstate_of E
                             (create_index_if_not_exists (OPENSEARCH_INDEX cfg))
                             w))))
        as (_ & P4 & P5 & _).
      rewrite P4, P5. cbn. intros [(i & [H|[]])|(i & b & [])]. discriminate.
  - cbn. intros [(i & [H|[]])|(i & b & [H|[]])]; [discriminate|].
    injection H as _ _ ->. repeat split.
  - set (files := fst (d_answer E (d_glob _) _)).
    destruct files as [|f fs] eqn:F; autorewrite with drun views.
    + cbn. intros [(i & [H|[]])|(i & b & [H|[]])]; discriminate.
    + destruct (process_files_run cfg enc splitter E (f :: fs)
                  (snd (d_answer E
                          (d_glob (os_path_join PDF_DIR (py "*.pdf")))
                          (dstate_of E
                             (create_index_if_not_exists (OPENSEARCH_INDEX cfg))
                             w))))
        as (_ & P4 & P5 & _).
      rewrite P4, P5. cbn. intros [(i & [H|[]])|(i & b & [H|[]])]; discriminate.
Qed.

(** The runs of [main] that get past the index: one listing, then either a
    warning or the loop over the files. *)
Lemma main_run (cfg : Config) enc splitter (PDF_DIR : str) (E : driver_env)
    (w : d_world E) :
  listings (dtrace_of E (main cfg enc splitter PDF_DIR) w) = []
  \/ exists files,
       listings (dtrace_of E (main cfg enc splitter PDF_DIR) w)
       = [(os_path_join PDF_DIR (py "*.pdf"), files)]
       /\ loop_outcome cfg enc files
            (dvalue_of E (main cfg enc splitter PDF_DIR) w)
            (pipeline_trace (dtrace_of E (main cfg enc splitter PDF_DIR) w))
       /\ (files = [] ->
           pipeline_trace (dtrace_of E (main cfg enc splitter PDF_DIR) w) = []
           /\ dvalue_of E (main cfg enc splitter PDF_DIR) w = Ok tt
           /\ exists before,
                driver_logged (dtrace_of E (main cfg enc splitter PDF_DIR) w)
                = before ++ [(WARNING, msg_no_pdf_files PDF_DIR)]).
Proof.
  unfold main. autorewrite with drun views.
  destruct (create_index_trace E w (OPENSEARCH_INDEX cfg))
    as [(e' & Ht & Hv)|[(Ht & Hv)|[(e' & Ht & Hv)|(u & Ht & Hv)]]];
    rewrite Ht, Hv; autorewrite with drun views;
    try (left; reflexivity); right;
    match goal with
    | |- context [fst (d_answer E (d_glob ?p) ?w')] =>
        set (w1 := w'); set (files := fst (d_answer E (d_glob p) w1))
    end;
    exists files;
    (destruct files as [|f fs] eqn:F; autorewrite with drun views;
     [cbn; split; [reflexivity|]; split; [left; repeat split|];
      intros _; repeat split; eexists [_]; reflexivity|]);
    destruct (process_files_run cfg enc splitter E (f :: fs)
                (snd (d_answer E (d_glob (os_path_join PDF_DIR (py "*.pdf")))
                        w1)))
      as (P1 & P4 & P5 & P6 & P7);
    rewrite P6; cbn [listings pipeline_trace driver_observe app];
    (split; [reflexivity|]); (split; [exact P1|discriminate]).
Qed.

(** X21.  [main] lists the PDFs of the configured directory and hands the
    files of the listing to the loader in the listing's order.  A file that
    does not load, or whose generation, embedding or bulk call fails, does
    not stop the loop: when [main] returns [None], every listed file was
    handed to the loader once and one batch was submitted per file that
    loaded.  The loop ends early only when the tokenizer raises on the
    prompt of a loaded file: that file is the last one handed to the
    loader, the files after it are never opened, no batch is submitted for
    it, and [main] raises that error. *)
Theorem listed_files_are_processed_in_order (cfg : Config) enc splitter
    (PDF_DIR : str) (E : driver_env) (w : d_world E) (pattern : str)
    (files : list str) :
  In (pattern, files)
     (listings (dtrace_of E (main cfg enc splitter PDF_DIR) w)) ->
  pattern = os_path_join PDF_DIR (py "*.pdf")
  /\ ((dvalue_of E (main cfg enc splitter PDF_DIR) w = Ok tt
       /\ map fst
            (loads
               (pipeline_trace (dtrace_of E (main cfg enc splitter PDF_DIR) w)))
          = files
       /\ length
            (submitted
               (pipeline_trace (dtrace_of E (main cfg enc splitter PDF_DIR) w)))
          = length
              (filter
                 (fun l => match snd l with Ok _ => true | Raise _ => false end)
                 (loads
                    (pipeline_trace
                       (dtrace_of E (main cfg enc splitter PDF_DIR) w)))))
      \/ (exists (e : exn) (done : list str) (path : str) (pages : list str)
                 (later : list str)
                 (earlier : list (str * result (list str))),
             dvalue_of E (main cfg enc splitter PDF_DIR) w = Raise e
             /\ files = done ++ path :: later
             /\ loads
                  (pipeline_trace
                     (dtrace_of E (main cfg enc splitter PDF_DIR) w))
                = earlier ++ [(path, Ok pages)]
             /\ map fst earlier = done
             /\ length
                  (submitted
                     (pipeline_trace
                        (dtrace_of E (main cfg enc splitter PDF_DIR) w)))
                = length
                    (filter
                       (fun l =>
                          match snd l with Ok _ => true | Raise _ => false end)
                       earlier)
             /\ truncate_text enc (summary_prompt (join [LF; LF] pages))
                  (CONTEXT_MAX_TOKENS cfg) (OPENAI_SUMMARY_MODEL cfg)
                = Raise e)).
Proof.
  intros Hin.
  destruct (main_run cfg enc splitter PDF_DIR E w)
    as [Hl|(files' & Hl & Ho & _)];
    rewrite Hl in Hin; [destruct Hin|].
  destruct Hin as [Hin|[]]. injection Hin as <- <-.
  split; [reflexivity|exact Ho].
Qed.

Lemma listed_files_are_processed_in_order_witness :
  In (py "./pdfs/*.pdf", [py "a.pdf"; py "b.pdf"])
     (listings
        (dtrace_of
           (DriverFixtures.scripted_driver Fixtures.all_up (Ok true) (Ok tt)
              [py "a.pdf"; py "b.pdf"])
           (main Fixtures.working_config Fixtures.known_models window_split
              (py "./pdfs")) 0))
  /\ map fst
       (loads
          (pipeline_trace
             (dtrace_of
                (DriverFixtures.scripted_driver Fixtures.all_up (Ok true)
                   (Ok tt) [py "a.pdf"; py "b.pdf"])
                (main Fixtures.working_config Fixtures.known_models
                   window_split (py "./pdfs")) 0)))
     = [py "a.pdf"; py "b.pdf"].
Proof.
  assert (H : In (py "./pdfs/*.pdf", [py "a.pdf"; py "b.pdf"])
                (listings
                   (dtrace_of
                      (DriverFixtures.scripted_driver Fixtures.all_up (Ok true)
                         (Ok tt) [py "a.pdf"; py "b.pdf"])
                      (main Fixtures.working_config Fixtures.known_models
                         window_split (py "./pdfs")) 0)))
    by (vm_compute; left; reflexivity).
  split; [exact H|].
  destruct (@listed_files_are_processed_in_order Fixtures.working_config
              Fixtures.known_models window_split (py "./pdfs")
              (DriverFixtures.scripted_driver Fixtures.all_up (Ok true) (Ok tt)
                 [py "a.pdf"; py "b.pdf"])
              0 _ _ H)
    as (_ & [(_ & Hf & _)|(e & done & path & pages & later & earlier & Hv & _)]).
  - exact Hf.
  - vm_compute in Hv. discriminate Hv.
Defined.

(** With the settings the source falls back on, the run over two files ends
    at the first one: the tokenizer lookup raises on the summary model's
    name, [main] raises, nothing is submitted and the second file is never
    opened. *)
Example main_stops_at_unmapped_model :
  map fst
    (loads
       (pipeline_trace
          (dtrace_of
             (DriverFixtures.scripted_driver Fixtures.all_up (Ok true)
                (Ok tt) [py "a.pdf"; py "b.pdf"])
             (main Fixtures.default_config Fixtures.known_models
                window_split (py "./pdfs")) 0)))
  = [py "a.pdf"]
  /\ submitted
       (pipeline_trace
          (dtrace_of
             (DriverFixtures.scripted_driver Fixtures.all_up (Ok true)
                (Ok tt) [py "a.pdf"; py "b.pdf"])
             (main Fixtures.default_config Fixtures.known_models
                window_split (py "./pdfs")) 0))
     = []
  /\ dvalue_of
       (DriverFixtures.scripted_driver Fixtures.all_up (Ok true) (Ok tt)
          [py "a.pdf"; py "b.pdf"])
       (main Fixtures.default_config Fixtures.known_models window_split
          (py "./pdfs")) 0
     = Raise (Exception
                (py "Could not automatically map gpt4o-mini to a tokeniser.")).
Proof. repeat split; vm_compute; reflexivity. Qed.

(** X22.  With no PDF in the directory [main] stops after the listing: it
    logs a warning that names the directory, makes no pipeline call, and
    returns [None]. *)
Theorem empty_directory_only_warns (cfg : Config) enc splitter
    (PDF_DIR : str) (E : driver_env) (w : d_world E) (pattern : str) :
  In (pattern, [])
     (listings (dtrace_of E (main cfg enc splitter PDF_DIR) w)) ->
  pipeline_trace (dtrace_of E (main cfg enc splitter PDF_DIR) w) = []
  /\ dvalue_of E (main cfg enc splitter PDF_DIR) w = Ok tt
  /\ exists before,
       driver_logged (dtrace_of E (main cfg enc splitter PDF_DIR) w)
       = before ++ [(WARNING, msg_no_pdf_files PDF_DIR)].
Proof.
  intros Hin.
  destruct (main_run cfg enc splitter PDF_DIR E w)
    as [Hl|(files' & Hl & _ & He)];
    rewrite Hl in Hin; [destruct Hin|].
  destruct Hin as [Hin|[]]. injection Hin as _ ->.
  destruct (He eq_refl) as (Hp & Hv & Hw). repeat split; assumption.
Qed.

Lemma empty_directory_only_warns_witness :
  In (py "./pdfs/*.pdf", [])
     (listings
        (dtrace_of
           (DriverFixtures.scripted_driver Fixtures.all_up (Ok false) (Ok tt)
              [])
           (main Fixtures.default_config Fixtures.known_models window_split
              (py "./pdfs")) 0))
  /\ pipeline_trace
       (dtrace_of
          (DriverFixtures.scripted_driver Fixtures.all_up (Ok false) (Ok tt)
             [])
          (main Fixtures.default_config Fixtures.known_models window_split
             (py "./pdfs")) 0) = [].
Proof.
  assert (H : In (py "./pdfs/*.pdf", [])
                (listings
                   (dtrace_of
                      (DriverFixtures.scripted_driver Fixtures.all_up
                         (Ok false) (Ok tt) [])
                      (main Fixtures.default_config Fixtures.known_models
                         window_split (py "./pdfs")) 0)))
    by (vm_compute; left; reflexivity).
  split; [exact H|].
  exact (proj1
           (@empty_directory_only_warns Fixtures.default_config
              Fixtures.known_models window_split (py "./pdfs")
              (DriverFixtures.scripted_driver Fixtures.all_up (Ok false)
                 (Ok tt) [])
              0 _ H)).
Defined.

Lemma index_failure_stops_the_batch_witness :
  ((exists i,
       In (i, Raise Fixtures.boom)
          (exists_checks
             (dtrace_of
                (DriverFixtures.scripted_driver Fixtures.all_up
                   (Raise Fixtures.boom) (Ok tt) [py "a.pdf"])
                (main Fixtures.default_config Fixtures.known_models window_split
                   (py "./pdfs")) 0)))
   \/ (exists i b,
          In (i, b, Raise Fixtures.boom)
             (creations
                (dtrace_of
                   (DriverFixtures.scripted_driver Fixtures.all_up
                      (Raise Fixtures.boom) (Ok tt) [py "a.pdf"])
                   (main Fixtures.default_config Fixtures.known_models
                      window_split (py "./pdfs")) 0))))
  /\ dvalue_of
       (DriverFixtures.scripted_driver Fixtures.all_up (Raise Fixtures.boom)
          (Ok tt) [py "a.pdf"])
       (main Fixtures.default_config Fixtures.known_models window_split
          (py "./pdfs")) 0
     = Raise Fixtures.boom.
Proof.
  assert (H : (exists i,
                  In (i, Raise Fixtures.boom)
                     (exists_checks
                        (dtrace_of
                           (DriverFixtures.scripted_driver Fixtures.all_up
                              (Raise Fixtures.boom) (Ok tt) [py "a.pdf"])
                           (main Fixtures.default_config Fixtures.known_models
                              window_split (py "./pdfs")) 0)))
              \/ (exists i b,
                     In (i, b, Raise Fixtures.boom)
                        (creations
                           (dtrace_of
                              (DriverFixtures.scripted_driver Fixtures.all_up
                                 (Raise Fixtures.boom) (Ok tt) [py "a.pdf"])
                              (main Fixtures.default_config
                                 Fixtures.known_models window_split
                                 (py "./pdfs")) 0)))).
  { left. exists (py "documents"). vm_compute. left. reflexivity. }
  split; [exact H|].
  exact (proj1
           (@index_failure_stops_the_batch Fixtures.default_config
              Fixtures.known_models window_split (py "./pdfs")
              (DriverFixtures.scripted_driver Fixtures.all_up
                 (Raise Fixtures.boom) (Ok tt) [py "a.pdf"])
              0 Fixtures.boom H)).
Defined.

End DriverFacts.
